(** * S-Raft on EC2: a shallow embedding of [message.py] and [node.py]

    The development has three parts.
    - Python values and the few built-ins the sources rely on (slices,
      [str]/[int] on integers, ordered dictionaries).
    - [Message]: the codec of [message.py], over dynamically typed values,
      and [RaftNode]: the consensus node of [node.py], written in a small
      reader/state monad (clock, random source and transport are the
      environment; [self], the outbox and the callback trace are the state).
    - The properties of the node and of the codec.

    Python integers are [Z]; Python floats (clock readings, timeouts, RTTs)
    are exact rationals [Q]. *)

From Stdlib Require Import ZArith QArith Qabs Qround Lqa String Ascii List Lia Sorted.
From Stdlib Require Import DecimalString DecimalZ DecimalFacts DecimalPos.
From Stdlib Require Strings.Byte.
From stdpp Require Import gmap strings list.

Local Open Scope Z_scope.
Set Warnings "-register-all".

(* ===================================================================== *)
(** * Python values                                                       *)
(* ===================================================================== *)

(** Dictionary keys met in the sources are strings (field names) and
    integers (node ids in [sub_leaders]). *)
Inductive pykey : Type :=
| KStr (s : string)
| KInt (z : Z).

(** The value universe: what [json.loads] can return, plus [LogEntry]
    objects ([PEntry]) and dictionaries with integer keys, which exist only
    on the Python side of the codec. A dictionary is the list of its items
    in insertion order. *)
Inductive pyval : Type :=
| PNone
| PBool (b : bool)
| PInt (z : Z)
| PFloat (q : Q)
| PStr (s : string)
| PList (l : list pyval)
| PDict (d : list (pykey * pyval))
| PEntry (term command index : pyval).

Definition pykey_eqb (a b : pykey) : bool :=
  match a, b with
  | KStr s, KStr t => String.eqb s t
  | KInt x, KInt y => Z.eqb x y
  | _, _ => false
  end.

(** [d.get(k)] on a dictionary given by its items. *)
Fixpoint items_get {V : Type} (k : pykey) (d : list (pykey * V)) : option V :=
  match d with
  | [] => None
  | (k', v) :: d' => if pykey_eqb k k' then Some v else items_get k d'
  end.

(** [d[k] = v]: an existing key keeps its position, a new key goes last. *)
Fixpoint items_set {V : Type} (k : pykey) (v : V) (d : list (pykey * V)) : list (pykey * V) :=
  match d with
  | [] => [(k, v)]
  | (k', v') :: d' => if pykey_eqb k k' then (k, v) :: d' else (k', v') :: items_set k v d'
  end.

(** The same two operations for dictionaries keyed by node id. *)
Fixpoint dict_get {V : Type} (k : Z) (d : list (Z * V)) : option V :=
  match d with
  | [] => None
  | (k', v) :: d' => if Z.eqb k k' then Some v else dict_get k d'
  end.

Fixpoint dict_set {V : Type} (k : Z) (v : V) (d : list (Z * V)) : list (Z * V) :=
  match d with
  | [] => [(k, v)]
  | (k', v') :: d' => if Z.eqb k k' then (k, v) :: d' else (k', v') :: dict_set k v d'
  end.

Definition dict_mem {V : Type} (k : Z) (d : list (Z * V)) : bool :=
  match dict_get k d with Some _ => true | None => false end.

(** [d.get(key, default)] once the lookup is done. *)
Definition get_or {A : Type} (default : A) (o : option A) : A :=
  match o with Some x => x | None => default end.

(** [len(l)] as a Python integer. *)
Definition len {A : Type} (l : list A) : Z := Z.of_nat (length l).

(** A slice bound [i] of a sequence of length [n], as Python clamps it:
    negative bounds count from the end. *)
Definition slice_bound (n i : Z) : Z :=
  if i <? 0 then Z.max (i + n) 0 else Z.min i n.

(** [l[a:b]]. *)
Definition py_slice {A : Type} (l : list A) (a b : Z) : list A :=
  let lo := slice_bound (len l) a in
  let hi := slice_bound (len l) b in
  firstn (Z.to_nat (hi - lo)) (skipn (Z.to_nat lo) l).

(** [l[:b]]. *)
Definition py_take {A : Type} (l : list A) (b : Z) : list A := py_slice l 0 b.

(** [l[i]]; [None] stands for [IndexError]. *)
Definition py_getitem {A : Type} (l : list A) (i : Z) : option A :=
  if i <? 0
  then (if 0 <=? i + len l then nth_error l (Z.to_nat (i + len l)) else None)
  else nth_error l (Z.to_nat i).

(** [str(z)] and [int(s)] for decimal integers; [None] stands for
    [ValueError]. *)
Definition py_str_of_int (z : Z) : string := NilZero.string_of_int (Z.to_int z).

Definition py_int_of_str (s : string) : option Z :=
  match NilZero.int_of_string s with
  | Some d => Some (Z.of_int d)
  | None => None
  end.

(** Comparisons and truncation on floats. *)
Definition Qleb (a b : Q) : bool := Qle_bool a b.
Definition Qltb (a b : Q) : bool := negb (Qle_bool b a).

(** [max(a, b)] and [min(a, b)]: the first argument wins a tie. *)
Definition py_max (a b : Q) : Q := if Qltb a b then b else a.
Definition py_min (a b : Q) : Q := if Qltb b a then b else a.

(** [int(x)] on a float: truncation toward zero. *)
Definition py_int_of_float (x : Q) : Z :=
  if Qleb 0 x then Qfloor x else Qceiling x.

(** The integer nearest to [q], a tie going to the even one. *)
Definition round_half_even (q : Q) : Z :=
  let f := Qfloor q in
  let r := (q - inject_Z f)%Q in
  if Qltb r (1 # 2) then f
  else if Qltb (1 # 2) r then f + 1
  else if Z.even f then f else f + 1.

(** The binary64 value nearest to [q], ties to even: what a float operation
    returns when its exact result is [q].  The significand has 53 bits and
    the least exponent is -1022; magnitudes from [2 ^ 1024] on, where the
    operation overflows, are not met. *)
Definition binary64 (q : Q) : Q :=
  if Qeq_bool q 0 then 0
  else
    let a := Qabs q in
    let k := Z.log2 (Qnum a) - Z.log2 (Z.pos (Qden a)) in
    let e := if Qltb a (Qpower 2 k) then k - 1 else k in
    let ulp := Qpower 2 (Z.max e (-1022) - 52) in
    let m := (inject_Z (round_half_even (a / ulp)) * ulp)%Q in
    if Qltb q 0 then (- m)%Q else m.

(** [sorted(items, key=lambda x: x[1])]: a stable insertion sort. *)
Fixpoint insert_by_rtt (x : Z * Q) (l : list (Z * Q)) : list (Z * Q) :=
  match l with
  | [] => [x]
  | y :: l' => if Qltb (snd x) (snd y) then x :: y :: l' else y :: insert_by_rtt x l'
  end.

Definition sorted_by_rtt (l : list (Z * Q)) : list (Z * Q) :=
  fold_left (fun acc x => insert_by_rtt x acc) l [].

(** [enumerate(l)]. *)
Fixpoint enumerate_from {A : Type} (n : Z) (l : list A) : list (Z * A) :=
  match l with
  | [] => []
  | x :: l' => (n, x) :: enumerate_from (n + 1) l'
  end.

(** [range(n)]. *)
Definition py_range (n : Z) : list Z := seqZ 0 n.

(* ===================================================================== *)
(** * Messages as the node reads them                                     *)
(* ===================================================================== *)

(** [class LogEntry]: the command is an opaque JSON value. *)
Module LogEntry.
Record t : Type := mk { term : Z; command : pyval; index : Z }.
End LogEntry.

(** [class MessageType]: the type tag travels as a string. *)
Module MessageType.
Definition APPEND_ENTRIES : string := "AppendEntries".
Definition APPEND_ACK : string := "AppendAck".
Definition REQUEST_VOTE : string := "RequestVote".
Definition VOTE_RESPONSE : string := "VoteResponse".
Definition CLIENT_REQUEST : string := "ClientRequest".
Definition CLIENT_RESPONSE : string := "ClientResponse".
End MessageType.

(** [msg.data] at the types the node reads it: every key is optional, the
    handlers read with [data.get(key, default)]. *)
Module Data.
Record t : Type := mk {
  prev_log_index : option Z;
  prev_log_term : option Z;
  entries : option (list LogEntry.t);
  leader_commit : option Z;
  sub_leaders : option (list (Z * Z));
  success : option bool;
  match_index : option Z;
  last_log_index : option Z;
  last_log_term : option Z;
  vote_granted : option bool
}.
Definition empty : t := mk None None None None None None None None None None.
End Data.

(** [class Message], with [data] typed as above. *)
Module Msg.
Record t : Type := mk {
  type : string;
  sender_id : Z;
  term : Z;
  data : Data.t;
  timestamp : Q;
  message_id : string
}.
End Msg.

(** [Message.__init__]: the id is [f"{sender_id}_{int(timestamp * 1000000)}"],
    the product being a float product. *)
Definition new_message (msg_type : string) (sender_id term : Z) (data : Data.t) (timestamp : Q) : Msg.t :=
  Msg.mk msg_type sender_id term data timestamp
    (py_str_of_int sender_id ++ "_"
       ++ py_str_of_int (py_int_of_float (binary64 (timestamp * 1000000))))%string.

(** The four helper constructors of [message.py], at clock reading [ts]. *)
Definition create_append_entries (sender_id term prev_log_index prev_log_term : Z)
    (entries : list LogEntry.t) (leader_commit : Z) (sub_leaders : list (Z * Z)) (ts : Q) : Msg.t :=
  new_message MessageType.APPEND_ENTRIES sender_id term
    (Data.mk (Some prev_log_index) (Some prev_log_term) (Some entries) (Some leader_commit)
             (Some sub_leaders) None None None None None) ts.

Definition create_append_ack (sender_id term : Z) (success : bool) (match_index : Z) (ts : Q) : Msg.t :=
  new_message MessageType.APPEND_ACK sender_id term
    (Data.mk None None None None None (Some success) (Some match_index) None None None) ts.

Definition create_request_vote (sender_id term last_log_index last_log_term : Z) (ts : Q) : Msg.t :=
  new_message MessageType.REQUEST_VOTE sender_id term
    (Data.mk None None None None None None None (Some last_log_index) (Some last_log_term) None) ts.

Definition create_vote_response (sender_id term : Z) (vote_granted : bool) (ts : Q) : Msg.t :=
  new_message MessageType.VOTE_RESPONSE sender_id term
    (Data.mk None None None None None None None None None (Some vote_granted)) ts.

(* ===================================================================== *)
(** * Configuration                                                       *)
(* ===================================================================== *)

(** [class RaftConfig], the settings [node.py] reads (seconds). *)
Module RaftConfig.
Record t : Type := mk {
  heartbeat_interval : Q;
  election_timeout_base : Q;
  enable_subleader : bool;
  subleader_ratio : Q;
  primary_timeout_min : Q;
  primary_timeout_max : Q;
  secondary_timeout_min : Q;
  secondary_timeout_max : Q;
  follower_timeout_min : Q;
  follower_timeout_max : Q;
  promotion_timeout : Q;
  rtt_alpha : Q
}.

(** [RaftConfig.__init__]. *)
Definition default : t :=
  mk (5 # 100) (15 # 100) true (4 # 10)
     (15 # 100) (20 # 100) (25 # 100) (35 # 100) (30 # 100) (100 # 100)
     (3 # 10) (3 # 10).
End RaftConfig.

(* ===================================================================== *)
(** * The consensus node                                                  *)
(* ===================================================================== *)

(** [class NodeState]. *)
Inductive NodeState : Type := FOLLOWER | CANDIDATE | LEADER | STOPPED.

Definition NodeState_eqb (a b : NodeState) : bool :=
  match a, b with
  | FOLLOWER, FOLLOWER | CANDIDATE, CANDIDATE | LEADER, LEADER | STOPPED, STOPPED => true
  | _, _ => false
  end.

(** [self.stats]. *)
Module Stats.
Record t : Type := mk {
  elections_started : Z;
  votes_received_total : Z;
  became_leader_count : Z;
  became_subleader_count : Z;
  instant_promotions : Z;
  promotion_successes : Z;
  promotion_failures : Z
}.
Definition zero : t := mk 0 0 0 0 0 0 0.
Definition incr_elections_started (s : t) : t :=
  mk (elections_started s + 1) (votes_received_total s) (became_leader_count s)
     (became_subleader_count s) (instant_promotions s) (promotion_successes s) (promotion_failures s).
Definition incr_votes_received_total (s : t) : t :=
  mk (elections_started s) (votes_received_total s + 1) (became_leader_count s)
     (became_subleader_count s) (instant_promotions s) (promotion_successes s) (promotion_failures s).
Definition incr_became_leader_count (s : t) : t :=
  mk (elections_started s) (votes_received_total s) (became_leader_count s + 1)
     (became_subleader_count s) (instant_promotions s) (promotion_successes s) (promotion_failures s).
Definition incr_became_subleader_count (s : t) : t :=
  mk (elections_started s) (votes_received_total s) (became_leader_count s)
     (became_subleader_count s + 1) (instant_promotions s) (promotion_successes s) (promotion_failures s).
Definition incr_instant_promotions (s : t) : t :=
  mk (elections_started s) (votes_received_total s) (became_leader_count s)
     (became_subleader_count s) (instant_promotions s + 1) (promotion_successes s) (promotion_failures s).
Definition incr_promotion_successes (s : t) : t :=
  mk (elections_started s) (votes_received_total s) (became_leader_count s)
     (became_subleader_count s) (instant_promotions s) (promotion_successes s + 1) (promotion_failures s).
Definition incr_promotion_failures (s : t) : t :=
  mk (elections_started s) (votes_received_total s) (became_leader_count s)
     (became_subleader_count s) (instant_promotions s) (promotion_successes s) (promotion_failures s + 1).
End Stats.

(** Calls the node makes to the application callbacks and to the metrics
    collector, in order. *)
Inductive Call : Type :=
| OnBecomeLeader
| OnBecomeFollower
| OnLogCommitted (entry : LogEntry.t)
| RecordElectionTime (duration : Q) (winner_id : Z) (is_sub_leader : bool) (method : string)
| RecordPromotionFailure (node_id term ack_count required : Z).

Module RaftNode.

(** The attributes of [RaftNode.__init__]. [metrics] and the three
    [on_...] fields say whether a collector or a callback is installed. *)
Record t : Type := mk {
  id : Z;
  total_nodes : Z;
  config : RaftConfig.t;
  metrics : bool;
  on_become_leader : bool;
  on_become_follower : bool;
  on_log_committed : bool;
  state : NodeState;
  current_term : Z;
  voted_for : option Z;
  log : list LogEntry.t;
  commit_index : Z;
  last_applied : Z;
  leader_id : option Z;
  had_leader_before : bool;
  is_sub_leader : bool;
  subleader_rank : option Z;
  current_sub_leaders : list (Z * Z);
  subleaders_assigned : bool;
  leader_elected_time : option Q;
  response_times : list (Z * Q);
  message_sent_times : gmap Z Q;
  is_promotion_pending : bool;
  promotion_start_time : Q;
  promotion_ack_count : Z;
  promotion_ack_nodes : gset Z;
  promotion_confirmed : bool;
  last_majority_ack_time : Q;
  recent_ack_nodes : gset Z;
  next_index : gmap Z Z;
  match_index : gmap Z Z;
  votes_received : Z;
  voted_nodes : gset Z;
  election_start_time : Q;
  consecutive_election_failures : Z;
  last_heartbeat : Q;
  election_timeout : Q;
  running : bool;
  stats : Stats.t;
  startup_grace_period : bool;
  startup_time : Q;
  startup_grace_duration : Q
}.

Definition eta (s : t) : t :=
  mk (id s) (total_nodes s) (config s) (metrics s) (on_become_leader s) (on_become_follower s)
     (on_log_committed s) (state s) (current_term s) (voted_for s) (log s) (commit_index s)
     (last_applied s) (leader_id s) (had_leader_before s) (is_sub_leader s) (subleader_rank s)
     (current_sub_leaders s) (subleaders_assigned s) (leader_elected_time s) (response_times s)
     (message_sent_times s) (is_promotion_pending s) (promotion_start_time s)
     (promotion_ack_count s) (promotion_ack_nodes s) (promotion_confirmed s)
     (last_majority_ack_time s) (recent_ack_nodes s) (next_index s) (match_index s)
     (votes_received s) (voted_nodes s) (election_start_time s) (consecutive_election_failures s)
     (last_heartbeat s) (election_timeout s) (running s) (stats s) (startup_grace_period s)
     (startup_time s) (startup_grace_duration s).

(** [self.f = v]: the record with field [f] replaced. *)
Ltac assignment proj :=
  match type of proj with
  | t -> ?T =>
    exact (fun (v : T) (s : t) =>
      ltac:(let e := eval cbv beta delta [eta] in (eta s) in
            match eval pattern (proj s) in e with
            | ?f _ => let s' := eval cbv beta in (f v) in exact s'
            end))
  end.

Definition set_state : NodeState -> t -> t := ltac:(assignment state).
Definition set_current_term : Z -> t -> t := ltac:(assignment current_term).
Definition set_voted_for : option Z -> t -> t := ltac:(assignment voted_for).
Definition set_log : list LogEntry.t -> t -> t := ltac:(assignment log).
Definition set_commit_index : Z -> t -> t := ltac:(assignment commit_index).
Definition set_last_applied : Z -> t -> t := ltac:(assignment last_applied).
Definition set_leader_id : option Z -> t -> t := ltac:(assignment leader_id).
Definition set_had_leader_before : bool -> t -> t := ltac:(assignment had_leader_before).
Definition set_is_sub_leader : bool -> t -> t := ltac:(assignment is_sub_leader).
Definition set_subleader_rank : option Z -> t -> t := ltac:(assignment subleader_rank).
Definition set_current_sub_leaders : list (Z * Z) -> t -> t := ltac:(assignment current_sub_leaders).
Definition set_subleaders_assigned : bool -> t -> t := ltac:(assignment subleaders_assigned).
Definition set_leader_elected_time : option Q -> t -> t := ltac:(assignment leader_elected_time).
Definition set_response_times : list (Z * Q) -> t -> t := ltac:(assignment response_times).
Definition set_message_sent_times : gmap Z Q -> t -> t := ltac:(assignment message_sent_times).
Definition set_is_promotion_pending : bool -> t -> t := ltac:(assignment is_promotion_pending).
Definition set_promotion_start_time : Q -> t -> t := ltac:(assignment promotion_start_time).
Definition set_promotion_ack_count : Z -> t -> t := ltac:(assignment promotion_ack_count).
Definition set_promotion_ack_nodes : gset Z -> t -> t := ltac:(assignment promotion_ack_nodes).
Definition set_promotion_confirmed : bool -> t -> t := ltac:(assignment promotion_confirmed).
Definition set_last_majority_ack_time : Q -> t -> t := ltac:(assignment last_majority_ack_time).
Definition set_recent_ack_nodes : gset Z -> t -> t := ltac:(assignment recent_ack_nodes).
Definition set_next_index : gmap Z Z -> t -> t := ltac:(assignment next_index).
Definition set_match_index : gmap Z Z -> t -> t := ltac:(assignment match_index).
Definition set_votes_received : Z -> t -> t := ltac:(assignment votes_received).
Definition set_voted_nodes : gset Z -> t -> t := ltac:(assignment voted_nodes).
Definition set_election_start_time : Q -> t -> t := ltac:(assignment election_start_time).
Definition set_consecutive_election_failures : Z -> t -> t :=
  ltac:(assignment consecutive_election_failures).
Definition set_last_heartbeat : Q -> t -> t := ltac:(assignment last_heartbeat).
Definition set_election_timeout : Q -> t -> t := ltac:(assignment election_timeout).
Definition set_running : bool -> t -> t := ltac:(assignment running).
Definition set_stats : Stats.t -> t -> t := ltac:(assignment stats).
Definition set_startup_grace_period : bool -> t -> t := ltac:(assignment startup_grace_period).

(** ** The monad of a method call

    A method runs against an environment it only reads (the clock, the
    random source, the transport's connection count) and a state it
    updates: [self], the number of random draws taken, the messages handed
    to [transport.send] and the calls made to callbacks and metrics. *)

Record Env : Type := mkEnv {
  now : Q;
  rand : nat -> Q;
  connected : Z
}.

Record Run : Type := mkRun {
  self : t;
  draws : nat;
  sent : list (Z * Msg.t);
  calls : list Call
}.

Definition M (A : Type) : Type := Env -> Run -> A * Run.

#[export] Instance M_ret : MRet M := fun A x _ r => (x, r).
#[export] Instance M_bind : MBind M :=
  fun A B f c e r => let '(a, r') := c e r in f a e r'.

Definition get : M t := fun _ r => (self r, r).
Definition upd (f : t -> t) : M unit :=
  fun _ r => (tt, mkRun (f (self r)) (draws r) (sent r) (calls r)).
Definition skip : M unit := mret tt.

(** [time.time()]. *)
Definition time_time : M Q := fun e r => (now e, r).

(** [random.random()]: the next draw of the source, in [[0, 1)]. *)
Definition random_random : M Q :=
  fun e r => (rand e (draws r), mkRun (self r) (S (draws r)) (sent r) (calls r)).

(** [random.uniform(a, b)] is [a + (b - a) * random()]. *)
Definition random_uniform (a b : Q) : M Q :=
  u ← random_random; mret (a + (b - a) * u)%Q.

(** [self.transport.send(target_id, msg)]. *)
Definition transport_send (target_id : Z) (msg : Msg.t) : M unit :=
  fun _ r => (tt, mkRun (self r) (draws r) (sent r ++ [(target_id, msg)]) (calls r)).

(** [self.transport.get_connected_count()]. *)
Definition transport_get_connected_count : M Z := fun e r => (connected e, r).

Definition call (c : Call) : M unit :=
  fun _ r => (tt, mkRun (self r) (draws r) (sent r) (calls r ++ [c])).

(** [for x in l: body(x)]. *)
Fixpoint for_each {A : Type} (l : list A) (body : A -> M unit) : M unit :=
  match l with
  | [] => skip
  | x :: l' => body x;; for_each l' body
  end.

(** [if c: body]. *)
Definition when (c : bool) (body : M unit) : M unit := if c then body else skip.

(** The value and the final state of a call. *)
Definition run_value {A : Type} (c : M A) (e : Env) (r : Run) : A := fst (c e r).
Definition run_state {A : Type} (c : M A) (e : Env) (r : Run) : Run := snd (c e r).

(** A node before any call, with empty outbox and trace. *)
Definition start (s : t) : Run := mkRun s 0 [] [].

(** ** Methods *)

Definition opt_is (o : option Z) (z : Z) : bool :=
  match o with Some x => x =? z | None => false end.

(** The term of [log[i]]; every use is guarded so that [i] is in range. *)
Definition term_at (l : list LogEntry.t) (i : Z) : Z :=
  match py_getitem l i with Some e => LogEntry.term e | None => 0 end.

(** [self.log[-1].term if self.log else 0]. *)
Definition last_term (l : list LogEntry.t) : Z :=
  match l with [] => 0 | _ => term_at l (-1) end.

(** [(self.total_nodes // 2) + 1]. *)
Definition majority_of (s : t) : Z := total_nodes s / 2 + 1.

(** The targets of [for i in range(self.total_nodes): if i != self.id]. *)
Definition others (s : t) : list Z :=
  List.filter (fun i => negb (i =? id s)) (py_range (total_nodes s)).

(** [self.id % self.total_nodes] raises [ZeroDivisionError] in a cluster of
    no node; the properties that reach it are stated for
    [total_nodes <> 0]. *)
Definition _reset_election_timer : M Q :=
  s ← get;
  let cfg := config s in
  if negb (had_leader_before s) then
    let base_offset := (inject_Z (id s) * (5 # 100))%Q in
    random_uniform (RaftConfig.election_timeout_base cfg + base_offset)%Q
                   (RaftConfig.election_timeout_base cfg * 2 + base_offset)%Q
  else
    let id_offset := (inject_Z (id s mod total_nodes s) * (15 # 100))%Q in
    let follower :=
      random_uniform (RaftConfig.follower_timeout_min cfg + id_offset)%Q
                     (RaftConfig.follower_timeout_max cfg + id_offset)%Q in
    if RaftConfig.enable_subleader cfg && is_sub_leader s then
      if opt_is (subleader_rank s) 0 then
        random_uniform (RaftConfig.primary_timeout_min cfg) (RaftConfig.primary_timeout_max cfg)
      else if opt_is (subleader_rank s) 1 then
        random_uniform (RaftConfig.secondary_timeout_min cfg) (RaftConfig.secondary_timeout_max cfg)
      else follower
    else follower.

Definition _step_down_to_follower : M unit :=
  upd (set_state FOLLOWER);;
  upd (set_is_promotion_pending false);;
  upd (set_promotion_confirmed false);;
  upd (set_promotion_ack_count 0);;
  upd (set_promotion_ack_nodes ∅);;
  upd (set_voted_for None);;
  upd (set_is_sub_leader false);;
  upd (set_subleader_rank None);;
  upd (set_leader_id None);;
  ts ← time_time; upd (set_last_heartbeat ts);;
  timeout ← _reset_election_timer; upd (set_election_timeout timeout);;
  s ← get;
  when (on_become_follower s) (call OnBecomeFollower).

Definition _init_log_tracking : M unit :=
  upd (set_next_index ∅);;
  upd (set_match_index ∅);;
  s ← get;
  for_each (others s) (fun i =>
    s ← get;
    upd (set_next_index (<[i := len (log s) + 1]> (next_index s)));;
    s ← get;
    upd (set_match_index (<[i := 0]> (match_index s)))).

(** [subleader_map[node_id] = rank] over
    [enumerate(sorted_nodes[:num_sub_leaders])]. *)
Definition designate (response_times : list (Z * Q)) (num_sub_leaders : Z) : list (Z * Z) :=
  fold_left (fun m '(rank, (node_id, _)) => dict_set node_id rank m)
            (enumerate_from 0 (py_take (sorted_by_rtt response_times) num_sub_leaders)) [].

(** [_send_append_entries], first half: the sub-leader table attached to
    the broadcast. A leader designates its sub-leaders once, when it has a
    measured RTT for enough peers. *)
Definition sub_leader_table : M (list (Z * Z)) :=
  s ← get;
  let cfg := config s in
  if RaftConfig.enable_subleader cfg then
    let num_sub_leaders :=
      py_int_of_float (inject_Z (total_nodes s) * RaftConfig.subleader_ratio cfg) in
    if subleaders_assigned s then mret (current_sub_leaders s)
    else if negb (len (response_times s) =? 0) && (num_sub_leaders <=? len (response_times s)) then
      let subleader_map := designate (response_times s) num_sub_leaders in
      upd (set_current_sub_leaders subleader_map);;
      upd (set_subleaders_assigned true);;
      mret subleader_map
    else mret []
  else mret [].

(** The message a promoting candidate sends to every peer. *)
Definition claim_to (s : t) (subleader_map : list (Z * Z)) (ts : Q) : Msg.t :=
  create_append_entries (id s) (current_term s) 0 0 [] (len (log s)) subleader_map ts.

(** The message a leader sends to peer [i]. *)
Definition heartbeat_to (s : t) (subleader_map : list (Z * Z)) (ts : Q) (i : Z) : Msg.t :=
  let next_idx := get_or (len (log s) + 1) (next_index s !! i) in
  let prev_log_index := next_idx - 1 in
  let prev_log_term :=
    if (0 <? prev_log_index) && (prev_log_index <=? len (log s))
    then term_at (log s) (prev_log_index - 1) else 0 in
  let entries :=
    if next_idx <=? len (log s)
    then py_slice (log s) (next_idx - 1) (Z.min (next_idx + 99) (len (log s)))
    else [] in
  create_append_entries (id s) (current_term s) prev_log_index prev_log_term
    entries (commit_index s) subleader_map ts.

Definition _send_append_entries : M unit :=
  subleader_map ← sub_leader_table;
  s ← get;
  upd (set_recent_ack_nodes {[ id s ]});;
  current_time ← time_time;
  s ← get;
  (if is_promotion_pending s then
     for_each (others s) (fun i =>
       s ← get;
       ts ← time_time;
       upd (set_message_sent_times (<[i := current_time]> (message_sent_times s)));;
       transport_send i (claim_to s subleader_map ts))
   else
     for_each (others s) (fun i =>
       s ← get;
       ts ← time_time;
       upd (set_message_sent_times (<[i := current_time]> (message_sent_times s)));;
       transport_send i (heartbeat_to s subleader_map ts i)));;
  ts ← time_time; upd (set_last_heartbeat ts).

Definition _become_leader_from_promotion : M unit :=
  ts ← time_time;
  s ← get;
  let elapsed := (ts - promotion_start_time s)%Q in
  upd (set_state LEADER);;
  upd (set_leader_id (Some (id s)));;
  upd (set_promotion_confirmed true);;
  upd (set_is_promotion_pending false);;
  upd (set_consecutive_election_failures 0);;
  upd (fun s => set_stats (Stats.incr_promotion_successes (stats s)) s);;
  upd (fun s => set_stats (Stats.incr_became_leader_count (stats s)) s);;
  ts ← time_time; upd (set_last_majority_ack_time ts);;
  upd (set_recent_ack_nodes {[ id s ]});;
  _init_log_tracking;;
  upd (set_subleaders_assigned false);;
  upd (set_current_sub_leaders []);;
  ts ← time_time; upd (set_leader_elected_time (Some ts));;
  when (metrics s) (call (RecordElectionTime elapsed (id s) true "instant_promotion"));;
  when (on_become_leader s) (call OnBecomeLeader);;
  _send_append_entries.

Definition _become_leader_from_election : M unit :=
  ts ← time_time;
  s ← get;
  let elapsed := (ts - election_start_time s)%Q in
  upd (set_state LEADER);;
  upd (set_leader_id (Some (id s)));;
  upd (set_is_sub_leader false);;
  upd (set_subleader_rank None);;
  upd (set_had_leader_before true);;
  upd (set_consecutive_election_failures 0);;
  upd (fun s => set_stats (Stats.incr_became_leader_count (stats s)) s);;
  ts ← time_time; upd (set_last_majority_ack_time ts);;
  upd (set_recent_ack_nodes {[ id s ]});;
  _init_log_tracking;;
  upd (set_subleaders_assigned false);;
  upd (set_current_sub_leaders []);;
  ts ← time_time; upd (set_leader_elected_time (Some ts));;
  when (metrics s) (call (RecordElectionTime elapsed (id s) false "voting"));;
  when (on_become_leader s) (call OnBecomeLeader);;
  _send_append_entries.

Definition _check_promotion_success : M unit :=
  ts ← time_time;
  s ← get;
  let elapsed := (ts - promotion_start_time s)%Q in
  let majority := majority_of s in
  if (majority <=? Z.of_nat (size (promotion_ack_nodes s))) && NodeState_eqb (state s) CANDIDATE then
    _become_leader_from_promotion
  else if Qltb (RaftConfig.promotion_timeout (config s)) elapsed then
    upd (fun s => set_stats (Stats.incr_promotion_failures (stats s)) s);;
    when (metrics s)
      (call (RecordPromotionFailure (id s) (current_term s)
               (Z.of_nat (size (promotion_ack_nodes s))) majority));;
    _step_down_to_follower
  else skip.

(** One turn of [while self.last_applied < self.commit_index]. *)
Definition apply_next : M unit :=
  s ← get;
  upd (set_last_applied (last_applied s + 1));;
  s ← get;
  when (last_applied s <=? len (log s))
    (match py_getitem (log s) (last_applied s - 1) with
     | Some entry => when (on_log_committed s) (call (OnLogCommitted entry))
     | None => skip
     end).

Fixpoint apply_loop (turns : nat) : M unit :=
  match turns with
  | O => skip
  | S turns' =>
      s ← get;
      if last_applied s <? commit_index s then apply_next;; apply_loop turns' else skip
  end.

(** The loop runs [commit_index - last_applied] turns, no turn changes
    [commit_index]. *)
Definition _apply_committed_entries : M unit :=
  s ← get;
  apply_loop (Z.to_nat (commit_index s - last_applied s)).

Definition _instant_promotion : M unit :=
  connected ← transport_get_connected_count;
  if connected <? 2 then
    ts ← time_time; upd (set_last_heartbeat ts);;
    base ← _reset_election_timer;
    extra ← random_uniform (5 # 10) 1;
    upd (set_election_timeout (base + extra)%Q)
  else
    s ← get;
    upd (set_state CANDIDATE);;
    upd (set_current_term (current_term s + 1));;
    upd (set_voted_for (Some (id s)));;
    upd (set_is_sub_leader false);;
    upd (set_subleader_rank None);;
    upd (set_leader_id None);;
    upd (set_had_leader_before true);;
    upd (set_promotion_ack_count 0);;
    upd (set_promotion_ack_nodes {[ id s ]});;
    ts ← time_time; upd (set_promotion_start_time ts);;
    upd (set_promotion_confirmed false);;
    upd (set_is_promotion_pending true);;
    upd (fun s => set_stats (Stats.incr_instant_promotions (stats s)) s);;
    _send_append_entries;;
    ts ← time_time; upd (set_last_heartbeat ts).

Definition _start_election : M unit :=
  s ← get;
  if 3 <=? consecutive_election_failures s then
    let backoff :=
      py_min 3 (inject_Z (2 ^ (consecutive_election_failures s - 2)) * (1 # 10))%Q in
    ts ← time_time; upd (set_last_heartbeat ts);;
    base ← _reset_election_timer;
    upd (set_election_timeout (base + backoff)%Q);;
    upd (set_consecutive_election_failures (consecutive_election_failures s + 1));;
    s ← get;
    when (8 <? consecutive_election_failures s) (upd (set_consecutive_election_failures 0))
  else
    connected ← transport_get_connected_count;
    if connected <? 2 then
      upd (set_consecutive_election_failures (consecutive_election_failures s + 1));;
      ts ← time_time; upd (set_last_heartbeat ts);;
      base ← _reset_election_timer;
      extra ← random_uniform (5 # 10) 1;
      upd (set_election_timeout (base + extra)%Q)
    else
      upd (set_state CANDIDATE);;
      upd (set_current_term (current_term s + 1));;
      upd (set_voted_for (Some (id s)));;
      upd (set_votes_received 1);;
      upd (set_voted_nodes {[ id s ]});;
      ts ← time_time; upd (set_election_start_time ts);;
      upd (set_is_sub_leader false);;
      upd (set_subleader_rank None);;
      upd (fun s => set_stats (Stats.incr_elections_started (stats s)) s);;
      for_each (others s) (fun i =>
        s ← get;
        ts ← time_time;
        transport_send i
          (create_request_vote (id s) (current_term s) (len (log s)) (last_term (log s)) ts));;
      ts ← time_time; upd (set_last_heartbeat ts);;
      base ← _reset_election_timer;
      extra ← random_uniform 0 (1 # 10);
      upd (set_election_timeout (base + extra)%Q);;
      s ← get;
      upd (set_consecutive_election_failures (consecutive_election_failures s + 1)).

Definition _check_timers : M unit :=
  now ← time_time;
  s ← get;
  match state s with
  | LEADER =>
      when (is_promotion_pending s) _check_promotion_success;;
      s ← get;
      let lease_timeout := py_max (RaftConfig.heartbeat_interval (config s) * 30)%Q 3 in
      if Qltb lease_timeout (now - last_majority_ack_time s)%Q then
        _step_down_to_follower
      else
        when (Qleb (RaftConfig.heartbeat_interval (config s)) (now - last_heartbeat s)%Q)
          _send_append_entries
  | CANDIDATE =>
      when (is_promotion_pending s) _check_promotion_success
  | _ =>
      if startup_grace_period s && Qltb (now - startup_time s)%Q (startup_grace_duration s) then
        upd (set_last_heartbeat now)
      else
        when (startup_grace_period s) (upd (set_startup_grace_period false));;
        s ← get;
        when (Qleb (election_timeout s) (now - last_heartbeat s)%Q)
          (if RaftConfig.enable_subleader (config s) && is_sub_leader s
           then _instant_promotion
           else _start_election)
  end.

Definition _handle_append_entries (msg : Msg.t) : M unit :=
  s ← get;
  if Msg.term msg <? current_term s then
    ts ← time_time;
    transport_send (Msg.sender_id msg) (create_append_ack (id s) (current_term s) false 0 ts)
  else
    ts ← time_time; upd (set_last_heartbeat ts);;
    upd (set_consecutive_election_failures 0);;
    upd (set_startup_grace_period false);;
    when (NodeState_eqb (state s) CANDIDATE && (Msg.term msg =? current_term s))
      (upd (set_state FOLLOWER);;
       upd (set_is_promotion_pending false);;
       upd (set_promotion_confirmed false));;
    upd (set_state FOLLOWER);;
    upd (set_current_term (Msg.term msg));;
    upd (set_leader_id (Some (Msg.sender_id msg)));;
    when (negb (had_leader_before s))
      (upd (set_had_leader_before true);;
       timeout ← _reset_election_timer; upd (set_election_timeout timeout));;
    match Data.sub_leaders (Msg.data msg) with
    | Some sub_leaders =>
        when (RaftConfig.enable_subleader (config s))
          (upd (set_current_sub_leaders sub_leaders);;
           s ← get;
           let was_sub_leader := is_sub_leader s in
           upd (set_is_sub_leader (dict_mem (id s) sub_leaders));;
           if dict_mem (id s) sub_leaders then
             upd (set_subleader_rank (dict_get (id s) sub_leaders));;
             when (negb was_sub_leader)
               (upd (fun s => set_stats (Stats.incr_became_subleader_count (stats s)) s));;
             timeout ← _reset_election_timer; upd (set_election_timeout timeout)
           else upd (set_subleader_rank None))
    | None => skip
    end;;
    let prev_log_index := get_or 0 (Data.prev_log_index (Msg.data msg)) in
    let prev_log_term := get_or 0 (Data.prev_log_term (Msg.data msg)) in
    s ← get;
    log_ok ←
      (if 0 <? prev_log_index then
         if len (log s) <? prev_log_index then mret false
         else if negb (term_at (log s) (prev_log_index - 1) =? prev_log_term) then
           upd (set_log (py_take (log s) (prev_log_index - 1)));; mret false
         else mret true
       else mret true);
    if negb log_ok then
      s ← get;
      ts ← time_time;
      transport_send (Msg.sender_id msg)
        (create_append_ack (id s) (current_term s) false (len (log s)) ts)
    else
      let entries := get_or [] (Data.entries (Msg.data msg)) in
      when (negb (len entries =? 0))
        (s ← get; upd (set_log (py_take (log s) prev_log_index ++ entries)));;
      let leader_commit := get_or 0 (Data.leader_commit (Msg.data msg)) in
      s ← get;
      when (commit_index s <? leader_commit)
        (upd (set_commit_index (Z.min leader_commit (len (log s))));;
         _apply_committed_entries);;
      s ← get;
      ts ← time_time;
      transport_send (Msg.sender_id msg)
        (create_append_ack (id s) (current_term s) true (len (log s)) ts).

Definition _handle_append_ack (msg : Msg.t) : M unit :=
  s ← get;
  if negb (NodeState_eqb (state s) LEADER || NodeState_eqb (state s) CANDIDATE) then skip
  else if current_term s <? Msg.term msg then _step_down_to_follower
  else if Msg.term msg <? current_term s then skip
  else
    let sender_id := Msg.sender_id msg in
    let success := get_or false (Data.success (Msg.data msg)) in
    if negb success && NodeState_eqb (state s) LEADER && negb (is_promotion_pending s) then
      match next_index s !! sender_id with
      | Some n => upd (set_next_index (<[sender_id := Z.max 1 (n - 1)]> (next_index s)))
      | None => skip
      end
    else
      when (is_promotion_pending s && success)
        (when (negb (bool_decide (sender_id ∈ promotion_ack_nodes s)))
           (upd (set_promotion_ack_nodes ({[ sender_id ]} ∪ promotion_ack_nodes s));;
            upd (set_promotion_ack_count (promotion_ack_count s + 1));;
            s ← get;
            let majority := majority_of s in
            when ((majority <=? Z.of_nat (size (promotion_ack_nodes s)))
                  && NodeState_eqb (state s) CANDIDATE)
              _become_leader_from_promotion));;
      s ← get;
      when (NodeState_eqb (state s) LEADER && negb (is_promotion_pending s) && success)
        (upd (set_recent_ack_nodes ({[ sender_id ]} ∪ recent_ack_nodes s));;
         let match_index_ := get_or 0 (Data.match_index (Msg.data msg)) in
         match match_index s !! sender_id with
         | Some m =>
             upd (set_match_index (<[sender_id := Z.max m match_index_]> (match_index s)));;
             upd (set_next_index (<[sender_id := Z.max m match_index_ + 1]> (next_index s)))
         | None => skip
         end;;
         s ← get;
         let majority := majority_of s in
         when (majority <=? Z.of_nat (size (recent_ack_nodes s)))
           (ts ← time_time; upd (set_last_majority_ack_time ts)));;
      s ← get;
      match message_sent_times s !! sender_id with
      | Some sent_time =>
          when success
            (ts ← time_time;
             let rtt := (ts - sent_time)%Q in
             let alpha := RaftConfig.rtt_alpha (config s) in
             match dict_get sender_id (response_times s) with
             | Some old =>
                 upd (set_response_times
                        (dict_set sender_id (alpha * rtt + (1 - alpha) * old)%Q (response_times s)))
             | None => upd (set_response_times (dict_set sender_id rtt (response_times s)))
             end)
      | None => skip
      end.

Definition _handle_request_vote (msg : Msg.t) : M unit :=
  s ← get;
  when (current_term s <? Msg.term msg)
    (upd (set_current_term (Msg.term msg));;
     upd (set_voted_for None);;
     upd (set_state FOLLOWER);;
     upd (set_is_sub_leader false);;
     upd (set_subleader_rank None));;
  s ← get;
  grant ←
    (if current_term s <=? Msg.term msg then
       if NodeState_eqb (state s) LEADER && (Msg.term msg =? current_term s) then mret false
       else if match voted_for s with None => true | Some v => v =? Msg.sender_id msg end then
         let last_log_index := len (log s) in
         let last_log_term := last_term (log s) in
         let candidate_last_index := get_or 0 (Data.last_log_index (Msg.data msg)) in
         let candidate_last_term := get_or 0 (Data.last_log_term (Msg.data msg)) in
         if (last_log_term <? candidate_last_term)
            || ((candidate_last_term =? last_log_term) && (last_log_index <=? candidate_last_index))
         then
           upd (set_voted_for (Some (Msg.sender_id msg)));;
           ts ← time_time; upd (set_last_heartbeat ts);;
           mret true
         else mret false
       else mret false
     else mret false);
  s ← get;
  ts ← time_time;
  transport_send (Msg.sender_id msg) (create_vote_response (id s) (current_term s) grant ts).

Definition _handle_vote_response (msg : Msg.t) : M unit :=
  s ← get;
  if negb (NodeState_eqb (state s) CANDIDATE) then skip
  else if current_term s <? Msg.term msg then _step_down_to_follower
  else if Msg.term msg <? current_term s then skip
  else
    when (get_or false (Data.vote_granted (Msg.data msg)))
      (if bool_decide (Msg.sender_id msg ∈ voted_nodes s) then skip
       else
         upd (set_votes_received (votes_received s + 1));;
         upd (set_voted_nodes ({[ Msg.sender_id msg ]} ∪ voted_nodes s));;
         upd (fun s => set_stats (Stats.incr_votes_received_total (stats s)) s);;
         s ← get;
         when (Qltb (inject_Z (total_nodes s) / 2)%Q (inject_Z (votes_received s)))
           _become_leader_from_election).

Definition _handle_message (msg : Msg.t) : M unit :=
  s ← get;
  when (current_term s <? Msg.term msg)
    (upd (set_current_term (Msg.term msg));;
     _step_down_to_follower);;
  if String.eqb (Msg.type msg) MessageType.APPEND_ENTRIES then _handle_append_entries msg
  else if String.eqb (Msg.type msg) MessageType.APPEND_ACK then _handle_append_ack msg
  else if String.eqb (Msg.type msg) MessageType.REQUEST_VOTE then _handle_request_vote msg
  else if String.eqb (Msg.type msg) MessageType.VOTE_RESPONSE then _handle_vote_response msg
  else skip.

(** ** Entries that arrive as dictionaries

    [msg.data['entries']] holds [LogEntry] objects when the message was built
    in the process, or decoded from entry dicts that have a ['term'] key;
    [Message._deserialize_data] leaves every other dict as it is
    (message.py:107).  The loop of [_handle_append_entries] passes each dict
    to [LogEntry.from_dict], which reads [d['term']] and [d['command']]: a
    missing key raises [KeyError], and nothing in [node.py] catches it. *)

Inductive exn : Type :=
| KeyError (key : string).

(** An item of [msg.data['entries']]: a [LogEntry], or a dict read at the
    keys [LogEntry.from_dict] reads, each present or not. *)
Inductive entry_data : Type :=
| Entry (entry : LogEntry.t)
| EntryDict (term : option Z) (command : option pyval) (index : option Z).

(** [LogEntry.from_dict(d)] is [cls(d['term'], d['command'], d.get('index', 0))]. *)
Definition entry_from_dict (term : option Z) (command : option pyval) (index : option Z)
    : exn + LogEntry.t :=
  match term with
  | None => inl (KeyError "term")
  | Some term =>
      match command with
      | None => inl (KeyError "command")
      | Some command => inr (LogEntry.mk term command (get_or 0 index))
      end
  end.

(** [for entry in entries: if isinstance(entry, dict): entry =
    LogEntry.from_dict(entry); self.log.append(entry)]; the value is the
    exception that ended the loop, if any. *)
Fixpoint append_entries (entries : list entry_data) : M (option exn) :=
  match entries with
  | [] => mret None
  | entry :: entries' =>
      match (match entry with
             | Entry x => inr x
             | EntryDict term command index => entry_from_dict term command index
             end) with
      | inl raised => mret (Some raised)
      | inr x => s ← get; upd (set_log (log s ++ [x]));; append_entries entries'
      end
  end.

(** [_handle_append_entries] on a message whose [data['entries']] is
    [entries]; [msg] gives the other fields.  The value is the exception
    that left the handler, if any. *)
Definition _handle_append_entries_raw (msg : Msg.t) (entries : list entry_data) : M (option exn) :=
  s ← get;
  if Msg.term msg <? current_term s then
    ts ← time_time;
    transport_send (Msg.sender_id msg) (create_append_ack (id s) (current_term s) false 0 ts);;
    mret None
  else
    ts ← time_time; upd (set_last_heartbeat ts);;
    upd (set_consecutive_election_failures 0);;
    upd (set_startup_grace_period false);;
    when (NodeState_eqb (state s) CANDIDATE && (Msg.term msg =? current_term s))
      (upd (set_state FOLLOWER);;
       upd (set_is_promotion_pending false);;
       upd (set_promotion_confirmed false));;
    upd (set_state FOLLOWER);;
    upd (set_current_term (Msg.term msg));;
    upd (set_leader_id (Some (Msg.sender_id msg)));;
    when (negb (had_leader_before s))
      (upd (set_had_leader_before true);;
       timeout ← _reset_election_timer; upd (set_election_timeout timeout));;
    match Data.sub_leaders (Msg.data msg) with
    | Some sub_leaders =>
        when (RaftConfig.enable_subleader (config s))
          (upd (set_current_sub_leaders sub_leaders);;
           s ← get;
           let was_sub_leader := is_sub_leader s in
           upd (set_is_sub_leader (dict_mem (id s) sub_leaders));;
           if dict_mem (id s) sub_leaders then
             upd (set_subleader_rank (dict_get (id s) sub_leaders));;
             when (negb was_sub_leader)
               (upd (fun s => set_stats (Stats.incr_became_subleader_count (stats s)) s));;
             timeout ← _reset_election_timer; upd (set_election_timeout timeout)
           else upd (set_subleader_rank None))
    | None => skip
    end;;
    let prev_log_index := get_or 0 (Data.prev_log_index (Msg.data msg)) in
    let prev_log_term := get_or 0 (Data.prev_log_term (Msg.data msg)) in
    s ← get;
    log_ok ←
      (if 0 <? prev_log_index then
         if len (log s) <? prev_log_index then mret false
         else if negb (term_at (log s) (prev_log_index - 1) =? prev_log_term) then
           upd (set_log (py_take (log s) (prev_log_index - 1)));; mret false
         else mret true
       else mret true);
    if negb log_ok then
      s ← get;
      ts ← time_time;
      transport_send (Msg.sender_id msg)
        (create_append_ack (id s) (current_term s) false (len (log s)) ts);;
      mret None
    else
      raised ←
        (if negb (len entries =? 0) then
           s ← get; upd (set_log (py_take (log s) prev_log_index));;
           append_entries entries
         else mret None);
      match raised with
      | Some x => mret (Some x)
      | None =>
          let leader_commit := get_or 0 (Data.leader_commit (Msg.data msg)) in
          s ← get;
          when (commit_index s <? leader_commit)
            (upd (set_commit_index (Z.min leader_commit (len (log s))));;
             _apply_committed_entries);;
          s ← get;
          ts ← time_time;
          transport_send (Msg.sender_id msg)
            (create_append_ack (id s) (current_term s) true (len (log s)) ts);;
          mret None
      end.

(** [_handle_message] on such a message. *)
Definition _handle_message_raw (msg : Msg.t) (entries : list entry_data) : M (option exn) :=
  s ← get;
  when (current_term s <? Msg.term msg)
    (upd (set_current_term (Msg.term msg));;
     _step_down_to_follower);;
  if String.eqb (Msg.type msg) MessageType.APPEND_ENTRIES
  then _handle_append_entries_raw msg entries
  else if String.eqb (Msg.type msg) MessageType.APPEND_ACK then _handle_append_ack msg;; mret None
  else if String.eqb (Msg.type msg) MessageType.REQUEST_VOTE then _handle_request_vote msg;; mret None
  else if String.eqb (Msg.type msg) MessageType.VOTE_RESPONSE then _handle_vote_response msg;; mret None
  else mret None.

Definition submit_command (command : pyval) : M bool :=
  s ← get;
  if negb (NodeState_eqb (state s) LEADER) then mret false
  else
    let entry := LogEntry.mk (current_term s) command (len (log s) + 1) in
    upd (set_log (log s ++ [entry]));;
    mret true.

Definition stop : M unit :=
  upd (set_running false);;
  upd (set_state STOPPED).

(** [RaftNode.__init__] at clock reading [now e]. *)
Definition init (node_id total_nodes : Z) (config : RaftConfig.t) (metrics : bool) (e : Env) : Run :=
  let s0 :=
    mk node_id total_nodes config metrics false false false
       FOLLOWER 0 None [] 0 0 None false
       false None [] false None
       [] ∅
       false 0 0 ∅ false
       (now e) ∅
       ∅ ∅
       0 ∅ 0 0
       (now e) 0
       true Stats.zero
       true (now e) 5 in
  run_state (timeout ← _reset_election_timer; upd (set_election_timeout timeout)) e (start s0).

(** ** Driving a node

    What the worker loop of [run] and the application do to a node, one
    call at a time, each under its own environment. *)
Inductive Op : Type :=
| Receive (e : Env) (msg : Msg.t)
| Tick (e : Env)
| Submit (e : Env) (command : pyval).

Definition step (r : Run) (op : Op) : Run :=
  match op with
  | Receive e msg => run_state (_handle_message msg) e r
  | Tick e => run_state _check_timers e r
  | Submit e command => run_state (submit_command command) e r
  end.

Definition steps (r : Run) (ops : list Op) : Run := fold_left step ops r.

(** One turn of the loop of [run] in which [transport.receive] returned a
    message: [self._handle_message(msg); self._check_timers()], the handler
    under [e] and the timers under [e'].  [run] has no handler either: an
    exception ends the turn, and the loop, before the timers are checked. *)
Definition run_turn (e e' : Env) (msg : Msg.t) (entries : list entry_data) (r : Run)
    : option exn * Run :=
  let '(raised, r1) := _handle_message_raw msg entries e r in
  match raised with
  | Some x => (Some x, r1)
  | None => (None, run_state _check_timers e' r1)
  end.

(** ** Reading a call

    [wp c e r Q]: the call [c], made in environment [e] on the run [r],
    returns a value and leaves a run that satisfy [Q]. Every method is a
    total function, so this is a statement about the result the method
    does produce. *)
Definition wp {A : Type} (c : M A) (e : Env) (r : Run) (Q : A -> Run -> Prop) : Prop :=
  Q (fst (c e r)) (snd (c e r)).

(** The timeout [_reset_election_timer] returns on [s] when the random
    source yields [u]. *)
Definition election_timer (s : t) (u : Q) : Q :=
  fst (_reset_election_timer (mkEnv 0 (fun _ => u) 0) (start s)).

(** [self] after [_step_down_to_follower] at clock reading [ts], the random
    source yielding [u]. *)
Definition stepped_down (s : t) (ts u : Q) : t :=
  let s' :=
    set_last_heartbeat ts
      (set_leader_id None
        (set_subleader_rank None
          (set_is_sub_leader false
            (set_voted_for None
              (set_promotion_ack_nodes ∅
                (set_promotion_ack_count 0
                  (set_promotion_confirmed false
                    (set_is_promotion_pending false
                      (set_state FOLLOWER s))))))))) in
  set_election_timeout (election_timer s' u) s'.

(** The messages one call of [_send_append_entries] hands to the transport. *)
Definition broadcast (s : t) (subleader_map : list (Z * Z)) (ts : Q) : list (Z * Msg.t) :=
  List.map (fun i => (i, if is_promotion_pending s
                         then claim_to s subleader_map ts
                         else heartbeat_to s subleader_map ts i))
           (others s).


(** The candidates granted a vote by the messages [out]: the receivers of a
    VoteResponse with [vote_granted = True]. *)
Definition grants (out : list (Z * Msg.t)) : list Z :=
  List.map fst
    (List.filter
       (fun im => String.eqb (Msg.type (snd im)) MessageType.VOTE_RESPONSE
                  && get_or false (Data.vote_granted (Msg.data (snd im))))
       out).

(** The leader's replication table is usable: every [next_index] is a log
    position, from 1 on, and no [match_index] is negative. *)
Definition tracking_ok (s : t) : Prop :=
  map_Forall (fun _ n => 1 <= n) (next_index s) /\
  map_Forall (fun _ m => 0 <= m) (match_index s).

(** The order [sorted(..., key=lambda x: x[1])] puts measured peers in. *)
Definition by_rtt (x y : Z * Q) : Prop := (snd x <= snd y)%Q.

(** [subleader_map[node_id] = rank] for one item of the enumeration. *)
Definition ranked (p : Z * (Z * Q)) : Z * Z := (fst (snd p), fst p).

End RaftNode.

(* ===================================================================== *)
(** * The codec of [message.py]                                           *)
(* ===================================================================== *)

Abbreviation byte := Init.Byte.byte.

(** Truth value of a Python object, as [data if data else {}] tests it. *)
Definition py_truthy (v : pyval) : bool :=
  match v with
  | PNone => false
  | PBool b => b
  | PInt z => negb (z =? 0)
  | PFloat q => negb (Qeq_bool q 0)
  | PStr s => match s with EmptyString => false | _ => true end
  | PList l => match l with [] => false | _ => true end
  | PDict d => match d with [] => false | _ => true end
  | PEntry _ _ _ => true
  end.

(** [dict(pairs)]: later items overwrite earlier ones with the same key. *)
Definition dict_of_items (items : list (pykey * pyval)) : list (pykey * pyval) :=
  fold_left (fun acc '(k, v) => items_set k v acc) items [].

(** The key [json.dumps] writes for a dictionary key. *)
Definition json_key (k : pykey) : pykey :=
  match k with
  | KStr s => KStr s
  | KInt z => KStr (py_str_of_int z)
  end.

(** [f] over a list, failing as soon as one element fails. *)
Definition opt_list {A B : Type} (f : A -> option B) : list A -> option (list B) :=
  fix each (l : list A) : option (list B) :=
    match l with
    | [] => Some []
    | x :: l' =>
        match f x, each l' with
        | Some y, Some l'' => Some (y :: l'')
        | _, _ => None
        end
    end.

(** What [json.loads(json.dumps(v))] returns: keys come back as strings,
    a [LogEntry] object is not serialisable ([None] stands for the
    [TypeError] of [json.dumps]). *)
Fixpoint json_value (v : pyval) : option pyval :=
  match v with
  | PList l =>
      match opt_list json_value l with
      | Some l' => Some (PList l')
      | None => None
      end
  | PDict d =>
      match opt_list (fun '(k, x) =>
                        match json_value x with
                        | Some x' => Some (json_key k, x')
                        | None => None
                        end) d with
      | Some d' => Some (PDict (dict_of_items d'))
      | None => None
      end
  | PEntry _ _ _ => None
  | _ => Some v
  end.

(** A JSON-native value: one the JSON round trip returns unchanged. *)
Definition json_native (v : pyval) : Prop := json_value v = Some v.

(** [struct.pack('>I', n)]; [None] stands for [struct.error]. *)
Definition byte_of_Z (z : Z) : byte :=
  match Strings.Byte.of_N (Z.to_N (z mod 256)) with
  | Some b => b
  | None => Init.Byte.x00
  end.

Definition Z_of_byte (b : byte) : Z := Z.of_N (Strings.Byte.to_N b).

Definition struct_pack_I (n : Z) : option (list byte) :=
  if (0 <=? n) && (n <? 2 ^ 32)
  then Some [byte_of_Z (Z.shiftr n 24); byte_of_Z (Z.shiftr n 16);
             byte_of_Z (Z.shiftr n 8); byte_of_Z n]
  else None.

(** [struct.unpack('>I', b)[0]] on exactly four bytes. *)
Definition struct_unpack_I (b : list byte) : Z :=
  fold_left (fun acc x => Z.lor (Z.shiftl acc 8) (Z_of_byte x)) b 0.

Module Message.

(** [class Message]: every attribute is whatever the caller or the wire
    supplied. *)
Record t : Type := mk {
  type : pyval;
  sender_id : pyval;
  term : pyval;
  data : pyval;
  timestamp : pyval;
  message_id : pyval
}.

(** [LogEntry.to_dict]. *)
Definition LogEntry_to_dict (term command index : pyval) : pyval :=
  PDict [(KStr "term", term); (KStr "command", command); (KStr "index", index)].

(** [LogEntry.from_dict]; [None] stands for [KeyError]. *)
Definition LogEntry_from_dict (d : list (pykey * pyval)) : option pyval :=
  match items_get (KStr "term") d, items_get (KStr "command") d with
  | Some term, Some command =>
      Some (PEntry term command (get_or (PInt 0) (items_get (KStr "index") d)))
  | _, _ => None
  end.

(** [e.to_dict() if isinstance(e, LogEntry) else e]. *)
Definition serialize_entry (e : pyval) : pyval :=
  match e with
  | PEntry term command index => LogEntry_to_dict term command index
  | _ => e
  end.

(** [Message._serialize_data]. *)
Definition _serialize_data (data : pyval) : pyval :=
  match data with
  | PDict items =>
      PDict (fold_left
               (fun result '(k, v) =>
                  match v with
                  | PList l =>
                      if pykey_eqb k (KStr "entries")
                      then items_set k (PList (List.map serialize_entry l)) result
                      else items_set k v result
                  | _ => items_set k v result
                  end)
               items [])
  | _ => data
  end.

(** [LogEntry.from_dict(e) if isinstance(e, dict) and 'term' in e else e]. *)
Definition deserialize_entry (e : pyval) : option pyval :=
  match e with
  | PDict d =>
      match items_get (KStr "term") d with
      | Some _ => LogEntry_from_dict d
      | None => Some e
      end
  | _ => Some e
  end.

Definition deserialize_entries : list pyval -> option (list pyval) :=
  opt_list deserialize_entry.

(** [int(node_id)] on a dictionary key; [None] stands for [ValueError]. *)
Definition int_of_key (k : pykey) : option Z :=
  match k with
  | KStr s => py_int_of_str s
  | KInt z => Some z
  end.

(** [{int(node_id): rank for node_id, rank in v.items()}]. *)
Fixpoint restore_int_keys (items acc : list (pykey * pyval)) : option (list (pykey * pyval)) :=
  match items with
  | [] => Some acc
  | (node_id, rank) :: items' =>
      match int_of_key node_id with
      | Some z => restore_int_keys items' (items_set (KInt z) rank acc)
      | None => None
      end
  end.

(** [Message._deserialize_data]; [None] stands for an exception. *)
Fixpoint deserialize_items (items result : list (pykey * pyval)) : option (list (pykey * pyval)) :=
  match items with
  | [] => Some result
  | (k, v) :: items' =>
      match v with
      | PList l =>
          if pykey_eqb k (KStr "entries") then
            match deserialize_entries l with
            | Some l' => deserialize_items items' (items_set k (PList l') result)
            | None => None
            end
          else deserialize_items items' (items_set k v result)
      | PDict d =>
          if pykey_eqb k (KStr "sub_leaders") then
            match restore_int_keys d [] with
            | Some d' => deserialize_items items' (items_set k (PDict d') result)
            | None => None
            end
          else deserialize_items items' (items_set k v result)
      | _ => deserialize_items items' (items_set k v result)
      end
  end.

Definition _deserialize_data (data : pyval) : option pyval :=
  match data with
  | PDict items =>
      match deserialize_items items [] with
      | Some result => Some (PDict result)
      | None => None
      end
  | _ => Some data
  end.

(** [Message.__init__] followed by the two assignments every caller in
    [message.py] and [from_dict] makes. *)
Definition new (msg_type sender_id term data timestamp message_id : pyval) : t :=
  mk msg_type sender_id term (if py_truthy data then data else PDict []) timestamp message_id.

(** [Message.to_dict]. *)
Definition to_dict (m : t) : pyval :=
  PDict [(KStr "type", type m);
         (KStr "sender_id", sender_id m);
         (KStr "term", term m);
         (KStr "data", _serialize_data (data m));
         (KStr "timestamp", timestamp m);
         (KStr "message_id", message_id m)].

(** [Message.from_dict] at clock reading [now]; [None] stands for an
    exception ([KeyError], [TypeError], [ValueError]). *)
Definition from_dict (now : Q) (d : pyval) : option t :=
  match d with
  | PDict items =>
      match items_get (KStr "type") items,
            items_get (KStr "sender_id") items,
            items_get (KStr "term") items,
            _deserialize_data (get_or (PDict []) (items_get (KStr "data") items)) with
      | Some msg_type, Some sender_id, Some term, Some data =>
          Some (new msg_type sender_id term data
                    (get_or (PFloat now) (items_get (KStr "timestamp") items))
                    (get_or (PStr EmptyString) (items_get (KStr "message_id") items)))
      | _, _, _, _ => None
      end
  | _ => None
  end.

(** The outcome of [Message.decode]: [None] returned for a short buffer,
    an exception, or a message. *)
Inductive decoded : Type :=
| Incomplete
| Raised
| Decoded (m : t).

Section Wire.

(** [json.dumps(v).encode('utf-8')] and [json.loads(b.decode('utf-8'))]:
    the standard library's, [None] standing for an exception. *)
Variable json_dumps : pyval -> option (list byte).
Variable json_loads : list byte -> option pyval.

(** [Message.encode]. *)
Definition encode (m : t) : option (list byte) :=
  match json_dumps (to_dict m) with
  | Some json_data =>
      match struct_pack_I (len json_data) with
      | Some header => Some (header ++ json_data)
      | None => None
      end
  | None => None
  end.

(** [Message.decode]. *)
Definition decode (now : Q) (data : list byte) : decoded :=
  if len data <? 4 then Incomplete
  else
    let length := struct_unpack_I (py_slice data 0 4) in
    if len data <? 4 + length then Incomplete
    else
      match json_loads (py_slice data 4 (4 + length)) with
      | Some d =>
          match from_dict now d with
          | Some m => Decoded m
          | None => Raised
          end
      | None => Raised
      end.

End Wire.

(** The Python objects behind a typed message: a [LogEntry] object per
    entry, integer keys in [sub_leaders], keys in the order the helper
    constructors write them. *)
Definition entry_object (e : LogEntry.t) : pyval :=
  PEntry (PInt (LogEntry.term e)) (LogEntry.command e) (PInt (LogEntry.index e)).

Definition field {A : Type} (name : string) (inj : A -> pyval) (o : option A) : list (pykey * pyval) :=
  match o with
  | Some x => [(KStr name, inj x)]
  | None => []
  end.

Definition data_items (d : Data.t) : list (pykey * pyval) :=
  field "prev_log_index" PInt (Data.prev_log_index d)
  ++ field "prev_log_term" PInt (Data.prev_log_term d)
  ++ field "entries" (fun es => PList (List.map entry_object es)) (Data.entries d)
  ++ field "leader_commit" PInt (Data.leader_commit d)
  ++ field "sub_leaders"
       (fun sl => PDict (List.map (fun '(node_id, rank) => (KInt node_id, PInt rank)) sl))
       (Data.sub_leaders d)
  ++ field "success" PBool (Data.success d)
  ++ field "match_index" PInt (Data.match_index d)
  ++ field "last_log_index" PInt (Data.last_log_index d)
  ++ field "last_log_term" PInt (Data.last_log_term d)
  ++ field "vote_granted" PBool (Data.vote_granted d).

Definition data_object (d : Data.t) : pyval := PDict (data_items d).

Definition of_msg (m : Msg.t) : t :=
  mk (PStr (Msg.type m)) (PInt (Msg.sender_id m)) (PInt (Msg.term m))
     (data_object (Msg.data m)) (PFloat (Msg.timestamp m)) (PStr (Msg.message_id m)).

(** ** The shape of wire data

    What the codec does to one item of [data], stage by stage. *)

(** The value [_serialize_data] stores under key [k]. *)
Definition ser_value (k : pykey) (v : pyval) : pyval :=
  match v with
  | PList l => if pykey_eqb k (KStr "entries") then PList (List.map serialize_entry l) else v
  | _ => v
  end.

(** One item through [json.dumps] and [json.loads]. *)
Definition json_item (kx : pykey * pyval) : option (pykey * pyval) :=
  let '(k, x) := kx in
  match json_value x with
  | Some x' => Some (json_key k, x')
  | None => None
  end.

(** The items the four wire messages carry: integers, booleans, a list of
    [LogEntry] objects with JSON-native commands, a [sub_leaders] dictionary
    keyed by distinct node ids. *)
Inductive wire_item : pykey * pyval -> Prop :=
| wire_int name z : wire_item (KStr name, PInt z)
| wire_bool name b : wire_item (KStr name, PBool b)
| wire_entries es :
    Forall (fun e => json_native (LogEntry.command e)) es ->
    wire_item (KStr "entries", PList (List.map entry_object es))
| wire_sub_leaders sl :
    NoDup (List.map fst sl) ->
    wire_item (KStr "sub_leaders",
               PDict (List.map (fun '(node_id, rank) => (KInt node_id, PInt rank)) sl)).

(** The item as [json.loads] returns it. *)
Definition wire_json (kv : pykey * pyval) : pykey * pyval :=
  let '(k, v) := kv in
  match v with
  | PList l =>
      (k, PList (List.map (fun e =>
                    match e with
                    | PEntry t c i => LogEntry_to_dict t c i
                    | _ => e
                    end) l))
  | PDict d => (k, PDict (List.map (fun '(k', x) => (json_key k', x)) d))
  | _ => (k, v)
  end.

Definition json_sub_leaders (sl : list (Z * Z)) : list (pykey * pyval) :=
  List.map (fun '(node_id, rank) => (KStr (py_str_of_int node_id), PInt rank)) sl.

Definition int_sub_leaders (sl : list (Z * Z)) : list (pykey * pyval) :=
  List.map (fun '(node_id, rank) => (KInt node_id, PInt rank)) sl.

(** A typed payload the codec can carry: commands are JSON-native, and
    [sub_leaders], a Python dictionary, has no repeated key. *)
Definition wire_data (d : Data.t) : Prop :=
  (forall es, Data.entries d = Some es ->
     Forall (fun e => json_native (LogEntry.command e)) es) /\
  (forall sl, Data.sub_leaders d = Some sl -> NoDup (List.map fst sl)).

#[export] Instance pykey_eq_dec : EqDecision pykey.
Proof. solve_decision. Defined.

End Message.

(* ===================================================================== *)
(** * A JSON subset, for running the codec on real text                   *)
(* ===================================================================== *)

(** Enough of [json.dumps] and [json.loads] to carry the wire messages:
    text without escapes, integers, floats with an integral value, lists and
    objects, written with the separators Python uses. *)
Module JsonSubset.

Definition dquote : ascii := "034"%char.

Definition plain_char (c : ascii) : bool :=
  let n := nat_of_ascii c in
  (32 <=? n)%nat && (n <? 127)%nat && negb (n =? 34)%nat && negb (n =? 92)%nat.

Fixpoint plain (s : string) : bool :=
  match s with
  | EmptyString => true
  | String c s' => plain_char c && plain s'
  end.

Definition quoted (s : string) : option string :=
  if plain s then Some (String dquote (s ++ String dquote EmptyString))%string else None.

Definition key_text (k : pykey) : string :=
  match k with KStr s => s | KInt z => py_str_of_int z end.

Fixpoint json_text (v : pyval) : option string :=
  match v with
  | PNone => Some "null"%string
  | PBool true => Some "true"%string
  | PBool false => Some "false"%string
  | PInt z => Some (py_str_of_int z)
  | PFloat q =>
      if Zpos (Qden q) =? 1 then Some (py_str_of_int (Qnum q) ++ ".0")%string else None
  | PStr s => quoted s
  | PList l =>
      match opt_list json_text l with
      | Some ts => Some ("[" ++ String.concat ", " ts ++ "]")%string
      | None => None
      end
  | PDict d =>
      match opt_list (fun '(k, x) =>
                        match quoted (key_text k), json_text x with
                        | Some kt, Some t => Some (kt ++ ": " ++ t)%string
                        | _, _ => None
                        end) d with
      | Some ts => Some ("{" ++ String.concat ", " ts ++ "}")%string
      | None => None
      end
  | PEntry _ _ _ => None
  end.

Fixpoint skip_spaces (s : string) : string :=
  match s with
  | String " "%char s' => skip_spaces s'
  | _ => s
  end.

Definition digit_of (c : ascii) : option Z :=
  let n := Z.of_nat (nat_of_ascii c) in
  if (48 <=? n) && (n <=? 57) then Some (n - 48) else None.

Fixpoint read_digits (s : string) (acc : Z) : Z * string :=
  match s with
  | String c s' =>
      match digit_of c with
      | Some d => read_digits s' (acc * 10 + d)
      | None => (acc, s)
      end
  | EmptyString => (acc, s)
  end.

Fixpoint read_text (s : string) : option (string * string) :=
  match s with
  | EmptyString => None
  | String c s' =>
      if Ascii.eqb c dquote then Some (EmptyString, s')
      else match read_text s' with
           | Some (t, rest) => Some (String c t, rest)
           | None => None
           end
  end.

Definition strip (p s : string) : option string :=
  if String.prefix p s
  then Some (String.substring (String.length p) (String.length s - String.length p) s)
  else None.

Definition read_number (negative : bool) (s : string) : option (pyval * string) :=
  match s with
  | String c _ =>
      match digit_of c with
      | Some _ =>
          let '(n, rest) := read_digits s 0 in
          let n := if negative then - n else n in
          match strip ".0" rest with
          | Some rest' => Some (PFloat (inject_Z n), rest')
          | None => Some (PInt n, rest)
          end
      | None => None
      end
  | EmptyString => None
  end.

Fixpoint parse_value (fuel : nat) (s : string) : option (pyval * string) :=
  match fuel with
  | O => None
  | S fuel' =>
      let s := skip_spaces s in
      match s with
      | String "["%char rest =>
          match skip_spaces rest with
          | String "]"%char rest' => Some (PList [], rest')
          | _ =>
              match parse_elements fuel' rest with
              | Some (l, rest') => Some (PList l, rest')
              | None => None
              end
          end
      | String "{"%char rest =>
          match skip_spaces rest with
          | String "}"%char rest' => Some (PDict [], rest')
          | _ =>
              match parse_members fuel' rest with
              | Some (d, rest') => Some (PDict (dict_of_items d), rest')
              | None => None
              end
          end
      | String "-"%char rest => read_number true rest
      | String c rest =>
          if Ascii.eqb c dquote then
            match read_text rest with
            | Some (t, rest') => Some (PStr t, rest')
            | None => None
            end
          else
            match strip "null" s, strip "true" s, strip "false" s with
            | Some rest', _, _ => Some (PNone, rest')
            | _, Some rest', _ => Some (PBool true, rest')
            | _, _, Some rest' => Some (PBool false, rest')
            | _, _, _ => read_number false s
            end
      | EmptyString => None
      end
  end
with parse_elements (fuel : nat) (s : string) : option (list pyval * string) :=
  match fuel with
  | O => None
  | S fuel' =>
      match parse_value fuel' s with
      | Some (v, rest) =>
          match skip_spaces rest with
          | String ","%char rest' =>
              match parse_elements fuel' rest' with
              | Some (l, rest'') => Some (v :: l, rest'')
              | None => None
              end
          | String "]"%char rest' => Some ([v], rest')
          | _ => None
          end
      | None => None
      end
  end
with parse_members (fuel : nat) (s : string) : option (list (pykey * pyval) * string) :=
  match fuel with
  | O => None
  | S fuel' =>
      match skip_spaces s with
      | String c rest =>
          if Ascii.eqb c dquote then
            match read_text rest with
            | Some (k, rest1) =>
                match skip_spaces rest1 with
                | String ":"%char rest2 =>
                    match parse_value fuel' rest2 with
                    | Some (v, rest3) =>
                        match skip_spaces rest3 with
                        | String ","%char rest4 =>
                            match parse_members fuel' rest4 with
                            | Some (d, rest5) => Some ((KStr k, v) :: d, rest5)
                            | None => None
                            end
                        | String "}"%char rest4 => Some ([(KStr k, v)], rest4)
                        | _ => None
                        end
                    | None => None
                    end
                | _ => None
                end
            | None => None
            end
          else None
      | EmptyString => None
      end
  end.

Definition dumps (v : pyval) : option (list byte) :=
  match json_text v with
  | Some t => Some (list_byte_of_string t)
  | None => None
  end.

Definition loads (b : list byte) : option pyval :=
  match parse_value (S (length b)) (string_of_list_byte b) with
  | Some (v, rest) =>
      match skip_spaces rest with
      | EmptyString => Some v
      | _ => None
      end
  | None => None
  end.

End JsonSubset.

(* ===================================================================== *)
(** * The transport of [transport.py], as far as it is data               *)
(* ===================================================================== *)

(** Sockets, threads and timeouts stay outside: what is modelled is how
    node ids are derived from addresses, and how the bytes of a connection
    are cut into messages. *)
Module Transport.

(** [sorted(all_addrs)] on strings: a stable insertion sort by code point. *)
Fixpoint insert_addr (x : string) (l : list string) : list string :=
  match l with
  | [] => [x]
  | y :: l' => if String.ltb x y then x :: y :: l' else y :: insert_addr x l'
  end.

Definition py_sorted (l : list string) : list string :=
  fold_left (fun acc x => insert_addr x acc) l [].

(** [{addr: i for i, addr in enumerate(self.all_addrs)}]: a later item
    with the same address overwrites an earlier one. *)
Definition addr_to_id (all_addrs : list string) : gmap string Z :=
  fold_left (fun m '(i, addr) => <[addr := i]> m) (enumerate_from 0 all_addrs) ∅.

(** [{i: addr for i, addr in enumerate(self.all_addrs)}]. *)
Definition id_to_addr (all_addrs : list string) : gmap Z string :=
  fold_left (fun m '(i, addr) => <[i := addr]> m) (enumerate_from 0 all_addrs) ∅.

(** [self.addr_to_id[self_addr]] over the sorted addresses; [None] stands
    for [KeyError]. *)
Definition self_id (self_addr : string) (all_addrs : list string) : option Z :=
  addr_to_id (py_sorted all_addrs) !! self_addr.

(** [l.index(x)]; [None] stands for [ValueError]. *)
Fixpoint list_index (x : string) (l : list string) : option Z :=
  match l with
  | [] => None
  | y :: l' =>
      if String.eqb x y then Some 0
      else match list_index x l' with
           | Some i => Some (i + 1)
           | None => None
           end
  end.

(** [EC2RaftServer.__init__]: the id the server gives its [RaftNode],
    [sorted(all_addrs).index(self_addr)] with
    [all_addrs = [self_addr] + peer_addresses]. *)
Definition actual_node_id (self_addr : string) (peer_addresses : list string) : option Z :=
  list_index self_addr (py_sorted (self_addr :: peer_addresses)).

Section Stream.

Variable json_dumps : pyval -> option (list byte).
Variable json_loads : list byte -> option pyval.

(** The packet [send] writes to the socket of a peer. *)
Definition packet (message : Message.t) : option (list byte) :=
  match json_dumps (Message.to_dict message) with
  | Some json_data =>
      let length := len json_data in
      match struct_pack_I length with
      | Some header => Some (header ++ json_data)
      | None => None
      end
  | None => None
  end.

(** [_recv_exact(sock, n)] on the bytes the connection still delivers: the
    next [n] bytes and the bytes after them, or [None] when the connection
    ends (or times out) first. *)
Definition _recv_exact (stream : list byte) (n : Z) : option (list byte * list byte) :=
  if n <=? 0 then Some ([], stream)
  else if len stream <? n then None
  else Some (firstn (Z.to_nat n) stream, skipn (Z.to_nat n) stream).

(** The loop of [_handle_client], one message per turn; [recv_queue] is the
    list of messages put on the queue so far.  A message that does not
    deserialize is reported and skipped. *)
Fixpoint _handle_client (turns : nat) (now : Q) (stream : list byte)
    (recv_queue : list Message.t) : list Message.t :=
  match turns with
  | O => recv_queue
  | S turns' =>
      match _recv_exact stream 4 with
      | None => recv_queue
      | Some (length_data, stream') =>
          let msg_length := struct_unpack_I length_data in
          if 10 * 1024 * 1024 <? msg_length then recv_queue
          else
            match _recv_exact stream' msg_length with
            | None => recv_queue
            | Some (msg_data, stream'') =>
                if len msg_data =? 0 then recv_queue
                else
                  let recv_queue' :=
                    match json_loads msg_data with
                    | Some msg_dict =>
                        match Message.from_dict now msg_dict with
                        | Some msg => recv_queue ++ [msg]
                        | None => recv_queue
                        end
                    | None => recv_queue
                    end in
                  _handle_client turns' now stream'' recv_queue'
            end
      end
  end.

(** What successive calls of [send] put on one connection. *)
Fixpoint wire (messages : list Message.t) : option (list byte) :=
  match messages with
  | [] => Some []
  | message :: messages' =>
      match packet message, wire messages' with
      | Some p, Some rest => Some (p ++ rest)
      | _, _ => None
      end
  end.

(** A message the transport can carry: the JSON library round-trips its
    document, and the text is not empty and within the 10 MiB limit of
    [_handle_client]. *)
Definition carried (m : Msg.t) : Prop :=
  Message.wire_data (Msg.data m) /\
  exists json_data,
    json_dumps (Message.to_dict (Message.of_msg m)) = Some json_data /\
    json_loads json_data = json_value (Message.to_dict (Message.of_msg m)) /\
    0 < len json_data <= 10 * 1024 * 1024.

End Stream.

End Transport.

(* ===================================================================== *)
(** * The application of [ec2_server.py]                                  *)
(* ===================================================================== *)

Module Server.

(** [a += b] on the values a command can carry, by value; [None] stands
    for [TypeError].  Numbers add ([bool] counts as [int]), strings
    concatenate, and a list is extended by the items of a list, the
    characters of a string or the keys of a dictionary. *)
Definition as_number (v : pyval) : option (Z + Q) :=
  match v with
  | PInt z => Some (inl z)
  | PBool b => Some (inl (if b then 1 else 0))
  | PFloat q => Some (inr q)
  | _ => None
  end.

Definition key_value (k : pykey) : pyval :=
  match k with
  | KStr s => PStr s
  | KInt z => PInt z
  end.

Definition py_iadd (a b : pyval) : option pyval :=
  match a, b with
  | PStr s, PStr t => Some (PStr (s ++ t))
  | PList l, PList m => Some (PList (l ++ m))
  | PList l, PStr t =>
      Some (PList (l ++ List.map (fun c => PStr (String c EmptyString)) (list_ascii_of_string t)))
  | PList l, PDict d => Some (PList (l ++ List.map (fun kv => key_value (fst kv)) d))
  | _, _ =>
      match as_number a, as_number b with
      | Some (inl x), Some (inl y) => Some (PInt (x + y))
      | Some (inl x), Some (inr y) => Some (PFloat (inject_Z x + y))
      | Some (inr x), Some (inl y) => Some (PFloat (x + inject_Z y))
      | Some (inr x), Some (inr y) => Some (PFloat (x + y))
      | _, _ => None
      end
  end.

(** [EC2RaftServer._on_log_committed] on [app_state['counter']]; [None]
    stands for an exception ([AttributeError] on a command that is no
    dictionary, [TypeError] from [+=]). *)
Definition _on_log_committed (counter : pyval) (command : pyval) : option pyval :=
  match command with
  | PDict d =>
      match items_get (KStr "type") d with
      | Some (PStr "increment") =>
          py_iadd counter (get_or (PInt 1) (items_get (KStr "value") d))
      | Some (PStr "set") => Some (get_or (PInt 0) (items_get (KStr "value") d))
      | _ => Some counter
      end
  | _ => None
  end.

(** The counter after the callbacks for [commands], in order. *)
Fixpoint committed (commands : list pyval) (counter : pyval) : option pyval :=
  match commands with
  | [] => Some counter
  | command :: commands' =>
      match _on_log_committed counter command with
      | Some counter' => committed commands' counter'
      | None => None
      end
  end.

(** [EC2RaftServer.submit_increment]: the command it submits. *)
Definition increment_command (value : pyval) : pyval :=
  PDict [(KStr "type", PStr "increment"); (KStr "value", value)].

(** A command that adds the integer [v]. *)
Definition adds (command : pyval) (v : Z) : Prop :=
  exists d, command = PDict d /\
            items_get (KStr "type") d = Some (PStr "increment") /\
            items_get (KStr "value") d = Some (PInt v).

(** A command that sets the counter to [v]. *)
Definition sets (command : pyval) (v : pyval) : Prop :=
  exists d, command = PDict d /\
            items_get (KStr "type") d = Some (PStr "set") /\
            items_get (KStr "value") d = Some v.

End Server.

(* ===================================================================== *)
(** * Scenarios                                                           *)
(* ===================================================================== *)

(** Three-node clusters seen from node 0, under the default configuration
    and a random source that always yields one half. *)
Module Scenario.
Import RaftNode.

Definition env (ts : Q) (connected : Z) : Env := mkEnv ts (fun _ => 1 # 2) connected.

Definition cmd : pyval := PDict [(KStr "type", PStr "increment"); (KStr "value", PInt 1)].

Definition fresh_node : Run := init 0 3 RaftConfig.default false (env 0 3).

(** An election won, a lease lost, and a RequestVote of the same term that
    arrives late. *)
Definition candidate_node : Run := step fresh_node (Tick (env 6 3)).
Definition leader_node : Run :=
  step candidate_node (Receive (env (601 # 100) 3) (create_vote_response 1 1 true 6)).
Definition deposed_node : Run := step leader_node (Tick (env 10 3)).

Definition late_request_vote : Msg.t := create_request_vote 2 1 0 0 (1005 # 100).
Definition revoted_node : Run :=
  step deposed_node (Receive (env (101 # 10) 3) late_request_vote).

(** A follower that replicates two entries, commits them on a promotion
    claim, and then meets a leader whose log differs at index 2. *)
Definition replicated_node : Run :=
  step fresh_node
    (Receive (env 1 3)
       (create_append_entries 1 1 0 0 [LogEntry.mk 1 cmd 1; LogEntry.mk 1 cmd 2] 0 [] 1)).
Definition committed_node : Run :=
  step replicated_node (Receive (env 2 3) (create_append_entries 2 2 0 0 [] 2 [] 2)).
Definition conflicting_append : Msg.t :=
  create_append_entries 1 3 2 3 [LogEntry.mk 3 cmd 3] 2 [] 3.
Definition truncated_node : Run :=
  step committed_node (Receive (env 3 3) conflicting_append).

(** A leader that accepts a command, replicates it and hears back. *)
Definition writing_leader : Run :=
  steps leader_node [Submit (env (602 # 100) 3) cmd; Tick (env (61 # 10) 3)].
Definition first_ack : Msg.t := create_append_ack 1 1 true 1 (61 # 10).
Definition acked_leader : Run := step writing_leader (Receive (env (62 # 10) 3) first_ack).

(** A node that never reaches a peer: three election timeouts on the
    connection gate. *)
Definition lonely_node : Run := init 0 3 RaftConfig.default false (env 0 1).
Definition isolated_node : Run :=
  steps lonely_node [Tick (env 6 1); Tick (env 16 1); Tick (env 26 1)].

(** A primary sub-leader, and its instant promotion. *)
Definition designation : Msg.t := create_append_entries 1 1 0 0 [] 0 [(0, 0); (2, 1)] 1.
Definition subleader_node : Run := step fresh_node (Receive (env 1 3) designation).
Definition promoting_node : Run := step subleader_node (Tick (env 2 3)).
Definition promotion_ack : Msg.t := create_append_ack 1 2 true 0 (21 # 10).


(** A message on the wire. *)
Definition sample_message : Msg.t :=
  create_append_entries 0 2 1 1 [LogEntry.mk 2 cmd 2] 1 [(1, 0); (2, 1)] 1700000000.
Definition sample_json : list byte :=
  Eval vm_compute in
    match JsonSubset.dumps (Message.to_dict (Message.of_msg sample_message)) with
    | Some b => b
    | None => []
    end.

(** Messages and runs the further properties are tried on. *)
Definition first_vote : Msg.t := create_vote_response 1 1 true 6.
Definition newer_heartbeat : Msg.t := create_append_entries 2 5 0 0 [] 0 [] 7.
Definition stale_append : Msg.t := create_append_entries 2 0 0 0 [] 0 [] 7.
Definition first_append : Msg.t :=
  create_append_entries 1 1 0 0 [LogEntry.mk 1 cmd 1; LogEntry.mk 1 cmd 2] 0 [] 1.
Definition election_run : list Op :=
  [Tick (env 6 3); Receive (env (601 # 100) 3) first_vote].
Definition unapplied_node : Run :=
  mkRun (set_commit_index 2 (self replicated_node)) 0 [] [].
Definition measured : list (Z * Q) := [(1, 3 # 1000); (2, 1 # 1000)].
Definition quiet_run : list Op :=
  [Tick (env (102 # 10) 3);
   Receive (env (103 # 10) 3) (create_request_vote 1 1 0 0 (103 # 10))].

(** A vote granted by a fresh node, and what follows in the same term. *)
Definition vote_request : Msg.t := create_request_vote 1 1 0 0 1.
Definition voted_node : Run := step fresh_node (Receive (env 1 3) vote_request).
Definition other_request : Msg.t := create_request_vote 2 1 0 0 (11 # 10).
Definition after_vote : list Op :=
  [Tick (env (11 # 10) 3); Receive (env (12 # 10) 3) other_request].

(** A promotion whose second acknowledgement is handled after the
    deadline, [promotion_start_time + promotion_timeout = 2.3]. *)
Definition waiting_node : Run := step promoting_node (Tick (env (229 # 100) 3)).
Definition late_promoted_node : Run :=
  step waiting_node (Receive (env (235 # 100) 3) promotion_ack).

(** An AppendEntries whose one entry is a dict without ['term']. *)
Definition bare_append : Msg.t := create_append_entries 1 1 0 0 [] 0 [] 1.
Definition termless_entry : entry_data := EntryDict None (Some cmd) (Some 1).

(** A frame, a stream of two packets, a cluster and some commands. *)
Definition sample_header : list byte :=
  Eval vm_compute in
    match struct_pack_I (len sample_json) with
    | Some h => h
    | None => []
    end.
Definition sample_stream : list byte :=
  Eval vm_compute in (sample_header ++ sample_json) ++ (sample_header ++ sample_json).
Definition sample_addr : string := "10.0.1.11:5000".
Definition sample_peers : list string := ["10.0.1.12:5000"; "10.0.1.10:5000"].
Definition sample_set : pyval := PDict [(KStr "type", PStr "set"); (KStr "value", PInt 5)].
Definition sample_increments : list pyval :=
  [Server.increment_command (PInt 2); Server.increment_command (PInt 3)].

End Scenario.

(* ===================================================================== *)
(** * Properties of the node                                              *)
(* ===================================================================== *)

Module NodeProofs.
Import RaftNode.

(** ** Comparisons *)

Lemma Qltb_lt a b : Qltb a b = true <-> (a < b)%Q.
Proof.
  unfold Qltb. rewrite negb_true_iff. split.
  - intros H. apply Qnot_le_lt. intros Hle. apply Qle_bool_iff in Hle. congruence.
  - intros H. destruct (Qle_bool b a) eqn:E; [|reflexivity].
    apply Qle_bool_iff in E. exfalso. eapply Qlt_not_le; eauto.
Qed.

Lemma Qltb_ge a b : Qltb a b = false <-> (b <= a)%Q.
Proof. unfold Qltb. rewrite negb_false_iff. apply Qle_bool_iff. Qed.

Lemma Qleb_le a b : Qleb a b = true <-> (a <= b)%Q.
Proof. apply Qle_bool_iff. Qed.

Lemma uniform_bounds (a b u : Q) :
  (a <= b)%Q -> (0 <= u <= 1)%Q -> (a <= a + (b - a) * u <= b)%Q.
Proof. intros Hab [H0 H1]. split; nra. Qed.

(** ** Slices *)

Lemma py_take_firstn {A} (l : list A) (n : Z) :
  0 <= n -> py_take l n = firstn (Z.to_nat n) l.
Proof.
  intros Hn. unfold py_take, py_slice, slice_bound, len.
  assert (H0 : (0 <? 0) = false) by reflexivity. rewrite H0.
  destruct (Z.ltb_spec n 0); [lia|].
  rewrite (Z.min_l 0) by lia. change (Z.to_nat 0) with 0%nat. rewrite drop_0, Z.sub_0_r.
  destruct (Z.le_ge_cases n (Z.of_nat (length l))).
  - rewrite Z.min_l by lia. reflexivity.
  - rewrite Z.min_r by lia. rewrite Nat2Z.id.
    rewrite (firstn_all2 (n := Z.to_nat n)) by lia.
    apply firstn_all2. lia.
Qed.

Lemma len_firstn {A} (l : list A) (n : Z) :
  0 <= n <= len l -> len (firstn (Z.to_nat n) l) = n.
Proof. unfold len. intros H. rewrite length_firstn. lia. Qed.

Lemma others_spec s i : In i (others s) <-> 0 <= i < total_nodes s /\ i <> id s.
Proof.
  unfold others, py_range. rewrite filter_In, <- list_elem_of_In, elem_of_seqZ.
  rewrite negb_true_iff, Z.eqb_neq. lia.
Qed.

(** ** The rules of [wp] *)

Lemma wp_ret {A} (x : A) e r (Q : A -> Run -> Prop) : Q x r -> wp (mret x) e r Q.
Proof. exact (fun H => H). Qed.

Lemma wp_bind {A B} (c : M A) (k : A -> M B) e r (Q : B -> Run -> Prop) :
  wp c e r (fun a r' => wp (k a) e r' Q) -> wp (c ≫= k) e r Q.
Proof. unfold wp, mbind, M_bind. destruct (c e r); exact (fun H => H). Qed.

Lemma wp_get e r (Q : t -> Run -> Prop) : Q (self r) r -> wp get e r Q.
Proof. exact (fun H => H). Qed.

Lemma wp_upd f e r (Q : unit -> Run -> Prop) :
  Q tt (mkRun (f (self r)) (draws r) (sent r) (calls r)) -> wp (upd f) e r Q.
Proof. exact (fun H => H). Qed.

Lemma wp_time e r (Q : Q -> Run -> Prop) : Q (now e) r -> wp time_time e r Q.
Proof. exact (fun H => H). Qed.

Lemma wp_uniform a b e r (Q : Q -> Run -> Prop) :
  Q (a + (b - a) * rand e (draws r))%Q (mkRun (self r) (S (draws r)) (sent r) (calls r)) ->
  wp (random_uniform a b) e r Q.
Proof. exact (fun H => H). Qed.

Lemma wp_send i m e r (Q : unit -> Run -> Prop) :
  Q tt (mkRun (self r) (draws r) (sent r ++ [(i, m)]) (calls r)) ->
  wp (transport_send i m) e r Q.
Proof. exact (fun H => H). Qed.

Lemma wp_connected e r (Q : Z -> Run -> Prop) :
  Q (connected e) r -> wp transport_get_connected_count e r Q.
Proof. exact (fun H => H). Qed.

Lemma wp_call c e r (Q : unit -> Run -> Prop) :
  Q tt (mkRun (self r) (draws r) (sent r) (calls r ++ [c])) -> wp (call c) e r Q.
Proof. exact (fun H => H). Qed.

Lemma wp_skip e r (Q : unit -> Run -> Prop) : Q tt r -> wp skip e r Q.
Proof. exact (fun H => H). Qed.

Lemma wp_mono {A} (c : M A) e r (Q Q' : A -> Run -> Prop) :
  wp c e r Q -> (forall a r', Q a r' -> Q' a r') -> wp c e r Q'.
Proof. unfold wp; auto. Qed.

Lemma wp_for_each {A} (I : Run -> Prop) (l : list A) body e r (Q : unit -> Run -> Prop) :
  I r ->
  (forall x r', I r' -> wp (body x) e r' (fun _ r'' => I r'')) ->
  (forall r', I r' -> Q tt r') ->
  wp (for_each l body) e r Q.
Proof.
  intros HI Hbody HQ. revert r HI. induction l as [|x l IH]; intros r HI; cbn [for_each].
  - apply wp_skip. auto.
  - apply wp_bind. eapply wp_mono; [apply Hbody; exact HI|].
    cbv beta. intros _ r' HI'. apply IH. exact HI'.
Qed.

(** ** Symbolic execution *)

(** Field reads of updated records. *)
Ltac nsimpl :=
  cbn [self draws sent calls
       id total_nodes config metrics on_become_leader on_become_follower on_log_committed
       state current_term voted_for log commit_index last_applied leader_id had_leader_before
       is_sub_leader subleader_rank current_sub_leaders subleaders_assigned leader_elected_time
       response_times message_sent_times is_promotion_pending promotion_start_time
       promotion_ack_count promotion_ack_nodes promotion_confirmed last_majority_ack_time
       recent_ack_nodes next_index match_index votes_received voted_nodes election_start_time
       consecutive_election_failures last_heartbeat election_timeout running stats
       startup_grace_period startup_time startup_grace_duration
       set_state set_current_term set_voted_for set_log set_commit_index set_last_applied
       set_leader_id set_had_leader_before set_is_sub_leader set_subleader_rank
       set_current_sub_leaders set_subleaders_assigned set_leader_elected_time
       set_response_times set_message_sent_times set_is_promotion_pending
       set_promotion_start_time set_promotion_ack_count set_promotion_ack_nodes
       set_promotion_confirmed set_last_majority_ack_time set_recent_ack_nodes
       set_next_index set_match_index set_votes_received set_voted_nodes
       set_election_start_time set_consecutive_election_failures set_last_heartbeat
       set_election_timeout set_running set_stats set_startup_grace_period
       NodeState_eqb andb orb negb].

Ltac nsimpl_all :=
  cbn [self draws sent calls
       id total_nodes config metrics on_become_leader on_become_follower on_log_committed
       state current_term voted_for log commit_index last_applied leader_id had_leader_before
       is_sub_leader subleader_rank current_sub_leaders subleaders_assigned leader_elected_time
       response_times message_sent_times is_promotion_pending promotion_start_time
       promotion_ack_count promotion_ack_nodes promotion_confirmed last_majority_ack_time
       recent_ack_nodes next_index match_index votes_received voted_nodes election_start_time
       consecutive_election_failures last_heartbeat election_timeout running stats
       startup_grace_period startup_time startup_grace_duration
       set_state set_current_term set_voted_for set_log set_commit_index set_last_applied
       set_leader_id set_had_leader_before set_is_sub_leader set_subleader_rank
       set_current_sub_leaders set_subleaders_assigned set_leader_elected_time
       set_response_times set_message_sent_times set_is_promotion_pending
       set_promotion_start_time set_promotion_ack_count set_promotion_ack_nodes
       set_promotion_confirmed set_last_majority_ack_time set_recent_ack_nodes
       set_next_index set_match_index set_votes_received set_voted_nodes
       set_election_start_time set_consecutive_election_failures set_last_heartbeat
       set_election_timeout set_running set_stats set_startup_grace_period
       NodeState_eqb andb orb negb] in *.

Ltac wp_step :=
  lazymatch goal with
  | |- wp (mbind _ _) _ _ _ => apply wp_bind
  | |- wp (mret _) _ _ _ => apply wp_ret
  | |- wp get _ _ _ => apply wp_get
  | |- wp (upd _) _ _ _ => apply wp_upd
  | |- wp time_time _ _ _ => apply wp_time
  | |- wp (random_uniform _ _) _ _ _ => apply wp_uniform
  | |- wp (transport_send _ _) _ _ _ => apply wp_send
  | |- wp transport_get_connected_count _ _ _ => apply wp_connected
  | |- wp (call _) _ _ _ => apply wp_call
  | |- wp skip _ _ _ => apply wp_skip
  | |- wp (when _ _) _ _ _ => unfold when at 1
  end; cbv beta; cbn [self draws sent calls].

Ltac wp_run := repeat wp_step.


Ltac prune := try (exfalso; lia); try congruence.

(** A condition some hypothesis already decides is rewritten, not split. *)
Ltac use_fact b :=
  match goal with
  | H : ?l = _ |- _ =>
      lazymatch l with
      | true => fail
      | false => fail
      | _ => idtac
      end;
      match b with context [l] => rewrite H end
  end.

Ltac wp_branch :=
  lazymatch goal with
  | |- wp (if ?b then _ else _) _ _ _ =>
      first
        [ use_fact b
        | lazymatch b with
          | (?x <? ?y) => destruct (Z.ltb_spec x y); prune
          | (?x <=? ?y) => destruct (Z.leb_spec x y); prune
          | (?x =? ?y) => destruct (Z.eqb_spec x y); prune
          | _ => let E := fresh "E" in destruct b eqn:E; prune
          end ]
  | |- wp (match ?o with Some _ => _ | None => _ end) _ _ _ =>
      first [ use_fact o | let E := fresh "E" in destruct o eqn:E; prune ]
  | |- wp (match ?x with FOLLOWER => _ | CANDIDATE => _ | LEADER => _ | STOPPED => _ end) _ _ _ =>
      first [ use_fact x | let E := fresh "E" in destruct x eqn:E; prune ]
  end.

Ltac bool_facts :=
  repeat match goal with
  | H : _ && true = _ |- _ => rewrite andb_true_r in H
  | H : _ && false = _ |- _ => rewrite andb_false_r in H
  | H : negb _ = true |- _ => apply negb_true_iff in H
  | H : negb _ = false |- _ => apply negb_false_iff in H
  | H : bool_decide _ = true |- _ => apply bool_decide_eq_true in H
  | H : bool_decide _ = false |- _ => apply bool_decide_eq_false in H
  | H : _ && _ = true |- _ => apply andb_true_iff in H; destruct H
  | H : (_ <=? _) = true |- _ => apply Z.leb_le in H
  | H : (_ <=? _) = false |- _ => apply Z.leb_gt in H
  | H : (_ <? _) = true |- _ => apply Z.ltb_lt in H
  | H : (_ <? _) = false |- _ => apply Z.ltb_ge in H
  | H : Qltb _ _ = true |- _ => apply Qltb_lt in H
  | H : Qleb _ _ = true |- _ => apply Qleb_le in H
  end.

(** ** The methods other methods call *)

Lemma reset_exact e r :
  _reset_election_timer e r =
  (election_timer (self r) (rand e (draws r)),
   mkRun (self r) (S (draws r)) (sent r) (calls r)).
Proof.
  unfold election_timer, _reset_election_timer, start.
  cbv [mbind M_bind mret M_ret get random_uniform random_random].
  cbn [self draws sent calls rand fst].
  destruct (negb (had_leader_before (self r))); [reflexivity|].
  destruct (RaftConfig.enable_subleader (config (self r)) && is_sub_leader (self r));
    [|reflexivity].
  destruct (opt_is (subleader_rank (self r)) 0); [reflexivity|].
  destruct (opt_is (subleader_rank (self r)) 1); reflexivity.
Qed.

Lemma election_timer_ext s s' u :
  config s = config s' -> id s = id s' -> total_nodes s = total_nodes s' ->
  had_leader_before s = had_leader_before s' ->
  is_sub_leader s = is_sub_leader s' ->
  subleader_rank s = subleader_rank s' ->
  election_timer s u = election_timer s' u.
Proof.
  intros Hc Hi Hn Hh Hsub Hr.
  unfold election_timer, _reset_election_timer, start.
  cbv [mbind M_bind mret M_ret get random_uniform random_random].
  cbn [self draws sent calls rand].
  rewrite Hc, Hi, Hn, Hh, Hsub, Hr.
  destruct (negb (had_leader_before s')); [reflexivity|].
  destruct (RaftConfig.enable_subleader (config s') && is_sub_leader s'); [|reflexivity].
  destruct (opt_is (subleader_rank s') 0); [reflexivity|].
  destruct (opt_is (subleader_rank s') 1); reflexivity.
Qed.

Lemma wp_reset e r (Q : Q -> Run -> Prop) :
  Q (election_timer (self r) (rand e (draws r)))
    (mkRun (self r) (S (draws r)) (sent r) (calls r)) ->
  wp _reset_election_timer e r Q.
Proof. unfold wp. rewrite reset_exact. exact (fun H => H). Qed.

Lemma wp_step_down e r (Q : unit -> Run -> Prop) :
  Q tt (mkRun (stepped_down (self r) (now e) (rand e (draws r)))
              (S (draws r)) (sent r)
              (calls r ++ if on_become_follower (self r) then [OnBecomeFollower] else [])) ->
  wp _step_down_to_follower e r Q.
Proof.
  intros H. unfold _step_down_to_follower. wp_run.
  apply wp_reset. cbv beta. wp_run. nsimpl.
  destruct (on_become_follower (self r)); wp_run.
  - apply H.
  - rewrite <- (app_nil_r (calls r)) at 1. apply H.
Qed.

Lemma wp_init_log_tracking e r (Q : unit -> Run -> Prop) :
  (forall ni mi,
     Q tt (mkRun (set_match_index mi (set_next_index ni (self r))) (draws r) (sent r) (calls r))) ->
  wp _init_log_tracking e r Q.
Proof.
  intros H. unfold _init_log_tracking. wp_run.
  apply (wp_for_each (fun r' => exists ni mi,
           r' = mkRun (set_match_index mi (set_next_index ni (self r))) (draws r) (sent r) (calls r))).
  - exists ∅, ∅. reflexivity.
  - intros i r' (ni & mi & ->). wp_run. nsimpl. eexists _, _. reflexivity.
  - intros r' (ni & mi & ->). apply H.
Qed.

Lemma set_sub_leaders_same s :
  set_subleaders_assigned (subleaders_assigned s)
    (set_current_sub_leaders (current_sub_leaders s) s) = s.
Proof. destruct s; reflexivity. Qed.

Lemma set_message_sent_times_same s : set_message_sent_times (message_sent_times s) s = s.
Proof. destruct s; reflexivity. Qed.

Lemma wp_sub_leader_table e r (Q : list (Z * Z) -> Run -> Prop) :
  (forall subleader_map sl sa,
     Q subleader_map
       (mkRun (set_subleaders_assigned sa (set_current_sub_leaders sl (self r)))
              (draws r) (sent r) (calls r))) ->
  wp sub_leader_table e r Q.
Proof.
  destruct r as [s d o c]; cbn [self draws sent calls].
  intros H. unfold sub_leader_table. wp_run. cbv zeta.
  pose proof (fun m => H m (current_sub_leaders s) (subleaders_assigned s)) as H0.
  rewrite set_sub_leaders_same in H0.
  destruct (RaftConfig.enable_subleader (config s)); [|wp_run; apply H0].
  destruct (subleaders_assigned s); [wp_run; apply H0|].
  destruct (_ && _); wp_run; [apply H | apply H0].
Qed.

Lemma wp_broadcast_loop (f : Z -> Msg.t) now_ s0 (l : list Z) body e (Q : unit -> Run -> Prop) :
  (forall i mst d o c (Q' : unit -> Run -> Prop),
     Q' tt (mkRun (set_message_sent_times (<[i := now_]> mst) s0) d (o ++ [(i, f i)]) c) ->
     wp (body i) e (mkRun (set_message_sent_times mst s0) d o c) Q') ->
  forall mst0 d o c,
  (forall mst, Q tt (mkRun (set_message_sent_times mst s0) d (o ++ List.map (fun i => (i, f i)) l) c)) ->
  wp (for_each l body) e (mkRun (set_message_sent_times mst0 s0) d o c) Q.
Proof.
  intros Hbody. induction l as [|i l IH]; intros mst0 d o c HQ; cbn [for_each].
  - apply wp_skip. cbn [List.map] in HQ. rewrite app_nil_r in HQ. apply HQ.
  - apply wp_bind. apply Hbody. apply IH.
    intros mst. rewrite <- app_assoc. apply HQ.
Qed.

Lemma wp_send_append_entries e r (Q : unit -> Run -> Prop) :
  (forall subleader_map sl sa mst,
     Q tt (mkRun
             (set_last_heartbeat (now e)
               (set_message_sent_times mst
                 (set_recent_ack_nodes {[ id (self r) ]}
                   (set_subleaders_assigned sa
                     (set_current_sub_leaders sl (self r))))))
             (draws r) (sent r ++ broadcast (self r) subleader_map (now e)) (calls r))) ->
  wp _send_append_entries e r Q.
Proof.
  destruct r as [s d o c]; cbn [self draws sent calls].
  intros H. unfold _send_append_entries. apply wp_bind.
  apply wp_sub_leader_table. intros subleader_map sl sa. cbn [self draws sent calls].
  wp_run. nsimpl.
  set (s0 := set_recent_ack_nodes {[id s]} (set_subleaders_assigned sa (set_current_sub_leaders sl s))).
  rewrite <- (set_message_sent_times_same s0).
  assert (Hfin : forall mst msgs,
    msgs = broadcast s subleader_map (now e) ->
    wp (ts ← time_time; upd (set_last_heartbeat ts)) e
       (mkRun (set_message_sent_times mst s0) d (o ++ msgs) c) Q).
  { intros mst msgs ->. wp_run. nsimpl. apply H. }
  destruct (is_promotion_pending s) eqn:Hp.
  - eapply (wp_broadcast_loop (fun _ => claim_to s subleader_map (now e)) (now e) s0).
    + intros i mst d' o' c' Q' HQ'. wp_run. nsimpl. exact HQ'.
    + intros mst. apply Hfin. unfold broadcast. rewrite Hp. reflexivity.
  - eapply (wp_broadcast_loop (heartbeat_to s subleader_map (now e)) (now e) s0).
    + intros i mst d' o' c' Q' HQ'. wp_run. nsimpl. exact HQ'.
    + intros mst. apply Hfin. unfold broadcast. rewrite Hp. reflexivity.
Qed.

Lemma wp_apply_loop n e r (Q : unit -> Run -> Prop) :
  (forall la cs, Q tt (mkRun (set_last_applied la (self r)) (draws r) (sent r) (calls r ++ cs))) ->
  wp (apply_loop n) e r Q.
Proof.
  destruct r as [s d o c]; cbn [self draws sent calls].
  assert (Hsame : forall s, set_last_applied (last_applied s) s = s) by (intros []; reflexivity).
  intros H.
  assert (H' : forall la cs, Q tt (mkRun (set_last_applied la s) d o (c ++ cs))) by exact H.
  clear H. rewrite <- (Hsame s). rewrite <- (app_nil_r c).
  generalize (last_applied s) as la. generalize (@nil Call) as cs.
  induction n as [|n IH]; intros cs la; cbn [apply_loop].
  - apply wp_skip, H'.
  - wp_run. nsimpl. destruct (_ <? _).
    + apply wp_bind. unfold apply_next. wp_run. nsimpl.
      destruct (_ <=? _); wp_run.
      * destruct (py_getitem _ _); wp_run.
        -- destruct (on_log_committed s); wp_run.
           ++ rewrite <- app_assoc. apply IH.
           ++ apply IH.
        -- apply IH.
      * apply IH.
    + wp_run. apply H'.
Qed.

(** A method call: its rule where it has one, its body otherwise. *)
Ltac wp_method :=
  lazymatch goal with
  | |- wp _reset_election_timer _ _ _ => apply wp_reset
  | |- wp _step_down_to_follower _ _ _ => apply wp_step_down; unfold stepped_down
  | |- wp _init_log_tracking _ _ _ => apply wp_init_log_tracking; intros ?ni ?mi
  | |- wp _send_append_entries _ _ _ => apply wp_send_append_entries; intros ?smap ?sl ?sa ?mst
  | |- wp _apply_committed_entries _ _ _ => unfold _apply_committed_entries
  | |- wp (apply_loop _) _ _ _ => apply wp_apply_loop; intros ?la ?cs
  | |- wp _become_leader_from_promotion _ _ _ => unfold _become_leader_from_promotion
  | |- wp _become_leader_from_election _ _ _ => unfold _become_leader_from_election
  | |- wp _check_promotion_success _ _ _ => unfold _check_promotion_success
  | |- wp _instant_promotion _ _ _ => unfold _instant_promotion
  | |- wp _start_election _ _ _ => unfold _start_election
  | |- wp (_handle_append_entries _) _ _ _ => unfold _handle_append_entries
  | |- wp (_handle_append_ack _) _ _ _ => unfold _handle_append_ack
  | |- wp (_handle_request_vote _) _ _ _ => unfold _handle_request_vote
  | |- wp (_handle_vote_response _) _ _ _ => unfold _handle_vote_response
  | |- wp (_handle_message _) _ _ _ => unfold _handle_message
  | |- wp _check_timers _ _ _ => unfold _check_timers
  | |- wp (submit_command _) _ _ _ => unfold submit_command
  end; cbv beta; cbn [self draws sent calls].

Ltac wp_go := repeat first [ wp_step | progress cbv zeta | progress nsimpl | wp_branch | wp_method ].

(** A goal about [run_state c e r] read as a postcondition of [c]. *)
Ltac as_wp :=
  lazymatch goal with
  | |- context [run_state ?c ?e ?r] =>
      pattern (run_state c e r);
      lazymatch goal with
      | |- ?P (run_state c e r) => change (wp c e r (fun _ r' => P r'))
      end
  end; cbv beta.

(** ** Client commands *)


(** ** The leader's lease *)

(** C7: a tick taken as Leader with
    [now - last_majority_ack_time > max(heartbeat_interval * 30, 3)] leaves
    the node a Follower, having sent nothing and with its log untouched; every
    [submit_command] after it is refused and changes nothing. *)
Theorem leader_lease_expiry_steps_down (e : Env) (r : Run) :
  total_nodes (self r) <> 0 ->
  state (self r) = LEADER ->
  (py_max (RaftConfig.heartbeat_interval (config (self r)) * 30) 3
     < now e - last_majority_ack_time (self r))%Q ->
  let r' := run_state _check_timers e r in
  state (self r') = FOLLOWER /\
  sent r' = sent r /\
  log (self r') = log (self r) /\
  forall command e',
    run_value (submit_command command) e' r' = false /\
    run_state (submit_command command) e' r' = r'.
Proof.
  intros Hn Hs Hl r'.
  assert (H : state (self r') = FOLLOWER /\ sent r' = sent r /\ log (self r') = log (self r)).
  { subst r'. apply Qltb_lt in Hl. as_wp. wp_go; auto. }
  destruct H as (H1 & H2 & H3). repeat split; auto.
  - unfold run_value, submit_command. cbv [mbind M_bind get]. rewrite H1. reflexivity.
  - unfold run_state, submit_command. cbv [mbind M_bind get]. rewrite H1. reflexivity.
Qed.

(** ** The AppendEntries receiver *)


(** ** Instant promotion *)

(** C4: the tick on which a sub-leader Follower's election timeout fires
    with at least two peers connected.  The node becomes Candidate in term
    [current_term + 1], votes for itself, is no sub-leader any more, and
    sends to each other peer (and to nobody else) one AppendEntries of the
    new term with no entries and [leader_commit = |log|]; no RequestVote is
    sent. *)
Theorem instant_promotion_step (e : Env) (r : Run) :
  let s := self r in
  state s = FOLLOWER ->
  startup_grace_period s && Qltb (now e - startup_time s) (startup_grace_duration s) = false ->
  (election_timeout s <= now e - last_heartbeat s)%Q ->
  RaftConfig.enable_subleader (config s) = true ->
  is_sub_leader s = true ->
  2 <= connected e ->
  let r' := run_state _check_timers e r in
  state (self r') = CANDIDATE /\
  current_term (self r') = current_term s + 1 /\
  voted_for (self r') = Some (id s) /\
  is_sub_leader (self r') = false /\
  subleader_rank (self r') = None /\
  exists sub_leaders,
    let claim :=
      create_append_entries (id s) (current_term s + 1) 0 0 [] (len (log s)) sub_leaders (now e) in
    sent r' = sent r ++ List.map (fun i => (i, claim)) (others s) /\
    Msg.type claim <> MessageType.REQUEST_VOTE /\
    Msg.term claim = current_term s + 1 /\
    Data.entries (Msg.data claim) = Some [] /\
    Data.leader_commit (Msg.data claim) = Some (len (log s)).
Proof.
  intros s Hs Hg Ht He Hsub Hc r'. subst s r'.
  apply Qleb_le in Ht. as_wp.
  wp_go; repeat split; try reflexivity.
  all: exists smap; repeat split; try reflexivity; try discriminate.
Qed.


(** ** Commit on the leader *)


(** ** The connection gate *)

(** C10, as the code has it: a Follower whose election timeout expires with
    fewer than two peers connected starts nothing: state, term and vote are
    unchanged and nothing is sent.  On the instant-promotion path, and on the
    election path while fewer than three elections in a row have failed,
    the new timeout exceeds the freshly drawn base timeout by an amount in
    [500 ms, 1000 ms]; on the election path after three failures it exceeds
    it by the backoff [min(3 s, 2 ^ (failures - 2) * 100 ms)]. *)
Theorem connection_gate_holds_election (e : Env) (r : Run) :
  let s := self r in
  total_nodes s <> 0 ->
  state s = FOLLOWER ->
  startup_grace_period s && Qltb (now e - startup_time s) (startup_grace_duration s) = false ->
  (election_timeout s <= now e - last_heartbeat s)%Q ->
  connected e < 2 ->
  (0 <= rand e (S (draws r)) <= 1)%Q ->
  let r' := run_state _check_timers e r in
  let base := run_value _reset_election_timer e r in
  let instant := RaftConfig.enable_subleader (config s) && is_sub_leader s in
  let failures := consecutive_election_failures s in
  state (self r') = FOLLOWER /\
  current_term (self r') = current_term s /\
  voted_for (self r') = voted_for s /\
  sent r' = sent r /\
  (instant = true \/ failures < 3 ->
     exists extra, election_timeout (self r') = (base + extra)%Q /\
                   (5 # 10 <= extra <= 1)%Q) /\
  (instant = false -> 3 <= failures ->
     election_timeout (self r') =
     (base + py_min 3 (inject_Z (2 ^ (failures - 2)) * (1 # 10)))%Q).
Proof.
  intros s Hn Hs Hg Ht Hc Hu r' base instant failures.
  subst s r' base instant failures.
  unfold run_value. rewrite reset_exact. cbn [fst].
  apply Qleb_le in Ht. as_wp.
  wp_go; rewrite ?(election_timer_ext _ (self r)) by reflexivity;
    (repeat split; try reflexivity; try congruence).
  all: try (intros [?|?]; try congruence; try lia).
  all: try (intros; lia).
  all: try (eexists; split; [reflexivity|]; apply uniform_bounds; [lra|exact Hu]).
Qed.

(** ** The vote of a follower

    A Follower that has voted for [a] keeps that vote, and grants no other
    candidate, for as long as its term does not change: no operation on a
    Follower reaches [_step_down_to_follower] without raising the term. *)

(** A loop that only sends. *)
Lemma wp_send_loop (f : t -> Q -> Z -> Msg.t) (l : list Z) e r (Q : unit -> Run -> Prop) :
  Q tt (mkRun (self r) (draws r)
              (sent r ++ List.map (fun i => (i, f (self r) (now e) i)) l) (calls r)) ->
  wp (for_each l (fun i => s ← get; ts ← time_time; transport_send i (f s ts i))) e r Q.
Proof.
  destruct r as [s d o c]; cbn [self draws sent calls]. revert o.
  induction l as [|i l IH]; intros o H; cbn [for_each].
  - apply wp_skip. cbn [List.map] in H. rewrite app_nil_r in H. exact H.
  - wp_run. apply IH. cbn [List.map] in H. rewrite <- app_assoc. exact H.
Qed.

Ltac wp_loop :=
  lazymatch goal with
  | |- wp (for_each _ _) _ _ _ => apply wp_send_loop
  end; cbv beta; cbn [self draws sent calls].

Lemma grants_app out1 out2 : grants (out1 ++ out2) = grants out1 ++ grants out2.
Proof. unfold grants. rewrite List.filter_app, List.map_app. reflexivity. Qed.

Ltac new_messages :=
  first
    [ exists []; split; [symmetry; apply app_nil_r | intros ? []]
    | eexists; split; [reflexivity|];
      cbn; intros ? HIn; bool_facts;
      repeat (destruct HIn as [HIn|HIn]); try contradiction; subst; lia ].

Lemma follower_vote_kept (r : Run) (op : Op) (a : Z) :
  total_nodes (self r) <> 0 ->
  state (self r) = FOLLOWER ->
  voted_for (self r) = Some a ->
  current_term (self (step r op)) = current_term (self r) ->
  id (self (step r op)) = id (self r) /\
  total_nodes (self (step r op)) = total_nodes (self r) /\
  state (self (step r op)) = FOLLOWER /\
  voted_for (self (step r op)) = Some a /\
  exists out, sent (step r op) = sent r ++ out /\ forall i, In i (grants out) -> i = a.
Proof.
  intros Hn Hs Hv. destruct op as [e msg|e|e command]; cbn [step].
  all: as_wp; repeat first [ progress wp_go | wp_loop ].
  all: intros Hterm; first [ exfalso; lia | idtac ].
  all: (split; [reflexivity|]; split; [reflexivity|];
        split; [reflexivity || congruence|]; split; [reflexivity || congruence|]).
  all: new_messages.
Qed.

Lemma follower_vote_kept_steps (ops : list Op) (r : Run) (a : Z) :
  total_nodes (self r) <> 0 ->
  state (self r) = FOLLOWER ->
  voted_for (self r) = Some a ->
  (forall k, current_term (self (steps r (firstn k ops))) = current_term (self r)) ->
  state (self (steps r ops)) = FOLLOWER /\
  voted_for (self (steps r ops)) = Some a /\
  exists out, sent (steps r ops) = sent r ++ out /\ forall i, In i (grants out) -> i = a.
Proof.
  revert r. induction ops as [|op ops IH]; intros r Hn Hs Hv Hterm.
  - cbn. split; [exact Hs|]. split; [exact Hv|].
    exists []. split; [symmetry; apply app_nil_r | intros ? []].
  - pose proof (Hterm 1%nat) as H1. cbn in H1.
    destruct (follower_vote_kept r op a Hn Hs Hv H1) as (Hid & Htot & Hs' & Hv' & out1 & Hout1 & Hg1).
    destruct (IH (step r op)) as (Hs2 & Hv2 & out2 & Hout2 & Hg2).
    + rewrite Htot. exact Hn.
    + exact Hs'.
    + exact Hv'.
    + intros k. transitivity (current_term (self r)); [apply (Hterm (S k)) | symmetry; exact H1].
    + cbn [steps fold_left]. fold (steps (step r op) ops).
      split; [exact Hs2|]. split; [exact Hv2|].
      exists (out1 ++ out2). split.
      * rewrite Hout2, Hout1, app_assoc. reflexivity.
      * intros i Hi. rewrite grants_app in Hi. apply in_app_or in Hi as [Hi|Hi]; auto.
Qed.

(** ** Runs of the node *)

Import Scenario.


(** C3: a follower holding two committed and applied entries receives an
    AppendEntries whose [prev_log_term] differs from the term of its entry
    2.  The log is cut to one entry and [commit_index] and [last_applied]
    stay at 2: [commit_index <= |log|] does not hold after the operation. *)
Theorem commit_index_beyond_truncated_log :
  (last_applied (self committed_node) <= commit_index (self committed_node)
     <= len (log (self committed_node))) /\
  commit_index (self committed_node) = 2 /\
  len (log (self truncated_node)) = 1 /\
  commit_index (self truncated_node) = 2 /\
  last_applied (self truncated_node) = 2 /\
  ~ (commit_index (self truncated_node) <= len (log (self truncated_node))).
Proof. vm_compute. repeat split; try discriminate. intros H; apply H; reflexivity. Qed.


(** After three failed elections the fourth timeout of an isolated node
    takes the backoff branch: the timeout exceeds the base by 200 ms. *)
Lemma connection_gate_backoff_extension :
  let e := env 36 1 in
  let r := isolated_node in
  let r' := step r (Tick e) in
  let base := run_value _reset_election_timer e r in
  state (self r) = FOLLOWER /\
  connected e < 2 /\
  (election_timeout (self r) <= now e - last_heartbeat (self r))%Q /\
  consecutive_election_failures (self r) = 3 /\
  (election_timeout (self r') - base == 2 # 10)%Q /\
  ~ (5 # 10 <= election_timeout (self r') - base)%Q.
Proof.
  vm_compute. repeat split; try reflexivity; try discriminate.
  intros H; apply H; reflexivity.
Qed.

(** ** The theorems at work *)

Lemma leader_lease_expiry_at_leader_node :
  state (self leader_node) = LEADER /\
  state (self (run_state _check_timers (env 10 3) leader_node)) = FOLLOWER /\
  sent (run_state _check_timers (env 10 3) leader_node) = sent leader_node.
Proof.
  assert (Hn : total_nodes (self leader_node) <> 0) by (vm_compute; discriminate).
  assert (Hs : state (self leader_node) = LEADER) by (vm_compute; reflexivity).
  assert (Hl : (py_max (RaftConfig.heartbeat_interval (config (self leader_node)) * 30) 3
                < now (env 10 3) - last_majority_ack_time (self leader_node))%Q)
    by (vm_compute; reflexivity).
  destruct (leader_lease_expiry_steps_down (env 10 3) leader_node Hn Hs Hl) as (H1 & H2 & _).
  split; [exact Hs|]. split; [exact H1 | exact H2].
Defined.


Lemma instant_promotion_at_subleader_node :
  is_sub_leader (self subleader_node) = true /\
  state (self promoting_node) = CANDIDATE /\
  current_term (self promoting_node) = current_term (self subleader_node) + 1 /\
  voted_for (self promoting_node) = Some 0.
Proof.
  assert (Hs : state (self subleader_node) = FOLLOWER) by (vm_compute; reflexivity).
  assert (Hg : startup_grace_period (self subleader_node)
               && Qltb (now (env 2 3) - startup_time (self subleader_node))
                       (startup_grace_duration (self subleader_node)) = false)
    by (vm_compute; reflexivity).
  assert (Ht : (election_timeout (self subleader_node)
                <= now (env 2 3) - last_heartbeat (self subleader_node))%Q)
    by (vm_compute; discriminate).
  assert (He : RaftConfig.enable_subleader (config (self subleader_node)) = true)
    by (vm_compute; reflexivity).
  assert (Hsub : is_sub_leader (self subleader_node) = true) by (vm_compute; reflexivity).
  assert (Hc : 2 <= connected (env 2 3)) by (vm_compute; discriminate).
  pose proof (instant_promotion_step (env 2 3) subleader_node Hs Hg Ht He Hsub Hc) as H.
  split; [exact Hsub|].
  split; [exact (proj1 H)|].
  split; [exact (proj1 (proj2 H))|].
  exact (proj1 (proj2 (proj2 H))).
Defined.



Lemma connection_gate_at_lonely_node :
  connected (env 6 1) < 2 /\
  state (self (run_state _check_timers (env 6 1) lonely_node)) = FOLLOWER /\
  current_term (self (run_state _check_timers (env 6 1) lonely_node))
    = current_term (self lonely_node) /\
  sent (run_state _check_timers (env 6 1) lonely_node) = sent lonely_node.
Proof.
  assert (Hn : total_nodes (self lonely_node) <> 0) by (vm_compute; discriminate).
  assert (Hs : state (self lonely_node) = FOLLOWER) by (vm_compute; reflexivity).
  assert (Hg : startup_grace_period (self lonely_node)
               && Qltb (now (env 6 1) - startup_time (self lonely_node))
                       (startup_grace_duration (self lonely_node)) = false)
    by (vm_compute; reflexivity).
  assert (Ht : (election_timeout (self lonely_node)
                <= now (env 6 1) - last_heartbeat (self lonely_node))%Q)
    by (vm_compute; discriminate).
  assert (Hc : connected (env 6 1) < 2) by (vm_compute; reflexivity).
  assert (Hu : (0 <= rand (env 6 1) (S (draws lonely_node)) <= 1)%Q)
    by (split; vm_compute; discriminate).
  pose proof (connection_gate_holds_election (env 6 1) lonely_node Hn Hs Hg Ht Hc Hu) as H.
  split; [exact Hc|].
  split; [exact (proj1 H)|].
  split; [exact (proj1 (proj2 H))|].
  exact (proj1 (proj2 (proj2 (proj2 H)))).
Defined.

End NodeProofs.

(* ===================================================================== *)
(** * Properties of the codec                                             *)
(* ===================================================================== *)

Module WireProofs.
Import Message.

(** ** Dictionaries *)

Lemma pykey_eqb_eq a b : pykey_eqb a b = true <-> a = b.
Proof.
  destruct a, b; cbn; try (split; [discriminate | intros [=]]).
  - rewrite String.eqb_eq. split; congruence.
  - rewrite Z.eqb_eq. split; congruence.
Qed.

Lemma pykey_eqb_neq a b : pykey_eqb a b = false <-> a <> b.
Proof.
  rewrite <- pykey_eqb_eq. destruct (pykey_eqb a b); split; congruence.
Qed.

Lemma items_set_fresh {V} (k : pykey) (v : V) (acc : list (pykey * V)) :
  k ∉ acc.*1 -> items_set k v acc = acc ++ [(k, v)].
Proof.
  induction acc as [|[k' v'] acc IH]; cbn; intros Hn; [reflexivity|].
  rewrite not_elem_of_cons in Hn. destruct Hn as [Hne Hn].
  apply pykey_eqb_neq in Hne. rewrite Hne. rewrite IH by assumption. reflexivity.
Qed.

Lemma to_int_not_nil z : Z.to_int z <> Decimal.Pos Decimal.Nil /\ Z.to_int z <> Decimal.Neg Decimal.Nil.
Proof.
  destruct z; cbn; split; try discriminate.
  - intros [= H]. apply (DecimalPos.Unsigned.to_uint_nonnil p H).
  - intros [= H]. apply (DecimalPos.Unsigned.to_uint_nonnil p H).
Qed.

Lemma py_int_of_str_of_int z : py_int_of_str (py_str_of_int z) = Some z.
Proof.
  unfold py_int_of_str, py_str_of_int.
  destruct (to_int_not_nil z) as [H1 H2].
  rewrite NilZero.isi by assumption. rewrite DecimalZ.of_to. reflexivity.
Qed.

Lemma fresh_after (k k' : pykey) (v : pyval) (acc : list (pykey * pyval)) :
  k' <> k -> k' ∉ acc.*1 -> k' ∉ (acc ++ [(k, v)]).*1.
Proof.
  intros Hne Hn. rewrite fmap_app. cbn. rewrite not_elem_of_app. split; [exact Hn|].
  rewrite list_elem_of_singleton. exact Hne.
Qed.

Lemma serialize_items (its acc : list (pykey * pyval)) :
  NoDup its.*1 -> (forall k, k ∈ its.*1 -> k ∉ acc.*1) ->
  fold_left
    (fun result '(k, v) =>
       match v with
       | PList l =>
           if pykey_eqb k (KStr "entries")
           then items_set k (PList (List.map serialize_entry l)) result
           else items_set k v result
       | _ => items_set k v result
       end) its acc
  = acc ++ List.map (fun '(k, v) => (k, ser_value k v)) its.
Proof.
  revert acc. induction its as [|[k v] its IH]; intros acc Hnd Hdis; cbn [fold_left List.map].
  - rewrite app_nil_r. reflexivity.
  - cbn in Hnd. apply NoDup_cons in Hnd as [Hk Hnd].
    assert (Hfresh : k ∉ acc.*1) by (apply Hdis; cbn; left).
    assert (Hstep :
      match v with
      | PList l =>
          if pykey_eqb k (KStr "entries")
          then items_set k (PList (List.map serialize_entry l)) acc
          else items_set k v acc
      | _ => items_set k v acc
      end = acc ++ [(k, ser_value k v)]).
    { unfold ser_value. destruct v; try (apply items_set_fresh; exact Hfresh).
      destruct (pykey_eqb k (KStr "entries")); apply items_set_fresh; exact Hfresh. }
    rewrite Hstep. rewrite IH.
    + rewrite <- app_assoc. reflexivity.
    + exact Hnd.
    + intros k' Hk'. apply fresh_after.
      * intros ->. contradiction.
      * apply Hdis. cbn. right. exact Hk'.
Qed.

Lemma dict_of_items_nodup (its : list (pykey * pyval)) :
  NoDup its.*1 -> dict_of_items its = its.
Proof.
  intros Hnd. unfold dict_of_items.
  assert (H : forall acc, (forall k, k ∈ its.*1 -> k ∉ acc.*1) ->
            fold_left (fun acc '(k, v) => items_set k v acc) its acc = acc ++ its).
  { clear -Hnd. induction its as [|[k v] its IH]; intros acc Hdis; cbn [fold_left].
    - rewrite app_nil_r. reflexivity.
    - cbn in Hnd. apply NoDup_cons in Hnd as [Hk Hnd].
      rewrite items_set_fresh by (apply Hdis; cbn; left).
      rewrite IH; [rewrite <- app_assoc; reflexivity | exact Hnd |].
      intros k' Hk'. apply fresh_after.
      + intros ->. contradiction.
      + apply Hdis. cbn. right. exact Hk'. }
  apply (H []). intros k _. cbn. apply not_elem_of_nil.
Qed.

Lemma opt_list_cons {A B} (f : A -> option B) x l :
  opt_list f (x :: l) =
  match f x, opt_list f l with
  | Some y, Some l' => Some (y :: l')
  | _, _ => None
  end.
Proof. reflexivity. Qed.

Lemma json_value_PDict (d : list (pykey * pyval)) :
  json_value (PDict d) =
  match opt_list json_item d with
  | Some d' => Some (PDict (dict_of_items d'))
  | None => None
  end.
Proof. reflexivity. Qed.

Lemma json_value_PList (l : list pyval) :
  json_value (PList l) =
  match opt_list json_value l with
  | Some l' => Some (PList l')
  | None => None
  end.
Proof. reflexivity. Qed.

Lemma json_native_entries (es : list LogEntry.t) :
  Forall (fun e => json_native (LogEntry.command e)) es ->
  opt_list json_value (List.map serialize_entry (List.map entry_object es))
  = Some (List.map (fun e => LogEntry_to_dict (PInt (LogEntry.term e)) (LogEntry.command e)
                                (PInt (LogEntry.index e))) es).
Proof.
  induction 1 as [|e es He _ IH]; [reflexivity|].
  cbn [List.map]. rewrite opt_list_cons, IH.
  unfold entry_object at 1. cbn [serialize_entry]. unfold LogEntry_to_dict at 1.
  rewrite json_value_PDict. rewrite !opt_list_cons. cbn [json_item json_value opt_list json_key].
  rewrite He. reflexivity.
Qed.

Lemma deserialize_entry_dicts (es : list LogEntry.t) :
  deserialize_entries
    (List.map (fun e => LogEntry_to_dict (PInt (LogEntry.term e)) (LogEntry.command e)
                          (PInt (LogEntry.index e))) es)
  = Some (List.map entry_object es).
Proof.
  unfold deserialize_entries.
  induction es as [|e es IH]; [reflexivity|].
  cbn [List.map]. rewrite opt_list_cons, IH. reflexivity.
Qed.

Lemma py_str_of_int_inj a b : py_str_of_int a = py_str_of_int b -> a = b.
Proof.
  intros H. apply (f_equal py_int_of_str) in H.
  rewrite !py_int_of_str_of_int in H. congruence.
Qed.


Lemma json_sub_leaders_keys (sl : list (Z * Z)) k :
  KStr (py_str_of_int k) ∈ (json_sub_leaders sl).*1 -> k ∈ sl.*1.
Proof.
  induction sl as [|[n r] sl IH]; cbn.
  - intros H. apply elem_of_nil in H. contradiction.
  - rewrite !elem_of_cons. intros [H|H].
    + left. injection H as H. apply py_str_of_int_inj. exact H.
    + right. apply IH. exact H.
Qed.

Lemma int_sub_leaders_keys (sl : list (Z * Z)) k :
  KInt k ∈ (int_sub_leaders sl).*1 -> k ∈ sl.*1.
Proof.
  induction sl as [|[n r] sl IH]; cbn.
  - intros H. apply elem_of_nil in H. contradiction.
  - rewrite !elem_of_cons. intros [H|H].
    + left. congruence.
    + right. apply IH. exact H.
Qed.

Lemma json_sub_leaders_nodup (sl : list (Z * Z)) :
  NoDup sl.*1 -> NoDup (json_sub_leaders sl).*1.
Proof.
  induction sl as [|[n r] sl IH]; cbn; intros Hnd; [constructor|].
  apply NoDup_cons in Hnd as [Hn Hnd]. apply NoDup_cons. split; [|apply IH; exact Hnd].
  intros H. apply Hn. apply json_sub_leaders_keys. exact H.
Qed.

Lemma json_value_sub_leaders (sl : list (Z * Z)) :
  NoDup sl.*1 ->
  json_value (PDict (int_sub_leaders sl)) = Some (PDict (json_sub_leaders sl)).
Proof.
  intros Hnd. rewrite json_value_PDict.
  assert (H : opt_list json_item (int_sub_leaders sl) = Some (json_sub_leaders sl)).
  { clear Hnd. induction sl as [|[n r] sl IH]; [reflexivity|].
    change (int_sub_leaders ((n, r) :: sl)) with ((KInt n, PInt r) :: int_sub_leaders sl).
    rewrite opt_list_cons, IH. reflexivity. }
  rewrite H. rewrite dict_of_items_nodup by (apply json_sub_leaders_nodup; exact Hnd).
  reflexivity.
Qed.

Lemma restore_int_keys_sub_leaders (sl : list (Z * Z)) (acc : list (pykey * pyval)) :
  NoDup sl.*1 -> (forall k, k ∈ sl.*1 -> KInt k ∉ acc.*1) ->
  restore_int_keys (json_sub_leaders sl) acc = Some (acc ++ int_sub_leaders sl).
Proof.
  revert acc. induction sl as [|[n r] sl IH]; intros acc Hnd Hdis.
  - cbn. rewrite app_nil_r. reflexivity.
  - cbn in Hnd. apply NoDup_cons in Hnd as [Hn Hnd].
    cbn [json_sub_leaders int_sub_leaders List.map restore_int_keys int_of_key].
    rewrite py_int_of_str_of_int.
    rewrite items_set_fresh by (apply Hdis; cbn; left).
    fold (json_sub_leaders sl). fold (int_sub_leaders sl).
    rewrite IH; [rewrite <- app_assoc; reflexivity | exact Hnd |].
    intros k Hk. apply fresh_after.
    + intros [= ->]. contradiction.
    + apply Hdis. cbn. right. exact Hk.
Qed.


Lemma wire_item_json (kv : pykey * pyval) :
  wire_item kv ->
  json_item (let '(k, v) := kv in (k, ser_value k v)) = Some (wire_json kv) /\
  (wire_json kv).1 = kv.1.
Proof.
  destruct 1 as [name z|name b|es Hes|sl Hsl]; cbn [json_item ser_value wire_json fst].
  - split; reflexivity.
  - split; reflexivity.
  - split; [|reflexivity].
    cbn [pykey_eqb String.eqb Ascii.eqb Bool.eqb]. rewrite json_value_PList.
    rewrite json_native_entries by exact Hes.
    rewrite map_map. reflexivity.
  - split; [|reflexivity].
    fold (int_sub_leaders sl). rewrite json_value_sub_leaders by exact Hsl.
    unfold json_sub_leaders, int_sub_leaders. rewrite map_map.
    cbn [json_key]. do 3 f_equal. apply map_ext. intros [n r]. reflexivity.
Qed.


Lemma field_keys {A} name (inj : A -> pyval) o :
  (field name inj o).*1 `sublist_of` [KStr name].
Proof. destruct o; cbn; [reflexivity | apply sublist_nil_l]. Qed.

Lemma data_items_nodup d : NoDup (data_items d).*1.
Proof.
  apply (sublist_NoDup _
    [KStr "prev_log_index"; KStr "prev_log_term"; KStr "entries"; KStr "leader_commit";
     KStr "sub_leaders"; KStr "success"; KStr "match_index"; KStr "last_log_index";
     KStr "last_log_term"; KStr "vote_granted"]).
  - apply (bool_decide_unpack _). vm_compute. reflexivity.
  - unfold data_items. rewrite !fmap_app.
    repeat (apply (sublist_app _ [_] _ _); [apply field_keys|]).
    apply field_keys.
Qed.

Lemma data_items_wire d : wire_data d -> Forall wire_item (data_items d).
Proof.
  intros [Hes Hsl]. unfold data_items.
  repeat (apply Forall_app; split);
    match goal with
    | |- Forall _ (field _ _ ?o) => destruct o eqn:E; cbn; constructor; try constructor; auto
    end.
Qed.

Lemma serialize_data_items (its : list (pykey * pyval)) :
  NoDup its.*1 ->
  _serialize_data (PDict its) = PDict (List.map (fun '(k, v) => (k, ser_value k v)) its).
Proof.
  intros Hnd. unfold _serialize_data. rewrite serialize_items; [reflexivity | exact Hnd |].
  intros k _. cbn. apply not_elem_of_nil.
Qed.

Lemma json_items (its : list (pykey * pyval)) :
  Forall wire_item its ->
  opt_list json_item (List.map (fun '(k, v) => (k, ser_value k v)) its)
    = Some (List.map wire_json its) /\
  (List.map wire_json its).*1 = its.*1.
Proof.
  induction 1 as [|kv its Hkv _ [IH1 IH2]]; [split; reflexivity|].
  destruct (wire_item_json kv Hkv) as [H1 H2].
  cbn [List.map]. rewrite opt_list_cons.
  destruct kv as [k v]. rewrite H1, IH1. split; [reflexivity|].
  cbn [fmap list_fmap]. cbn in IH2. rewrite IH2. rewrite H2. reflexivity.
Qed.

Lemma deserialize_wire (its acc : list (pykey * pyval)) :
  Forall wire_item its -> NoDup its.*1 -> (forall k, k ∈ its.*1 -> k ∉ acc.*1) ->
  deserialize_items (List.map wire_json its) acc = Some (acc ++ its).
Proof.
  intros Hw. revert acc. induction Hw as [|kv its Hkv _ IH]; intros acc Hnd Hdis.
  - cbn. rewrite app_nil_r. reflexivity.
  - cbn in Hnd. apply NoDup_cons in Hnd as [Hk Hnd].
    assert (Hfresh : kv.1 ∉ acc.*1) by (apply Hdis; cbn; left).
    assert (Hrest : forall v, deserialize_items (List.map wire_json its) (acc ++ [(kv.1, v)])
                              = Some ((acc ++ [(kv.1, v)]) ++ its)).
    { intros v. apply IH; [exact Hnd|]. intros k' Hk'. apply fresh_after.
      - intros ->. contradiction.
      - apply Hdis. cbn. right. exact Hk'. }
    cbn [List.map].
    destruct Hkv as [name z|name b|es Hes|sl Hsl];
      cbn [wire_json deserialize_items fst] in *.
    + rewrite items_set_fresh by exact Hfresh. rewrite Hrest, <- app_assoc. reflexivity.
    + rewrite items_set_fresh by exact Hfresh. rewrite Hrest, <- app_assoc. reflexivity.
    + cbn [pykey_eqb String.eqb Ascii.eqb Bool.eqb]. rewrite map_map.
      change (List.map (fun x => match entry_object x with
                                 | PEntry t c i => LogEntry_to_dict t c i
                                 | _ => entry_object x
                                 end) es)
        with (List.map (fun e => LogEntry_to_dict (PInt (LogEntry.term e)) (LogEntry.command e)
                                   (PInt (LogEntry.index e))) es).
      rewrite deserialize_entry_dicts.
      rewrite items_set_fresh by exact Hfresh. rewrite Hrest, <- app_assoc. reflexivity.
    + cbn [pykey_eqb String.eqb Ascii.eqb Bool.eqb]. rewrite map_map.
      replace (List.map (fun x => let '(k', x0) := let '(node_id, rank) := x in
                                                   (KInt node_id, PInt rank) in
                                  (json_key k', x0)) sl)
        with (json_sub_leaders sl)
        by (unfold json_sub_leaders; apply map_ext; intros [n r]; reflexivity).
      rewrite restore_int_keys_sub_leaders;
        [| exact Hsl | intros k _; cbn; apply not_elem_of_nil].
      cbn [app]. fold (int_sub_leaders sl).
      rewrite items_set_fresh by exact Hfresh. rewrite Hrest, <- app_assoc. reflexivity.
Qed.

Lemma data_roundtrip (d : Data.t) :
  wire_data d ->
  exists j, json_value (_serialize_data (data_object d)) = Some j /\
            _deserialize_data j = Some (data_object d).
Proof.
  intros Hw. change (data_object d) with (PDict (data_items d)).
  pose proof (data_items_nodup d) as Hnd.
  pose proof (data_items_wire d Hw) as Hwi.
  destruct (json_items _ Hwi) as [Hj Hkeys].
  exists (PDict (List.map wire_json (data_items d))). split.
  - rewrite serialize_data_items by exact Hnd. rewrite json_value_PDict, Hj.
    rewrite dict_of_items_nodup; [reflexivity|]. rewrite Hkeys. exact Hnd.
  - unfold _deserialize_data. rewrite deserialize_wire; [reflexivity | exact Hwi | exact Hnd |].
    intros k _. cbn. apply not_elem_of_nil.
Qed.

Lemma message_roundtrip (now : Q) (m : Msg.t) :
  wire_data (Msg.data m) ->
  exists j, json_value (to_dict (of_msg m)) = Some j /\ from_dict now j = Some (of_msg m).
Proof.
  intros Hw. destruct (data_roundtrip _ Hw) as (jd & Hjd & Hdd).
  exists (PDict [(KStr "type", PStr (Msg.type m));
                 (KStr "sender_id", PInt (Msg.sender_id m));
                 (KStr "term", PInt (Msg.term m));
                 (KStr "data", jd);
                 (KStr "timestamp", PFloat (Msg.timestamp m));
                 (KStr "message_id", PStr (Msg.message_id m))]).
  split.
  - unfold to_dict, of_msg. cbn [type sender_id term data timestamp message_id].
    rewrite json_value_PDict. rewrite !opt_list_cons. unfold json_item at 4. rewrite Hjd.
    reflexivity.
  - unfold from_dict.
    cbn [items_get pykey_eqb String.eqb Ascii.eqb Bool.eqb get_or].
    rewrite Hdd. unfold new, of_msg. f_equal. f_equal.
    unfold data_object. destruct (data_items (Msg.data m)); reflexivity.
Qed.

Lemma Z_of_byte_of_Z z : Z_of_byte (byte_of_Z z) = z mod 256.
Proof.
  unfold Z_of_byte, byte_of_Z.
  assert (Hr : 0 <= z mod 256 < 256) by (apply Z.mod_pos_bound; lia).
  destruct (Strings.Byte.of_N (Z.to_N (z mod 256))) as [b|] eqn:E.
  - apply Strings.Byte.to_of_N in E. rewrite E. lia.
  - apply Strings.Byte.of_N_None_iff in E. lia.
Qed.

Lemma lor_shiftl_byte a b : 0 <= b < 256 -> Z.lor (Z.shiftl a 8) b = a * 256 + b.
Proof.
  intros Hb. rewrite Z.shiftl_mul_pow2 by lia. change (2 ^ 8) with 256.
  rewrite <- Z.add_nocarry_lor; [reflexivity|].
  apply Z.bits_inj'. intros i Hi. rewrite Z.land_spec, Z.bits_0.
  destruct (Z.ltb_spec i 8).
  - change 256 with (2 ^ 8). rewrite Z.mul_pow2_bits_low by lia. reflexivity.
  - assert (Hbi : Z.testbit b i = false).
    { destruct (Z.eq_dec b 0) as [->|Hne]; [apply Z.bits_0|].
      apply Z.bits_above_log2; [lia|].
      apply Z.log2_lt_pow2; [lia|].
      apply Z.lt_le_trans with (2 ^ 8); [change (2 ^ 8) with 256; lia|].
      apply Z.pow_le_mono_r; lia. }
    rewrite Hbi. apply andb_false_r.
Qed.

Lemma struct_roundtrip n header :
  struct_pack_I n = Some header ->
  length header = 4%nat /\ struct_unpack_I header = n.
Proof.
  unfold struct_pack_I. destruct (_ && _) eqn:E; [|discriminate].
  apply andb_true_iff in E as [H0 H1]. apply Z.leb_le in H0. apply Z.ltb_lt in H1.
  intros [= <-]. split; [reflexivity|].
  unfold struct_unpack_I. cbn [fold_left].
  rewrite !Z_of_byte_of_Z.
  rewrite !lor_shiftl_byte by (apply Z.mod_pos_bound; lia).
  rewrite !Z.shiftr_div_pow2 by lia.
  change (2 ^ 24) with 16777216. change (2 ^ 16) with 65536. change (2 ^ 8) with 256.
  change (2 ^ 32) with 4294967296 in H1.
  Z.div_mod_to_equations. lia.
Qed.

Lemma py_slice_prefix {A} (h d : list A) :
  py_slice (h ++ d) 0 (len h) = h.
Proof.
  unfold py_slice, slice_bound, len. rewrite length_app.
  assert (H0 : (0 <? 0) = false) by reflexivity. rewrite H0.
  destruct (Z.ltb_spec (Z.of_nat (length h)) 0); [lia|].
  rewrite (Z.min_l 0) by lia. rewrite Z.min_l by lia.
  change (Z.to_nat 0) with 0%nat. rewrite drop_0, Z.sub_0_r, Nat2Z.id.
  apply take_app_length.
Qed.

Lemma py_slice_suffix {A} (h d : list A) :
  py_slice (h ++ d) (len h) (len h + len d) = d.
Proof.
  unfold py_slice, slice_bound, len. rewrite length_app.
  destruct (Z.ltb_spec (Z.of_nat (length h)) 0); [lia|].
  destruct (Z.ltb_spec (Z.of_nat (length h) + Z.of_nat (length d)) 0); [lia|].
  rewrite !Z.min_l by lia. rewrite Nat2Z.id.
  rewrite drop_app_length.
  replace (Z.to_nat (Z.of_nat (length h) + Z.of_nat (length d) - Z.of_nat (length h)))
    with (length d) by lia.
  apply firstn_all.
Qed.

(** ** The round trip *)

(** C8: for a typed message [m] (any [type], integer [sender_id] and
    [term], the payload fields of the wire messages), [decode] applied to
    [encode m] returns a message equal to [m] in every field: the entries
    come back as [LogEntry] objects equal to the originals and [sub_leaders]
    with its integer keys.  The JSON library is the standard one: on this
    document [json.loads] undoes [json.dumps] up to what JSON cannot carry
    (keys become strings); commands are JSON-native values and the text
    fits the 32-bit length prefix. *)
Theorem decode_encode_roundtrip
    (json_dumps : pyval -> option (list byte)) (json_loads : list byte -> option pyval)
    (now : Q) (m : Msg.t) (json_data : list byte) :
  wire_data (Msg.data m) ->
  json_dumps (to_dict (of_msg m)) = Some json_data ->
  json_loads json_data = json_value (to_dict (of_msg m)) ->
  len json_data < 2 ^ 32 ->
  exists header,
    struct_pack_I (len json_data) = Some header /\
    encode json_dumps (of_msg m) = Some (header ++ json_data) /\
    decode json_loads now (header ++ json_data) = Decoded (of_msg m).
Proof.
  intros Hw Hdumps Hloads Hlen.
  destruct (message_roundtrip now m Hw) as (j & Hj & Hfrom).
  destruct (struct_pack_I (len json_data)) as [header|] eqn:Hpack.
  2:{ unfold struct_pack_I in Hpack.
      destruct (Z.leb_spec 0 (len json_data)); [|unfold len in *; lia].
      destruct (Z.ltb_spec (len json_data) (2 ^ 32)); [discriminate|lia]. }
  exists header. split; [reflexivity|].
  destruct (struct_roundtrip _ _ Hpack) as [Hh Hunpack].
  assert (Hlenh : len header = 4) by (unfold len; rewrite Hh; reflexivity).
  split.
  - unfold encode. rewrite Hdumps, Hpack. reflexivity.
  - unfold decode.
    assert (Hall : len (header ++ json_data) = 4 + len json_data).
    { unfold len in *. rewrite length_app. lia. }
    rewrite Hall.
    destruct (Z.ltb_spec (4 + len json_data) 4); [unfold len in *; lia|].
    replace (py_slice (header ++ json_data) 0 4) with header
      by (rewrite <- Hlenh; symmetry; apply py_slice_prefix).
    rewrite Hunpack.
    destruct (Z.ltb_spec (4 + len json_data) (4 + len json_data)); [lia|].
    replace (py_slice (header ++ json_data) 4 (4 + len json_data)) with json_data
      by (rewrite <- Hlenh; symmetry; apply py_slice_suffix).
    rewrite Hloads, Hj, Hfrom. reflexivity.
Qed.

Import Scenario.

Lemma decode_encode_sample_message :
  wire_data (Msg.data sample_message) /\
  JsonSubset.dumps (to_dict (of_msg sample_message)) = Some sample_json /\
  exists header,
    encode JsonSubset.dumps (of_msg sample_message) = Some (header ++ sample_json) /\
    decode JsonSubset.loads 0 (header ++ sample_json) = Decoded (of_msg sample_message).
Proof.
  assert (Hw : wire_data (Msg.data sample_message)).
  { split.
    - intros es [= <-]. repeat constructor.
    - intros sl [= <-]. apply (bool_decide_unpack _). vm_compute. reflexivity. }
  assert (Hd : JsonSubset.dumps (to_dict (of_msg sample_message)) = Some sample_json)
    by (vm_compute; reflexivity).
  assert (Hl : JsonSubset.loads sample_json = json_value (to_dict (of_msg sample_message)))
    by (vm_compute; reflexivity).
  assert (Hn : len sample_json < 2 ^ 32) by (vm_compute; reflexivity).
  destruct (decode_encode_roundtrip JsonSubset.dumps JsonSubset.loads 0 sample_message
              sample_json Hw Hd Hl Hn) as (header & _ & He & Hdec).
  split; [exact Hw|]. split; [exact Hd|]. exists header. split; [exact He | exact Hdec].
Defined.

End WireProofs.

(* ===================================================================== *)
(** * More properties of the node                                         *)
(* ===================================================================== *)

Module NodeCoverage.
Import RaftNode NodeProofs.

Ltac wp_exec := repeat first [ progress wp_go | wp_loop ].

(** Comparisons the context decides. *)
Ltac decide_tests :=
  repeat match goal with
  | H : ?a < ?b |- context [?a <? ?b] => rewrite (proj2 (Z.ltb_lt a b) H)
  | H : ?b <= ?a |- context [?a <? ?b] => rewrite (proj2 (Z.ltb_ge a b) H)
  | H : ?a <= ?b |- context [?a <=? ?b] => rewrite (proj2 (Z.leb_le a b) H)
  | H : ?b < ?a |- context [?a <=? ?b] => rewrite (proj2 (Z.leb_gt a b) H)
  | H : ?a = ?b |- context [?a =? ?b] => rewrite (proj2 (Z.eqb_eq a b) H)
  | H : ?a <> ?b |- context [?a =? ?b] => rewrite (proj2 (Z.eqb_neq a b) H)
  | H : ?t = _ |- context [?t] =>
      lazymatch t with
      | (_ <? _) => rewrite H
      | (_ <=? _) => rewrite H
      | (_ =? _) => rewrite H
      | negb _ => rewrite H
      end
  end; cbn [negb andb orb].

Lemma NodeState_eqb_eq a b : NodeState_eqb a b = true <-> a = b.
Proof. destruct a, b; cbn; split; congruence. Qed.

Lemma NodeState_eqb_neq a b : NodeState_eqb a b = false <-> a <> b.
Proof. destruct a, b; cbn; split; congruence. Qed.

Lemma fresh_spec (lt clt ll cli : Z) :
  (lt <? clt) || ((clt =? lt) && (ll <=? cli)) = true <->
  lt < clt \/ (clt = lt /\ ll <= cli).
Proof.
  rewrite orb_true_iff, andb_true_iff, Z.ltb_lt, Z.eqb_eq, Z.leb_le. tauto.
Qed.

Ltac prop_facts :=
  repeat match goal with
  | H : NodeState_eqb _ _ = true |- _ => apply NodeState_eqb_eq in H
  | H : NodeState_eqb _ _ = false |- _ => apply NodeState_eqb_neq in H
  | H : (_ <? _) || _ = true |- _ => apply fresh_spec in H
  | H : (_ <? _) || _ = false |- _ => apply not_true_iff_false in H; rewrite fresh_spec in H
  | H : (_ =? _) = true |- _ => apply Z.eqb_eq in H
  | H : (_ =? _) = false |- _ => apply Z.eqb_neq in H
  | H : _ && _ = false |- _ => apply andb_false_iff in H
  end.

Lemma half_lt (n v : Z) : Qltb (inject_Z n / 2) (inject_Z v) = true <-> n < 2 * v.
Proof.
  rewrite Qltb_lt. unfold Qlt, Qdiv, Qmult, Qinv, inject_Z. cbn. lia.
Qed.

Lemma len_nonneg {A} (l : list A) : 0 <= len l.
Proof. unfold len. lia. Qed.

Lemma len_app {A} (l m : list A) : len (l ++ m) = len l + len m.
Proof. unfold len. rewrite length_app. lia. Qed.

Lemma len_py_take {A} (l : list A) (n : Z) : 0 <= n <= len l -> len (py_take l n) = n.
Proof. intros H. rewrite py_take_firstn by lia. apply len_firstn. exact H. Qed.

(** ** Terms *)

Lemma step_keeps_cluster (r : Run) (op : Op) :
  total_nodes (self (step r op)) = total_nodes (self r).
Proof.
  destruct op as [e msg|e|e command]; cbn [step]; as_wp; wp_exec; reflexivity.
Qed.

Lemma steps_keeps_cluster (ops : list Op) (r : Run) :
  total_nodes (self (steps r ops)) = total_nodes (self r).
Proof.
  revert r. induction ops as [|op ops IH]; intros r; [reflexivity|].
  cbn [steps fold_left]. fold (steps (step r op) ops). rewrite IH. apply step_keeps_cluster.
Qed.

Lemma step_term_monotone (r : Run) (op : Op) :
  total_nodes (self r) <> 0 ->
  current_term (self r) <= current_term (self (step r op)).
Proof.
  intros Hn. destruct op as [e msg|e|e command]; cbn [step]; as_wp; wp_exec; lia.
Qed.

(** X1: whatever the node receives, however its timers fire and whatever is
    submitted to it, [current_term] never decreases. *)
Theorem current_term_never_decreases (ops : list Op) (r : Run) :
  total_nodes (self r) <> 0 ->
  current_term (self r) <= current_term (self (steps r ops)).
Proof.
  revert r. induction ops as [|op ops IH]; intros r Hn; [cbn; lia|].
  cbn [steps fold_left]. fold (steps (step r op) ops).
  pose proof (step_term_monotone r op Hn).
  assert (Hn' : total_nodes (self (step r op)) <> 0) by (rewrite step_keeps_cluster; exact Hn).
  pose proof (IH (step r op) Hn'). lia.
Qed.

(** X2: a message of any type whose term is higher than the node's makes
    the node a Follower in that term, with no promotion pending; unless it
    is a RequestVote the node then grants, the node has no vote in the new
    term. *)
Theorem higher_term_makes_follower (e : Env) (r : Run) (msg : Msg.t) :
  total_nodes (self r) <> 0 ->
  current_term (self r) < Msg.term msg ->
  let r' := run_state (_handle_message msg) e r in
  state (self r') = FOLLOWER /\
  current_term (self r') = Msg.term msg /\
  is_promotion_pending (self r') = false /\
  (Msg.type msg <> MessageType.REQUEST_VOTE -> voted_for (self r') = None).
Proof.
  intros Hn Hlt. cbv zeta. as_wp. wp_exec.
  all: repeat split; try reflexivity.
  all: intros Hty; try reflexivity; exfalso; apply Hty; apply String.eqb_eq; assumption.
Qed.

(** ** Timers *)

(** X3: a Candidate that is running an election (no promotion pending)
    does nothing on a timer tick: it neither retries the election nor
    returns to Follower, however much time has passed. *)
Theorem election_candidate_ignores_ticks (e : Env) (r : Run) :
  state (self r) = CANDIDATE ->
  is_promotion_pending (self r) = false ->
  run_state _check_timers e r = r.
Proof.
  intros Hs Hp. as_wp. wp_exec. reflexivity.
Qed.

(** X4: during the startup grace period a tick only refreshes
    [last_heartbeat]: no election starts, whatever the election timeout. *)
Theorem startup_grace_defers_election (e : Env) (r : Run) :
  state (self r) = FOLLOWER ->
  startup_grace_period (self r) = true ->
  (now e - startup_time (self r) < startup_grace_duration (self r))%Q ->
  run_state _check_timers e r =
  mkRun (set_last_heartbeat (now e) (self r)) (draws r) (sent r) (calls r).
Proof.
  intros Hs Hg Ht. apply Qltb_lt in Ht. as_wp. wp_exec; reflexivity.
Qed.

(** X5: the timeout [_reset_election_timer] draws lies in the interval
    configured for the node's role: before any leader was seen, between
    [election_timeout_base] and twice that, shifted by 50 ms per node id; for
    a primary or a secondary sub-leader, in its own interval; otherwise in
    the follower interval shifted by 150 ms times [id % total_nodes]. *)
Theorem election_timer_range (e : Env) (r : Run) :
  let s := self r in
  let cfg := config s in
  let timeout := run_value _reset_election_timer e r in
  (0 <= rand e (draws r) <= 1)%Q ->
  (had_leader_before s = false ->
     (0 <= RaftConfig.election_timeout_base cfg)%Q ->
     (RaftConfig.election_timeout_base cfg + inject_Z (id s) * (5 # 100) <= timeout
      <= RaftConfig.election_timeout_base cfg * 2 + inject_Z (id s) * (5 # 100))%Q) /\
  (had_leader_before s = true ->
     RaftConfig.enable_subleader cfg = true -> is_sub_leader s = true ->
     subleader_rank s = Some 0 ->
     (RaftConfig.primary_timeout_min cfg <= RaftConfig.primary_timeout_max cfg)%Q ->
     (RaftConfig.primary_timeout_min cfg <= timeout <= RaftConfig.primary_timeout_max cfg)%Q) /\
  (had_leader_before s = true ->
     RaftConfig.enable_subleader cfg = true -> is_sub_leader s = true ->
     subleader_rank s = Some 1 ->
     (RaftConfig.secondary_timeout_min cfg <= RaftConfig.secondary_timeout_max cfg)%Q ->
     (RaftConfig.secondary_timeout_min cfg <= timeout
      <= RaftConfig.secondary_timeout_max cfg)%Q) /\
  (had_leader_before s = true ->
     RaftConfig.enable_subleader cfg && is_sub_leader s
       && (opt_is (subleader_rank s) 0 || opt_is (subleader_rank s) 1) = false ->
     total_nodes s <> 0 ->
     (RaftConfig.follower_timeout_min cfg <= RaftConfig.follower_timeout_max cfg)%Q ->
     let id_offset := (inject_Z (id s mod total_nodes s) * (15 # 100))%Q in
     (RaftConfig.follower_timeout_min cfg + id_offset <= timeout
      <= RaftConfig.follower_timeout_max cfg + id_offset)%Q).
Proof.
  intros s cfg timeout Hu. subst s cfg timeout.
  unfold run_value, _reset_election_timer.
  cbv [mbind M_bind mret M_ret get random_uniform random_random].
  cbn [self draws sent calls rand fst].
  split; [|split; [|split]].
  - intros H Hb. rewrite H. cbn [negb fst]. apply uniform_bounds; [lra | exact Hu].
  - intros H He Hsub Hr Hle. rewrite H, He, Hsub, Hr. cbn [negb andb opt_is Z.eqb fst].
    apply uniform_bounds; [exact Hle | exact Hu].
  - intros H He Hsub Hr Hle. rewrite H, He, Hsub, Hr. cbn [negb andb opt_is Z.eqb fst].
    apply uniform_bounds; [exact Hle | exact Hu].
  - intros H Hns Hn Hle. rewrite H. cbn [negb].
    destruct (RaftConfig.enable_subleader (config (self r)) && is_sub_leader (self r));
      cbn [andb] in Hns.
    + apply orb_false_iff in Hns as [H0 H1]. rewrite H0, H1. cbn [fst].
      apply uniform_bounds; [lra | exact Hu].
    + cbn [fst]. apply uniform_bounds; [lra | exact Hu].
Qed.

(** ** Votes *)

(** X6: a Candidate counts a granted VoteResponse of its term once per
    sender, and becomes Leader exactly when the count exceeds half the
    cluster; a refusal, or a second vote of a sender already counted,
    changes nothing. *)
Theorem election_won_on_strict_majority (e : Env) (r : Run) (msg : Msg.t) :
  let s := self r in
  state s = CANDIDATE ->
  Msg.type msg = MessageType.VOTE_RESPONSE ->
  Msg.term msg = current_term s ->
  let r' := run_state (_handle_message msg) e r in
  let granted := get_or false (Data.vote_granted (Msg.data msg)) in
  (granted = true -> Msg.sender_id msg ∉ voted_nodes s ->
     (state (self r') = LEADER <-> total_nodes s < 2 * (votes_received s + 1)) /\
     (state (self r') <> LEADER ->
        state (self r') = CANDIDATE /\
        votes_received (self r') = votes_received s + 1 /\
        voted_nodes (self r') = {[ Msg.sender_id msg ]} ∪ voted_nodes s)) /\
  (granted = false \/ Msg.sender_id msg ∈ voted_nodes s -> r' = r).
Proof.
  intros s Hs Hty Hterm r' granted. subst s r' granted. split.
  - intros Hg Hnew. apply (bool_decide_eq_false_2 _) in Hnew.
    as_wp. unfold _handle_message. rewrite Hty.
    cbn [String.eqb Ascii.eqb Bool.eqb MessageType.APPEND_ENTRIES MessageType.APPEND_ACK
         MessageType.REQUEST_VOTE MessageType.VOTE_RESPONSE].
    wp_exec.
    all: match goal with
         | E : Qltb _ _ = true |- _ => apply half_lt in E
         | E : Qltb _ _ = false |- _ =>
             assert (~ total_nodes (self r) < 2 * (votes_received (self r) + 1))
               by (intros Hc; apply half_lt in Hc; nsimpl_all; congruence)
         end; nsimpl_all.
    all: split; [split; intros; solve [reflexivity | congruence | lia | tauto]|].
    all: intros; repeat split; solve [reflexivity | congruence | tauto].
  - intros Hor. as_wp. unfold _handle_message. rewrite Hty.
    cbn [String.eqb Ascii.eqb Bool.eqb MessageType.APPEND_ENTRIES MessageType.APPEND_ACK
         MessageType.REQUEST_VOTE MessageType.VOTE_RESPONSE].
    destruct Hor as [Hg|Hin].
    + wp_exec; reflexivity.
    + apply (bool_decide_eq_true_2 _) in Hin. wp_exec; reflexivity.
Qed.

(** X7: every RequestVote is answered by exactly one VoteResponse, to its
    sender, in the larger of the two terms.  The vote is granted exactly
    when the request is not of an older term, the node - if the request is of
    its own term - is not Leader and has not voted for somebody else, and
    the candidate's log is at least as fresh as the node's (a later last
    term, or the same last term and no shorter).  A grant records the
    sender in [voted_for]; log and [commit_index] are never touched. *)
Theorem request_vote_granted_iff (e : Env) (r : Run) (msg : Msg.t) :
  let s := self r in
  total_nodes s <> 0 ->
  Msg.type msg = MessageType.REQUEST_VOTE ->
  let r' := run_state (_handle_message msg) e r in
  let candidate_last_index := get_or 0 (Data.last_log_index (Msg.data msg)) in
  let candidate_last_term := get_or 0 (Data.last_log_term (Msg.data msg)) in
  let fresh :=
    last_term (log s) < candidate_last_term \/
    (candidate_last_term = last_term (log s) /\ len (log s) <= candidate_last_index) in
  exists grant : bool,
    sent r' = sent r ++
      [(Msg.sender_id msg,
        create_vote_response (id s) (Z.max (current_term s) (Msg.term msg)) grant (now e))] /\
    (grant = true <->
       current_term s <= Msg.term msg /\
       (Msg.term msg = current_term s ->
          state s <> LEADER /\
          (voted_for s = None \/ voted_for s = Some (Msg.sender_id msg))) /\
       fresh) /\
    (grant = true -> voted_for (self r') = Some (Msg.sender_id msg)) /\
    log (self r') = log s /\
    commit_index (self r') = commit_index s.
Proof.
  intros s Hn Hty r' cli clt fresh. subst s r' cli clt fresh.
  as_wp. unfold _handle_message. rewrite Hty.
  cbn [String.eqb Ascii.eqb Bool.eqb MessageType.APPEND_ENTRIES MessageType.APPEND_ACK
       MessageType.REQUEST_VOTE MessageType.VOTE_RESPONSE].
  wp_exec.
  all: nsimpl_all; bool_facts.
  all: eexists; split;
    [ first [ rewrite Z.max_r by lia; reflexivity | rewrite Z.max_l by lia; reflexivity ] |].
  all: prop_facts.
  all: try solve [intuition (first [congruence | lia])].
  all: destruct (voted_for (self r)) as [v|] eqn:Hv; prop_facts;
    repeat match goal with H : _ \/ _ |- _ => destruct H end; prop_facts;
    try subst v;
    try assert (Heq : Msg.term msg = current_term (self r)) by lia;
    solve [intuition (first [congruence | lia])].
Qed.

(** ** The AppendEntries receiver *)

(** X8: an AppendEntries of an older term is refused with
    [success = False], [match_index = 0] and the node's own term, and changes
    nothing in the node: it does not even count as a heartbeat. *)
Theorem stale_append_entries_refused (e : Env) (r : Run) (msg : Msg.t) :
  Msg.type msg = MessageType.APPEND_ENTRIES ->
  Msg.term msg < current_term (self r) ->
  run_state (_handle_message msg) e r =
  mkRun (self r) (draws r)
        (sent r ++ [(Msg.sender_id msg,
                     create_append_ack (id (self r)) (current_term (self r)) false 0 (now e))])
        (calls r).
Proof.
  intros Hty Hlt. as_wp. unfold _handle_message. rewrite Hty.
  cbn [String.eqb Ascii.eqb Bool.eqb MessageType.APPEND_ENTRIES].
  wp_exec. reflexivity.
Qed.

(** What an AppendEntries of a current or newer term leaves behind. *)
Lemma append_entries_outcome (e : Env) (r : Run) (msg : Msg.t) :
  let s := self r in
  total_nodes s <> 0 ->
  Msg.type msg = MessageType.APPEND_ENTRIES ->
  current_term s <= Msg.term msg ->
  let r' := run_state (_handle_message msg) e r in
  let prev := get_or 0 (Data.prev_log_index (Msg.data msg)) in
  let prev_term := get_or 0 (Data.prev_log_term (Msg.data msg)) in
  let entries := get_or [] (Data.entries (Msg.data msg)) in
  let leader_commit := get_or 0 (Data.leader_commit (Msg.data msg)) in
  let ok := negb (0 <? prev)
            || (negb (len (log s) <? prev) && (term_at (log s) (prev - 1) =? prev_term)) in
  let log' :=
    if ok then (if len entries =? 0 then log s else py_take (log s) prev ++ entries)
    else if len (log s) <? prev then log s else py_take (log s) (prev - 1) in
  let commit' :=
    if ok && (commit_index s <? leader_commit) then Z.min leader_commit (len log')
    else commit_index s in
  log (self r') = log' /\
  commit_index (self r') = commit' /\
  current_term (self r') = Msg.term msg /\
  state (self r') = FOLLOWER /\
  leader_id (self r') = Some (Msg.sender_id msg) /\
  startup_grace_period (self r') = false /\
  last_heartbeat (self r') = now e /\
  total_nodes (self r') = total_nodes s /\
  id (self r') = id s /\
  sent r' = sent r ++
    [(Msg.sender_id msg, create_append_ack (id s) (Msg.term msg) ok (len log') (now e))].
Proof.
  intros s Hn Hty Hterm r' prev prev_term entries leader_commit.
  subst s r' prev prev_term entries leader_commit. cbv zeta.
  as_wp. unfold _handle_message. rewrite Hty.
  cbn [String.eqb Ascii.eqb Bool.eqb MessageType.APPEND_ENTRIES].
  wp_exec.
  all: bool_facts; decide_tests.
  all: repeat split; reflexivity.
Qed.

(** X9: an AppendEntries of a current or newer term whose
    [prev_log_index] is 0 or names an entry of term [prev_log_term] is
    accepted.  With no entries the log is unchanged; otherwise the log is its
    first [prev_log_index] entries followed by the message's entries.
    [commit_index] moves only if [leader_commit] is larger, to
    [min(leader_commit, |log|)], so it never passes both its old value and
    the end of the log.  The reply is [success = True] with the new log
    length. *)
Theorem append_entries_accepted (e : Env) (r : Run) (msg : Msg.t) :
  let s := self r in
  total_nodes s <> 0 ->
  Msg.type msg = MessageType.APPEND_ENTRIES ->
  current_term s <= Msg.term msg ->
  let prev := get_or 0 (Data.prev_log_index (Msg.data msg)) in
  let entries := get_or [] (Data.entries (Msg.data msg)) in
  let leader_commit := get_or 0 (Data.leader_commit (Msg.data msg)) in
  (prev <= 0 \/
   (prev <= len (log s) /\
    term_at (log s) (prev - 1) = get_or 0 (Data.prev_log_term (Msg.data msg)))) ->
  let r' := run_state (_handle_message msg) e r in
  let log' := match entries with [] => log s | _ => py_take (log s) prev ++ entries end in
  log (self r') = log' /\
  commit_index (self r') =
    (if commit_index s <? leader_commit then Z.min leader_commit (len log')
     else commit_index s) /\
  commit_index (self r') <= Z.max (commit_index s) (len log') /\
  sent r' = sent r ++
    [(Msg.sender_id msg, create_append_ack (id s) (Msg.term msg) true (len log') (now e))].
Proof.
  intros s Hn Hty Hterm prev entries leader_commit Hok r' log'.
  destruct (append_entries_outcome e r msg Hn Hty Hterm)
    as (Hl & Hc & _ & _ & _ & _ & _ & _ & _ & Hs).
  fold s prev entries leader_commit r' in Hl, Hc, Hs.
  assert (Hb : negb (0 <? prev)
               || (negb (len (log s) <? prev)
                   && (term_at (log s) (prev - 1)
                       =? get_or 0 (Data.prev_log_term (Msg.data msg)))) = true).
  { destruct Hok as [Hle|[Hle Heq]].
    - destruct (Z.ltb_spec 0 prev); [lia | reflexivity].
    - destruct (Z.ltb_spec (len (log s)) prev); [lia|].
      rewrite Heq, Z.eqb_refl. apply orb_true_r. }
  rewrite Hb in Hl, Hc, Hs. cbn [andb] in Hc.
  assert (Hlog : (if len entries =? 0 then log s else py_take (log s) prev ++ entries) = log').
  { subst log'. destruct entries; reflexivity. }
  rewrite Hlog in Hl, Hc, Hs.
  split; [exact Hl|]. split; [exact Hc|]. split; [|exact Hs].
  rewrite Hc. destruct (Z.ltb_spec (commit_index s) leader_commit); lia.
Qed.

(** X10: after an AppendEntries of a current or newer term the node is a
    Follower of the sender, out of its startup grace period, and a tick
    taken before [election_timeout] has passed since the message does
    nothing at all: heartbeats hold elections off. *)
Theorem append_entries_holds_election_off (e1 e2 : Env) (r : Run) (msg : Msg.t) :
  total_nodes (self r) <> 0 ->
  Msg.type msg = MessageType.APPEND_ENTRIES ->
  current_term (self r) <= Msg.term msg ->
  let r1 := step r (Receive e1 msg) in
  (now e2 - now e1 < election_timeout (self r1))%Q ->
  state (self r1) = FOLLOWER /\
  leader_id (self r1) = Some (Msg.sender_id msg) /\
  step r1 (Tick e2) = r1.
Proof.
  intros Hn Hty Hterm r1 Hsoon. subst r1. cbn [step] in *.
  destruct (append_entries_outcome e1 r msg Hn Hty Hterm)
    as (_ & _ & _ & Hs & Hl & Hg & Hh & _).
  revert Hsoon Hs Hl Hg Hh.
  generalize (run_state (_handle_message msg) e1 r). intros r1 Hsoon Hs Hl Hg Hh.
  split; [exact Hs|]. split; [exact Hl|].
  rewrite <- Hh in Hsoon.
  assert (Hnot : Qleb (election_timeout (self r1)) (now e2 - last_heartbeat (self r1)) = false).
  { destruct (Qleb _ _) eqn:E; [|reflexivity]. apply Qleb_le in E. lra. }
  as_wp. wp_exec. reflexivity.
Qed.

(** ** Duplicates *)

Lemma py_take_app_exact {A} (l es : list A) (n : Z) :
  0 <= n <= len l -> py_take (py_take l n ++ es) n = py_take l n.
Proof.
  intros H. rewrite !py_take_firstn by lia.
  rewrite take_app_le by (rewrite length_take; unfold len in H; lia).
  rewrite take_take. f_equal. lia.
Qed.

Lemma term_at_take_app (l es : list LogEntry.t) (n i : Z) :
  0 <= i < n -> n <= len l -> term_at (py_take l n ++ es) i = term_at l i.
Proof.
  intros Hi Hn. unfold term_at, py_getitem.
  destruct (Z.ltb_spec i 0); [lia|].
  rewrite py_take_firstn by lia.
  rewrite nth_error_app1 by (rewrite length_firstn; unfold len in Hn; lia).
  rewrite nth_error_firstn. destruct (Nat.ltb_spec (Z.to_nat i) (Z.to_nat n)); [reflexivity | lia].
Qed.

Lemma commit_twice (c lc n : Z) :
  (if (if c <? lc then Z.min lc n else c) <? lc
   then Z.min lc n else (if c <? lc then Z.min lc n else c))
  = (if c <? lc then Z.min lc n else c).
Proof.
  destruct (Z.ltb_spec c lc) as [H|H].
  - destruct (Z.ltb_spec (Z.min lc n) lc); reflexivity.
  - destruct (Z.ltb_spec c lc); [lia | reflexivity].
Qed.

(** X11: an AppendEntries delivered twice in a row has the effect of one
    delivery: log and [commit_index] are those the first delivery left, and
    the second reply repeats the first one's [success] and [match_index].
    ([prev_log_index] is not negative, as in every message a leader
    builds.) *)
Theorem append_entries_duplicate_idempotent (e1 e2 : Env) (r : Run) (msg : Msg.t) :
  total_nodes (self r) <> 0 ->
  Msg.type msg = MessageType.APPEND_ENTRIES ->
  current_term (self r) <= Msg.term msg ->
  0 <= get_or 0 (Data.prev_log_index (Msg.data msg)) ->
  let r1 := step r (Receive e1 msg) in
  let r2 := step r1 (Receive e2 msg) in
  log (self r2) = log (self r1) /\
  commit_index (self r2) = commit_index (self r1) /\
  exists success match_index,
    sent r1 = sent r ++
      [(Msg.sender_id msg,
        create_append_ack (id (self r)) (Msg.term msg) success match_index (now e1))] /\
    sent r2 = sent r1 ++
      [(Msg.sender_id msg,
        create_append_ack (id (self r)) (Msg.term msg) success match_index (now e2))].
Proof.
  intros Hn Hty Hterm Hp r1 r2. subst r1 r2. cbn [step].
  destruct (append_entries_outcome e1 r msg Hn Hty Hterm)
    as (Hl1 & Hc1 & Ht1 & _ & _ & _ & _ & Hn1 & Hid1 & Hs1).
  set (r1 := run_state (_handle_message msg) e1 r) in *.
  assert (Hn' : total_nodes (self r1) <> 0) by (rewrite Hn1; exact Hn).
  assert (Hterm' : current_term (self r1) <= Msg.term msg) by lia.
  destruct (append_entries_outcome e2 r1 msg Hn' Hty Hterm')
    as (Hl2 & Hc2 & _ & _ & _ & _ & _ & _ & _ & Hs2).
  set (r2 := run_state (_handle_message msg) e2 r1) in *.
  rewrite Hid1 in Hs2.
  revert Hl2 Hc2 Hs2. rewrite Hl1, Hc1. revert Hl1 Hc1 Hs1.
  generalize (log (self r)) (commit_index (self r))
             (get_or 0 (Data.prev_log_index (Msg.data msg))) Hp
             (get_or 0 (Data.prev_log_term (Msg.data msg)))
             (get_or [] (Data.entries (Msg.data msg)))
             (get_or 0 (Data.leader_commit (Msg.data msg))).
  intros L c p Hp0 pt es lc.
  pose proof (len_nonneg L) as HL. pose proof (len_nonneg es) as Hes.
  destruct (Z.ltb_spec 0 p) as [Hpos|Hz]; cbn [negb orb andb].
  - destruct (Z.ltb_spec (len L) p) as [Hshort|Hin]; cbn [negb orb andb].
    + (* the log is too short, both times *)
      destruct (Z.ltb_spec (len L) p); [|lia]. cbn [negb andb orb].
      destruct (Z.ltb_spec 0 p); [|lia]. cbn [negb orb].
      intros Hl1 Hc1 Hs1 Hl2 Hc2 Hs2. rewrite Hl2, Hc2.
      split; [reflexivity|]. split; [reflexivity|]. eexists _, _. split; eassumption.
    + destruct (term_at L (p - 1) =? pt) eqn:Hterm_eq.
      * (* accepted, both times *)
        set (L1 := if len es =? 0 then L else py_take L p ++ es).
        assert (HlenL1 : p <= len L1).
        { subst L1. destruct (len es =? 0); [lia|]. rewrite len_app, len_py_take by lia. lia. }
        assert (Hat : term_at L1 (p - 1) = term_at L (p - 1)).
        { subst L1. destruct (len es =? 0); [reflexivity|]. apply term_at_take_app; lia. }
        assert (HL2 : (if len es =? 0 then L1 else py_take L1 p ++ es) = L1).
        { subst L1. destruct (len es =? 0); [reflexivity|].
          rewrite py_take_app_exact by lia. reflexivity. }
        destruct (Z.ltb_spec (len L1) p); [lia|]. cbn [negb andb orb].
        rewrite Hat, Hterm_eq. rewrite HL2.
        intros Hl1 Hc1 Hs1 Hl2 Hc2 Hs2. rewrite Hl2, Hc2.
        split; [reflexivity|]. split.
        { apply commit_twice. }
        eexists _, _. split; eassumption.
      * (* truncated, then too short *)
        rewrite len_py_take by lia.
        destruct (Z.ltb_spec (p - 1) p); [|lia]. cbn [negb andb orb].
        destruct (Z.ltb_spec 0 p); [|lia]. cbn [negb andb orb].
        intros Hl1 Hc1 Hs1 Hl2 Hc2 Hs2. rewrite Hl2, Hc2.
        rewrite len_py_take in Hs2 by lia.
        split; [reflexivity|]. split; [reflexivity|]. eexists _, _. split; eassumption.
  - (* prev_log_index = 0 *)
    assert (p = 0) by lia. subst p.
    set (L1 := if len es =? 0 then L else py_take L 0 ++ es).
    assert (HL2 : (if len es =? 0 then L1 else py_take L1 0 ++ es) = L1).
    { subst L1. destruct (len es =? 0); [reflexivity|].
      assert (H0 : forall l : list LogEntry.t, py_take l 0 = [])
        by (intros l; rewrite py_take_firstn by lia; reflexivity).
      rewrite !H0. reflexivity. }
    rewrite HL2.
    intros Hl1 Hc1 Hs1 Hl2 Hc2 Hs2. rewrite Hl2, Hc2.
    split; [reflexivity|]. split.
    { apply commit_twice. }
    eexists _, _. split; eassumption.
Qed.

(** ** Applying committed entries *)

Lemma py_slice_firstn_skipn {A} (l : list A) (a b : Z) :
  0 <= a -> 0 <= b ->
  py_slice l a b =
  firstn (Z.to_nat (Z.min b (len l) - Z.min a (len l))) (skipn (Z.to_nat (Z.min a (len l))) l).
Proof.
  intros Ha Hb. unfold py_slice, slice_bound.
  destruct (Z.ltb_spec a 0); [lia|]. destruct (Z.ltb_spec b 0); [lia|]. reflexivity.
Qed.

Lemma py_slice_empty {A} (l : list A) (a b : Z) :
  0 <= a -> 0 <= b -> (b <= a \/ len l <= a) -> py_slice l a b = [].
Proof.
  intros Ha Hb Hor. rewrite py_slice_firstn_skipn by lia.
  replace (Z.to_nat (Z.min b (len l) - Z.min a (len l))) with 0%nat by lia. reflexivity.
Qed.

Lemma skipn_nth_error {A} (l : list A) (n : nat) (x : A) :
  nth_error l n = Some x -> skipn n l = x :: skipn (S n) l.
Proof.
  revert n. induction l as [|y l IH]; intros [|n] H; try discriminate.
  - injection H as ->. reflexivity.
  - cbn in H. apply IH in H. exact H.
Qed.

Lemma py_slice_cons {A} (l : list A) (a b : Z) (x : A) :
  0 <= a < b -> py_getitem l a = Some x -> py_slice l a b = x :: py_slice l (a + 1) b.
Proof.
  intros Hab Hx. unfold py_getitem in Hx. destruct (Z.ltb_spec a 0); [lia|].
  assert (Hlt : (Z.to_nat a < length l)%nat) by (apply nth_error_Some; congruence).
  rewrite !py_slice_firstn_skipn by lia. unfold len.
  rewrite (Z.min_l a) by lia.
  replace (Z.min (a + 1) (Z.of_nat (length l))) with (a + 1) by lia.
  replace (Z.to_nat (Z.min b (Z.of_nat (length l)) - a))
    with (S (Z.to_nat (Z.min b (Z.of_nat (length l)) - (a + 1)))) by lia.
  replace (Z.to_nat (a + 1)) with (S (Z.to_nat a)) by lia.
  rewrite (skipn_nth_error l (Z.to_nat a) x Hx). reflexivity.
Qed.

Lemma apply_loop_exact (n : nat) (e : Env) (s : t) (d : nat) (o : list (Z * Msg.t))
    (c : list Call) :
  0 <= last_applied s ->
  Z.of_nat n = commit_index s - last_applied s ->
  apply_loop n e (mkRun s d o c) =
  (tt, mkRun (set_last_applied (commit_index s) s) d o
         (c ++ if on_log_committed s
               then List.map OnLogCommitted (py_slice (log s) (last_applied s) (commit_index s))
               else [])).
Proof.
  revert s c. induction n as [|n IH]; intros s c Ha Hn.
  - cbn [apply_loop]. unfold skip, mret, M_ret.
    rewrite py_slice_empty by lia.
    replace (commit_index s) with (last_applied s) by lia.
    destruct (on_log_committed s); cbn [List.map]; rewrite app_nil_r; destruct s; reflexivity.
  - cbn [apply_loop]. cbv [mbind M_bind get]. cbn [self].
    destruct (Z.ltb_spec (last_applied s) (commit_index s)); [|lia].
    unfold apply_next. cbv [mbind M_bind get upd when skip mret M_ret call]. cbn [self draws sent calls].
    nsimpl.
    destruct (Z.leb_spec (last_applied s + 1) (len (log s))) as [Hin|Hout].
    + replace (last_applied s + 1 - 1) with (last_applied s) by lia.
      destruct (py_getitem (log s) (last_applied s)) as [entry|] eqn:Hget.
      * rewrite (py_slice_cons _ _ _ entry) by (try lia; exact Hget).
        destruct (on_log_committed s) eqn:Hcb.
        -- rewrite IH by (nsimpl; lia). nsimpl. rewrite Hcb. cbn [List.map].
           rewrite <- app_assoc. destruct s; reflexivity.
        -- rewrite IH by (nsimpl; lia). nsimpl. rewrite Hcb. destruct s; reflexivity.
      * exfalso. unfold py_getitem in Hget. destruct (Z.ltb_spec (last_applied s) 0); [lia|].
        apply nth_error_None in Hget. unfold len in Hin. lia.
    + rewrite IH by (nsimpl; lia). nsimpl.
      rewrite !py_slice_empty by (unfold len in *; lia).
      destruct s; reflexivity.
Qed.

(** X12: [_apply_committed_entries] moves [last_applied] up to
    [commit_index] and hands the entries in between to [on_log_committed],
    each once and in log order; positions past the end of the log are
    skipped.  With nothing to apply it does nothing. *)
Theorem committed_entries_applied_once_in_order (e : Env) (r : Run) :
  let s := self r in
  0 <= last_applied s ->
  (last_applied s <= commit_index s ->
     run_state _apply_committed_entries e r =
     mkRun (set_last_applied (commit_index s) s) (draws r) (sent r)
           (calls r ++ if on_log_committed s
                       then List.map OnLogCommitted
                              (py_slice (log s) (last_applied s) (commit_index s))
                       else [])) /\
  (commit_index s <= last_applied s -> run_state _apply_committed_entries e r = r).
Proof.
  intros s Ha. subst s. destruct r as [s d o c]. cbn [self draws sent calls] in *.
  unfold run_state, _apply_committed_entries. cbv [mbind M_bind get]. cbn [self]. split.
  - intros Hle. rewrite apply_loop_exact by lia. reflexivity.
  - intros Hle. replace (Z.to_nat (commit_index s - last_applied s)) with 0%nat by lia.
    reflexivity.
Qed.

(** ** The leader's bookkeeping *)

Lemma wp_init_log_tracking_ok e r (Q : unit -> Run -> Prop) :
  (forall ni mi,
     map_Forall (fun _ n => 1 <= n) ni -> map_Forall (fun _ m => 0 <= m) mi ->
     Q tt (mkRun (set_match_index mi (set_next_index ni (self r))) (draws r) (sent r) (calls r))) ->
  wp _init_log_tracking e r Q.
Proof.
  intros H. unfold _init_log_tracking. wp_run.
  apply (wp_for_each (fun r' => exists ni mi,
           map_Forall (fun _ n => 1 <= n) ni /\ map_Forall (fun _ m => 0 <= m) mi /\
           r' = mkRun (set_match_index mi (set_next_index ni (self r))) (draws r) (sent r) (calls r))).
  - exists ∅, ∅. repeat split; apply map_Forall_empty.
  - intros i r' (ni & mi & Hni & Hmi & ->). wp_run. nsimpl.
    exists (<[i := len (log (self r)) + 1]> ni), (<[i := 0]> mi). split; [|split; [|reflexivity]].
    + apply map_Forall_insert_2; [unfold len; lia | exact Hni].
    + apply map_Forall_insert_2; [lia | exact Hmi].
  - intros r' (ni & mi & Hni & Hmi & ->). apply H; assumption.
Qed.

Ltac wp_track :=
  repeat first
    [ lazymatch goal with
      | |- wp _init_log_tracking _ _ _ =>
          apply wp_init_log_tracking_ok; intros ?ni ?mi ?Hni ?Hmi; cbv beta; cbn [self draws sent calls]
      end
    | wp_step | progress cbv zeta | progress nsimpl | wp_branch | wp_method | wp_loop ].

Lemma step_keeps_tracking (r : Run) (op : Op) :
  total_nodes (self r) <> 0 ->
  tracking_ok (self r) -> tracking_ok (self (step r op)).
Proof.
  intros Hn [Hni Hmi]. unfold tracking_ok.
  destruct op as [e msg|e|e command]; cbn [step]; as_wp; wp_track; nsimpl.
  all: try (split; assumption).
  all: repeat match goal with
       | E : ?m !! _ = Some ?z, H : map_Forall _ ?m |- _ =>
           let F := fresh "F" in pose proof (H _ _ E) as F; cbv beta in F; clear E
       end.
  all: split; repeat first [ assumption | apply map_Forall_insert_2 | lia ].
Qed.

Lemma init_tracking_ok node_id n cfg metrics_ e : tracking_ok (self (init node_id n cfg metrics_ e)).
Proof.
  unfold init. as_wp. wp_track. nsimpl. split; apply map_Forall_empty.
Qed.

(** X13: the leader's replication table stays usable through every
    operation: no [next_index] ever drops below 1 and no [match_index] below
    0, whatever acknowledgements arrive. *)
Theorem leader_bookkeeping_bounds (ops : list Op) (r : Run) :
  total_nodes (self r) <> 0 ->
  tracking_ok (self r) -> tracking_ok (self (steps r ops)).
Proof.
  revert r. induction ops as [|op ops IH]; intros r Hn H; [exact H|].
  cbn [steps fold_left]. apply IH.
  - rewrite step_keeps_cluster. exact Hn.
  - apply step_keeps_tracking; assumption.
Qed.


Lemma heartbeat_entries (l : list LogEntry.t) (next : Z) :
  1 <= next ->
  (if next <=? len l then py_slice l (next - 1) (Z.min (next + 99) (len l)) else [])
  = firstn 100 (skipn (Z.to_nat (next - 1)) l).
Proof.
  intros Hn. unfold len. destruct (Z.leb_spec next (Z.of_nat (length l))) as [Hin|Hout].
  - rewrite py_slice_firstn_skipn by lia. unfold len.
    rewrite (Z.min_l (next - 1)) by lia.
    rewrite (Z.min_l (Z.min _ _) (Z.of_nat (length l))) by lia.
    destruct (Z.le_ge_cases (next + 99) (Z.of_nat (length l))).
    + rewrite Z.min_l by lia. f_equal. lia.
    + rewrite Z.min_r by lia.
      rewrite !firstn_all2; [reflexivity | |]; rewrite length_skipn; lia.
  - rewrite skipn_all2 by lia. reflexivity.
Qed.

(** X14: the heartbeat of a Leader inside its lease goes to every other
    peer, once.  Each message is an AppendEntries of the leader's term with
    [leader_commit = commit_index]; [prev_log_index] is the peer's
    [next_index - 1], never negative, and the entries are the log from there
    on, at most 100 of them. *)
Theorem leader_heartbeat_well_formed (e : Env) (r : Run) :
  let s := self r in
  state s = LEADER ->
  is_promotion_pending s = false ->
  tracking_ok s ->
  (now e - last_majority_ack_time s
     <= py_max (RaftConfig.heartbeat_interval (config s) * 30) 3)%Q ->
  (RaftConfig.heartbeat_interval (config s) <= now e - last_heartbeat s)%Q ->
  let r' := run_state _check_timers e r in
  exists msgs,
    sent r' = sent r ++ msgs /\
    List.map fst msgs = others s /\
    Forall (fun im =>
      let m := snd im in
      Msg.type m = MessageType.APPEND_ENTRIES /\
      Msg.sender_id m = id s /\
      Msg.term m = current_term s /\
      Data.leader_commit (Msg.data m) = Some (commit_index s) /\
      exists prev entries,
        Data.prev_log_index (Msg.data m) = Some prev /\
        Data.entries (Msg.data m) = Some entries /\
        prev = get_or (len (log s) + 1) (next_index s !! fst im) - 1 /\
        0 <= prev /\
        entries = firstn 100 (skipn (Z.to_nat prev) (log s)) /\
        len entries <= 100) msgs.
Proof.
  intros s Hs Hp [Hni _] Hlease Hdue r'. subst s r'.
  apply Qltb_ge in Hlease. apply Qleb_le in Hdue.
  as_wp. wp_go.
  exists (broadcast (self r) smap (now e)). split; [reflexivity|].
  unfold broadcast. rewrite Hp. split.
  - rewrite map_map. cbn [fst]. apply map_id.
  - apply Forall_map. apply Forall_forall. intros i _. cbn [snd fst].
    unfold heartbeat_to, create_append_entries, new_message. cbn [Msg.type Msg.sender_id Msg.term Msg.data
      Data.leader_commit Data.prev_log_index Data.entries].
    repeat split.
    assert (Hnext : 1 <= get_or (len (log (self r)) + 1) (next_index (self r) !! i)).
    { destruct (next_index (self r) !! i) as [n|] eqn:E; cbn [get_or].
      - apply (Hni _ _ E).
      - unfold len. lia. }
    eexists _, _. split; [reflexivity|]. split; [reflexivity|]. split; [reflexivity|].
    split; [lia|]. rewrite heartbeat_entries by exact Hnext. split; [reflexivity|].
    unfold len. rewrite length_firstn. lia.
Qed.

(** ** Sub-leaders *)

Lemma insert_by_rtt_perm x l : Permutation (insert_by_rtt x l) (x :: l).
Proof.
  induction l as [|y l IH]; cbn [insert_by_rtt]; [reflexivity|].
  destruct (Qltb (snd x) (snd y)); [reflexivity|].
  rewrite IH. apply perm_swap.
Qed.

Lemma insert_by_rtt_sorted x l :
  StronglySorted by_rtt l -> StronglySorted by_rtt (insert_by_rtt x l).
Proof.
  induction 1 as [|y l Hs IH Hy]; cbn [insert_by_rtt].
  - constructor; constructor.
  - destruct (Qltb (snd x) (snd y)) eqn:E.
    + apply Qltb_lt in E. constructor; [constructor; assumption|].
      constructor; [unfold by_rtt; lra|].
      eapply Forall_impl; [exact Hy|]. unfold by_rtt. intros z Hz. lra.
    + apply Qltb_ge in E. constructor; [exact IH|].
      eapply Permutation_Forall; [symmetry; apply insert_by_rtt_perm|].
      constructor; [exact E | exact Hy].
Qed.

Lemma sorted_by_rtt_spec l :
  Permutation (sorted_by_rtt l) l /\ StronglySorted by_rtt (sorted_by_rtt l).
Proof.
  unfold sorted_by_rtt.
  assert (H : forall acc, StronglySorted by_rtt acc ->
            Permutation (fold_left (fun acc x => insert_by_rtt x acc) l acc) (acc ++ l) /\
            StronglySorted by_rtt (fold_left (fun acc x => insert_by_rtt x acc) l acc)).
  { induction l as [|x l IH]; intros acc Hacc; cbn [fold_left].
    - rewrite app_nil_r. split; [reflexivity | exact Hacc].
    - destruct (IH (insert_by_rtt x acc) (insert_by_rtt_sorted x acc Hacc)) as [Hp Hs].
      split; [|exact Hs]. rewrite Hp, insert_by_rtt_perm.
      cbn [app]. apply Permutation_middle. }
  apply (H []). constructor.
Qed.

Lemma dict_set_fresh {V} (k : Z) (v : V) (d : list (Z * V)) :
  ~ In k (List.map fst d) -> dict_set k v d = d ++ [(k, v)].
Proof.
  induction d as [|[k' v'] d IH]; cbn; intros Hn; [reflexivity|].
  destruct (Z.eqb_spec k k') as [->|Hne]; [tauto|].
  rewrite IH by tauto. reflexivity.
Qed.

Lemma designate_fold (l : list (Z * Q)) (n : Z) (acc : list (Z * Z)) :
  NoDup (List.map fst l) ->
  (forall k, In k (List.map fst l) -> ~ In k (List.map fst acc)) ->
  fold_left (fun m '(rank, (node_id, _)) => dict_set node_id rank m) (enumerate_from n l) acc
  = acc ++ List.map ranked (enumerate_from n l).
Proof.
  revert n acc. induction l as [|[k q] l IH]; intros n acc Hnd Hdis; cbn [enumerate_from fold_left List.map].
  - rewrite app_nil_r. reflexivity.
  - cbn in Hnd. apply NoDup_cons in Hnd as [Hk Hnd].
    rewrite dict_set_fresh by (apply Hdis; left; reflexivity).
    rewrite IH.
    + rewrite <- app_assoc. reflexivity.
    + exact Hnd.
    + intros k' Hk'. rewrite map_app, in_app_iff. cbn. intros [H|[H|[]]].
      * revert H. apply Hdis. right. exact Hk'.
      * subst k'. apply Hk. apply list_elem_of_In. exact Hk'.
Qed.

Lemma in_enumerate_from {A} (l : list A) (n k : Z) (x : A) :
  In (k, x) (enumerate_from n l) <-> n <= k /\ nth_error l (Z.to_nat (k - n)) = Some x.
Proof.
  revert n. induction l as [|y l IH]; intros n; cbn [enumerate_from In].
  - split; [tauto|]. intros [_ H]. destruct (Z.to_nat (k - n)); discriminate.
  - rewrite IH. split.
    + intros [[= <- <-]|[Hle Hnth]].
      * split; [lia|]. replace (Z.to_nat (n - n)) with 0%nat by lia. reflexivity.
      * split; [lia|]. replace (Z.to_nat (k - n)) with (S (Z.to_nat (k - (n + 1)))) by lia.
        exact Hnth.
    + intros [Hle Hnth]. destruct (Z.eq_dec k n) as [->|Hne].
      * left. replace (Z.to_nat (n - n)) with 0%nat in Hnth by lia. cbn in Hnth. congruence.
      * right. split; [lia|].
        replace (Z.to_nat (k - n)) with (S (Z.to_nat (k - (n + 1)))) in Hnth by lia.
        exact Hnth.
Qed.

Lemma sorted_nth_error {A} (R : A -> A -> Prop) (l : list A) (i j : nat) (x y : A) :
  StronglySorted R l -> nth_error l i = Some x -> nth_error l j = Some y ->
  (i < j)%nat -> R x y.
Proof.
  intros Hs. revert i j. induction Hs as [|z l Hs IH Hz]; intros i j Hi Hj Hlt.
  - destruct i; discriminate.
  - destruct j as [|j]; [lia|]. cbn in Hj. destruct i as [|i].
    + cbn in Hi. injection Hi as ->.
      rewrite Forall_forall in Hz. apply Hz. apply list_elem_of_In. eapply nth_error_In. exact Hj.
    + cbn in Hi. apply (IH i j); [assumption | assumption | lia].
Qed.

Lemma keys_nth_error {V} (l : list (Z * V)) (i j : nat) (k : Z) (v w : V) :
  NoDup (List.map fst l) -> nth_error l i = Some (k, v) -> nth_error l j = Some (k, w) -> i = j.
Proof.
  intros Hnd Hi Hj. apply NoDup_ListNoDup in Hnd.
  assert (Hlen : (i < length (List.map fst l))%nat).
  { rewrite length_map. apply nth_error_Some. congruence. }
  apply (proj1 (NoDup_nth_error (List.map fst l)) Hnd i j Hlen).
  rewrite !nth_error_map, Hi, Hj. reflexivity.
Qed.

(** X15: the sub-leader table a leader builds from its measured RTTs has
    exactly [num_sub_leaders] entries with ranks 0, 1, ... in order; a node
    of lower rank has no larger RTT than one of higher rank, and no measured
    peer left out is nearer than a designated one: the primary is a nearest
    peer. *)
Theorem sub_leaders_are_nearest_peers (response_times : list (Z * Q)) (num_sub_leaders : Z) :
  NoDup (List.map fst response_times) ->
  let table := designate response_times num_sub_leaders in
  0 <= num_sub_leaders <= len response_times ->
  len table = num_sub_leaders /\
  List.map snd table = seqZ 0 num_sub_leaders /\
  forall node_id rank,
    In (node_id, rank) table ->
    exists rtt,
      In (node_id, rtt) response_times /\
      (forall node_id' rank' rtt',
         In (node_id', rank') table -> In (node_id', rtt') response_times ->
         rank <= rank' -> (rtt <= rtt')%Q) /\
      (forall node_id' rtt',
         In (node_id', rtt') response_times -> ~ In node_id' (List.map fst table) ->
         (rtt <= rtt')%Q).
Proof.
  intros Hnd table Hnum. subst table.
  destruct (sorted_by_rtt_spec response_times) as [Hperm Hsorted].
  set (S := sorted_by_rtt response_times) in *.
  assert (HndS : NoDup (List.map fst S)).
  { apply NoDup_ListNoDup. eapply Permutation_NoDup; [|apply NoDup_ListNoDup; exact Hnd].
    apply Permutation_map. symmetry. exact Hperm. }
  assert (HlenS : length S = length response_times) by (apply Permutation_length; exact Hperm).
  assert (Htable : designate response_times num_sub_leaders
                   = List.map ranked (enumerate_from 0 (firstn (Z.to_nat num_sub_leaders) S))).
  { unfold designate. fold S. rewrite py_take_firstn by lia.
    rewrite designate_fold; [reflexivity | |].
    - rewrite <- firstn_map.
      first [ eapply sublist_NoDup; [exact HndS | apply sublist_take]
            | eapply sublist_NoDup; [apply sublist_take | exact HndS] ].
    - intros k _ []. }
  rewrite Htable.
  assert (Hmem : forall node_id rank,
            In (node_id, rank) (List.map ranked (enumerate_from 0 (firstn (Z.to_nat num_sub_leaders) S)))
            <-> 0 <= rank < num_sub_leaders /\
                exists rtt, nth_error S (Z.to_nat rank) = Some (node_id, rtt)).
  { intros node_id rank. rewrite in_map_iff. split.
    - intros ([k [n q]] & [= <- <-] & Hin). cbn [fst snd] in *.
      apply in_enumerate_from in Hin as [Hle Hnth]. rewrite Z.sub_0_r in Hnth.
      assert (Hlt : (Z.to_nat k < Z.to_nat num_sub_leaders)%nat).
      { assert (Hl : (Z.to_nat k < length (firstn (Z.to_nat num_sub_leaders) S))%nat)
          by (apply nth_error_Some; congruence).
        rewrite length_firstn in Hl. lia. }
      rewrite nth_error_firstn in Hnth.
      destruct (Nat.ltb_spec (Z.to_nat k) (Z.to_nat num_sub_leaders)); [|lia].
      split; [lia|]. exists q. exact Hnth.
    - intros (Hr & q & Hnth). exists (rank, (node_id, q)). split; [reflexivity|].
      apply in_enumerate_from. split; [lia|]. rewrite Z.sub_0_r.
      rewrite nth_error_firstn.
      destruct (Nat.ltb_spec (Z.to_nat rank) (Z.to_nat num_sub_leaders)); [exact Hnth | lia]. }
  split; [|split].
  - unfold len. rewrite length_map.
    assert (He : forall (l : list (Z * Q)) n, length (enumerate_from n l) = length l).
    { induction l as [|x l IH]; intros n; cbn; [reflexivity | rewrite IH; reflexivity]. }
    rewrite He, length_firstn. unfold len in Hnum. lia.
  - rewrite map_map.
    assert (He : forall (l : list (Z * Q)) n,
              List.map (fun x => snd (ranked x)) (enumerate_from n l) = seqZ n (Z.of_nat (length l))).
    { induction l as [|x l IH]; intros n; [reflexivity|].
      cbn [enumerate_from List.map length]. rewrite IH.
      rewrite (seqZ_cons n) by lia. cbn [ranked fst snd]. f_equal.
      f_equal; lia. }
    rewrite He, length_firstn. f_equal. unfold len in Hnum. lia.
  - intros node_id rank Hin. apply Hmem in Hin as (Hr & rtt & Hnth).
    exists rtt. split; [|split].
    + eapply Permutation_in; [exact Hperm|]. eapply nth_error_In. exact Hnth.
    + intros node' rank' rtt' Hin' Hrt' Hle.
      apply Hmem in Hin' as (Hr' & q' & Hnth').
      assert (q' = rtt').
      { assert (HinS : In (node', rtt') S) by (eapply Permutation_in; [symmetry; exact Hperm | exact Hrt']).
        apply In_nth_error in HinS as [j Hj].
        assert (Z.to_nat rank' = j) by (eapply keys_nth_error; eassumption).
        subst j. congruence. }
      subst q'. destruct (Z.eq_dec rank rank') as [->|Hne].
      * assert ((node_id, rtt) = (node', rtt')) by congruence. injection H as _ ->. lra.
      * apply (sorted_nth_error by_rtt S (Z.to_nat rank) (Z.to_nat rank') (node_id, rtt) (node', rtt'));
          [assumption | assumption | assumption | lia].
    + intros node' rtt' Hrt' Hout.
      assert (HinS : In (node', rtt') S) by (eapply Permutation_in; [symmetry; exact Hperm | exact Hrt']).
      apply In_nth_error in HinS as [j Hj].
      destruct (Nat.ltb_spec j (Z.to_nat num_sub_leaders)) as [Hlt|Hge].
      * exfalso. apply Hout. rewrite in_map_iff. exists (node', Z.of_nat j). split; [reflexivity|].
        apply Hmem. split; [lia|]. exists rtt'. rewrite Nat2Z.id. exact Hj.
      * apply (sorted_nth_error by_rtt S (Z.to_nat rank) j (node_id, rtt) (node', rtt'));
          [assumption | assumption | assumption | lia].
Qed.

Lemma ema_between (alpha rtt old : Q) :
  (0 <= alpha <= 1)%Q ->
  (py_min old rtt <= alpha * rtt + (1 - alpha) * old <= py_max old rtt)%Q.
Proof.
  intros [H0 H1]. unfold py_min, py_max.
  destruct (Qltb rtt old) eqn:E1; destruct (Qltb old rtt) eqn:E2;
    try (apply Qltb_lt in E1); try (apply Qltb_lt in E2);
    try (apply Qltb_ge in E1); try (apply Qltb_ge in E2); split; nra.
Qed.

(** X16: a successful AppendAck from a peer the leader has sent to updates
    that peer's RTT estimate: the first sample is taken as it is, a later
    one is blended in with weight [rtt_alpha], so the new estimate lies
    between the old one and the sample. *)
Theorem rtt_estimate_is_smoothed (e : Env) (r : Run) (msg : Msg.t) (sent_time : Q) :
  let s := self r in
  state s = LEADER ->
  is_promotion_pending s = false ->
  Msg.type msg = MessageType.APPEND_ACK ->
  Msg.term msg = current_term s ->
  Data.success (Msg.data msg) = Some true ->
  message_sent_times s !! Msg.sender_id msg = Some sent_time ->
  (0 <= RaftConfig.rtt_alpha (config s) <= 1)%Q ->
  let r' := run_state (_handle_message msg) e r in
  let rtt := (now e - sent_time)%Q in
  exists estimate,
    response_times (self r') = dict_set (Msg.sender_id msg) estimate (response_times s) /\
    (dict_get (Msg.sender_id msg) (response_times s) = None -> estimate = rtt) /\
    (forall old, dict_get (Msg.sender_id msg) (response_times s) = Some old ->
       estimate = (RaftConfig.rtt_alpha (config s) * rtt
                   + (1 - RaftConfig.rtt_alpha (config s)) * old)%Q /\
       (py_min old rtt <= estimate <= py_max old rtt)%Q).
Proof.
  intros s Hs Hp Hty Hterm Hsucc Hsent Halpha r' rtt. subst s r' rtt.
  as_wp. unfold _handle_message. rewrite Hty.
  cbn [String.eqb Ascii.eqb Bool.eqb MessageType.APPEND_ENTRIES MessageType.APPEND_ACK].
  unfold _handle_append_ack. rewrite Hsucc. cbn [get_or].
  wp_exec.
  all: eexists; split; [reflexivity|]; split; [intros; congruence|].
  all: intros old [= <-] || (intros old Hold; discriminate Hold).
  all: split; [reflexivity | apply ema_between; exact Halpha].
Qed.

(** ** The properties at work *)

Import Scenario.

Lemma term_along_election_run :
  total_nodes (self fresh_node) = 3 /\
  current_term (self fresh_node) <= current_term (self (steps fresh_node election_run)).
Proof.
  split; [reflexivity|].
  apply (current_term_never_decreases election_run fresh_node). vm_compute. discriminate.
Defined.

Lemma newer_heartbeat_deposes_leader :
  current_term (self leader_node) < Msg.term newer_heartbeat /\
  state (self (run_state (_handle_message newer_heartbeat) (env 7 3) leader_node)) = FOLLOWER.
Proof.
  assert (Hn : total_nodes (self leader_node) <> 0) by (vm_compute; discriminate).
  assert (Hlt : current_term (self leader_node) < Msg.term newer_heartbeat)
    by (vm_compute; reflexivity).
  split; [exact Hlt|].
  exact (proj1 (higher_term_makes_follower (env 7 3) leader_node newer_heartbeat Hn Hlt)).
Defined.

Lemma candidate_node_ignores_tick :
  state (self candidate_node) = CANDIDATE /\
  run_state _check_timers (env 100 3) candidate_node = candidate_node.
Proof.
  assert (Hs : state (self candidate_node) = CANDIDATE) by (vm_compute; reflexivity).
  assert (Hp : is_promotion_pending (self candidate_node) = false) by (vm_compute; reflexivity).
  split; [exact Hs|].
  exact (election_candidate_ignores_ticks (env 100 3) candidate_node Hs Hp).
Defined.

Lemma fresh_node_in_grace :
  startup_grace_period (self fresh_node) = true /\
  run_state _check_timers (env 4 3) fresh_node =
  mkRun (set_last_heartbeat 4 (self fresh_node)) (draws fresh_node) (sent fresh_node)
        (calls fresh_node).
Proof.
  assert (Hs : state (self fresh_node) = FOLLOWER) by (vm_compute; reflexivity).
  assert (Hg : startup_grace_period (self fresh_node) = true) by (vm_compute; reflexivity).
  assert (Ht : (now (env 4 3) - startup_time (self fresh_node)
                < startup_grace_duration (self fresh_node))%Q) by (vm_compute; reflexivity).
  split; [exact Hg|].
  exact (startup_grace_defers_election (env 4 3) fresh_node Hs Hg Ht).
Defined.

Lemma fresh_node_timer_range :
  had_leader_before (self fresh_node) = false /\
  (RaftConfig.election_timeout_base (config (self fresh_node))
     + inject_Z (id (self fresh_node)) * (5 # 100)
   <= run_value _reset_election_timer (env 0 3) fresh_node
   <= RaftConfig.election_timeout_base (config (self fresh_node)) * 2
      + inject_Z (id (self fresh_node)) * (5 # 100))%Q.
Proof.
  assert (Hu : (0 <= rand (env 0 3) (draws fresh_node) <= 1)%Q)
    by (split; vm_compute; discriminate).
  assert (Hh : had_leader_before (self fresh_node) = false) by (vm_compute; reflexivity).
  assert (Hb : (0 <= RaftConfig.election_timeout_base (config (self fresh_node)))%Q)
    by (vm_compute; discriminate).
  split; [exact Hh|].
  exact (proj1 (election_timer_range (env 0 3) fresh_node Hu) Hh Hb).
Defined.

Lemma first_vote_wins_election :
  state (self candidate_node) = CANDIDATE /\
  state (self (run_state (_handle_message first_vote) (env (601 # 100) 3) candidate_node))
    = LEADER.
Proof.
  assert (Hs : state (self candidate_node) = CANDIDATE) by (vm_compute; reflexivity).
  assert (Hnew : Msg.sender_id first_vote ∉ voted_nodes (self candidate_node)).
  { intros H. revert H. apply (bool_decide_unpack _). vm_compute. reflexivity. }
  pose proof (election_won_on_strict_majority (env (601 # 100) 3) candidate_node first_vote
                Hs eq_refl eq_refl) as H.
  split; [exact Hs|].
  apply (proj1 (proj1 H eq_refl Hnew)). vm_compute. reflexivity.
Defined.

Lemma late_request_vote_answered :
  Msg.type late_request_vote = MessageType.REQUEST_VOTE /\
  exists grant : bool,
    sent (run_state (_handle_message late_request_vote) (env (101 # 10) 3) deposed_node)
    = sent deposed_node ++
      [(2, create_vote_response 0 1 grant (101 # 10))].
Proof.
  assert (Hn : total_nodes (self deposed_node) <> 0) by (vm_compute; discriminate).
  destruct (request_vote_granted_iff (env (101 # 10) 3) deposed_node late_request_vote
              Hn eq_refl) as (grant & Hsent & _).
  split; [reflexivity|]. exists grant. exact Hsent.
Defined.

Lemma stale_append_refused_by_leader :
  Msg.term stale_append < current_term (self leader_node) /\
  run_state (_handle_message stale_append) (env 7 3) leader_node =
  mkRun (self leader_node) (draws leader_node)
        (sent leader_node ++
         [(Msg.sender_id stale_append,
           create_append_ack (id (self leader_node)) (current_term (self leader_node))
             false 0 (now (env 7 3)))])
        (calls leader_node).
Proof.
  assert (Hlt : Msg.term stale_append < current_term (self leader_node))
    by (vm_compute; reflexivity).
  split; [exact Hlt|].
  exact (stale_append_entries_refused (env 7 3) leader_node stale_append eq_refl Hlt).
Defined.

Lemma first_append_accepted :
  current_term (self fresh_node) <= Msg.term first_append /\
  log (self (run_state (_handle_message first_append) (env 1 3) fresh_node))
    = [LogEntry.mk 1 cmd 1; LogEntry.mk 1 cmd 2].
Proof.
  assert (Hn : total_nodes (self fresh_node) <> 0) by (vm_compute; discriminate).
  assert (Hterm : current_term (self fresh_node) <= Msg.term first_append)
    by (vm_compute; discriminate).
  assert (Hok : get_or 0 (Data.prev_log_index (Msg.data first_append)) <= 0 \/
                (get_or 0 (Data.prev_log_index (Msg.data first_append))
                   <= len (log (self fresh_node)) /\
                 term_at (log (self fresh_node))
                   (get_or 0 (Data.prev_log_index (Msg.data first_append)) - 1)
                 = get_or 0 (Data.prev_log_term (Msg.data first_append))))
    by (left; vm_compute; discriminate).
  split; [exact Hterm|].
  exact (proj1 (append_entries_accepted (env 1 3) fresh_node first_append Hn eq_refl Hterm Hok)).
Defined.

Lemma first_append_holds_election_off :
  state (self (step fresh_node (Receive (env 1 3) first_append))) = FOLLOWER /\
  step (step fresh_node (Receive (env 1 3) first_append)) (Tick (env (11 # 10) 3))
    = step fresh_node (Receive (env 1 3) first_append).
Proof.
  assert (Hn : total_nodes (self fresh_node) <> 0) by (vm_compute; discriminate).
  assert (Hterm : current_term (self fresh_node) <= Msg.term first_append)
    by (vm_compute; discriminate).
  assert (Hsoon : (now (env (11 # 10) 3) - now (env 1 3)
                   < election_timeout (self (step fresh_node (Receive (env 1 3) first_append))))%Q)
    by (vm_compute; reflexivity).
  pose proof (append_entries_holds_election_off (env 1 3) (env (11 # 10) 3) fresh_node
                first_append Hn eq_refl Hterm Hsoon) as H.
  split; [exact (proj1 H) | exact (proj2 (proj2 H))].
Defined.

Lemma first_append_twice :
  0 <= get_or 0 (Data.prev_log_index (Msg.data first_append)) /\
  log (self (step (step fresh_node (Receive (env 1 3) first_append))
                  (Receive (env 2 3) first_append)))
  = log (self (step fresh_node (Receive (env 1 3) first_append))).
Proof.
  assert (Hn : total_nodes (self fresh_node) <> 0) by (vm_compute; discriminate).
  assert (Hterm : current_term (self fresh_node) <= Msg.term first_append)
    by (vm_compute; discriminate).
  assert (Hp : 0 <= get_or 0 (Data.prev_log_index (Msg.data first_append)))
    by (vm_compute; discriminate).
  split; [exact Hp|].
  exact (proj1 (append_entries_duplicate_idempotent (env 1 3) (env 2 3) fresh_node
                  first_append Hn eq_refl Hterm Hp)).
Defined.

Lemma unapplied_node_applies :
  last_applied (self unapplied_node) <= commit_index (self unapplied_node) /\
  last_applied (self (run_state _apply_committed_entries (env 2 3) unapplied_node)) = 2.
Proof.
  assert (H0 : 0 <= last_applied (self unapplied_node)) by (vm_compute; discriminate).
  assert (Hle : last_applied (self unapplied_node) <= commit_index (self unapplied_node))
    by (vm_compute; discriminate).
  split; [exact Hle|].
  rewrite (proj1 (committed_entries_applied_once_in_order (env 2 3) unapplied_node H0) Hle).
  reflexivity.
Defined.

Lemma bookkeeping_along_election_run :
  tracking_ok (self fresh_node) /\
  tracking_ok (self (steps fresh_node election_run)).
Proof.
  assert (Hn : total_nodes (self fresh_node) <> 0) by (vm_compute; discriminate).
  assert (H0 : tracking_ok (self fresh_node)) by apply init_tracking_ok.
  split; [exact H0|].
  exact (leader_bookkeeping_bounds election_run fresh_node Hn H0).
Defined.

Lemma leader_node_heartbeat :
  state (self leader_node) = LEADER /\
  exists msgs,
    sent (run_state _check_timers (env (61 # 10) 3) leader_node) = sent leader_node ++ msgs /\
    List.map fst msgs = others (self leader_node).
Proof.
  assert (Hs : state (self leader_node) = LEADER) by (vm_compute; reflexivity).
  assert (Hp : is_promotion_pending (self leader_node) = false) by (vm_compute; reflexivity).
  assert (Ht : tracking_ok (self leader_node))
    by (split; apply (bool_decide_unpack _); vm_compute; reflexivity).
  assert (Hl : (now (env (61 # 10) 3) - last_majority_ack_time (self leader_node)
                <= py_max (RaftConfig.heartbeat_interval (config (self leader_node)) * 30) 3)%Q)
    by (vm_compute; discriminate).
  assert (Hd : (RaftConfig.heartbeat_interval (config (self leader_node))
                <= now (env (61 # 10) 3) - last_heartbeat (self leader_node))%Q)
    by (vm_compute; discriminate).
  destruct (leader_heartbeat_well_formed (env (61 # 10) 3) leader_node Hs Hp Ht Hl Hd)
    as (msgs & H1 & H2 & _).
  split; [exact Hs|]. exists msgs. split; [exact H1 | exact H2].
Defined.

Lemma measured_peers_ranked :
  NoDup (List.map fst measured) /\
  List.map snd (designate measured 1) = seqZ 0 1.
Proof.
  assert (Hnd : NoDup (List.map fst measured))
    by (apply (bool_decide_unpack _); vm_compute; reflexivity).
  assert (Hnum : 0 <= 1 <= len measured) by (vm_compute; split; discriminate).
  split; [exact Hnd|].
  exact (proj1 (proj2 (sub_leaders_are_nearest_peers measured 1 Hnd Hnum))).
Defined.

Lemma first_ack_measures_rtt :
  message_sent_times (self writing_leader) !! Msg.sender_id first_ack = Some (61 # 10) /\
  exists estimate,
    response_times (self acked_leader)
    = dict_set (Msg.sender_id first_ack) estimate (response_times (self writing_leader)).
Proof.
  assert (Hs : state (self writing_leader) = LEADER) by (vm_compute; reflexivity).
  assert (Hp : is_promotion_pending (self writing_leader) = false) by (vm_compute; reflexivity).
  assert (Hm : message_sent_times (self writing_leader) !! Msg.sender_id first_ack
               = Some (61 # 10)) by (vm_compute; reflexivity).
  assert (Ha : (0 <= RaftConfig.rtt_alpha (config (self writing_leader)) <= 1)%Q)
    by (split; vm_compute; discriminate).
  destruct (rtt_estimate_is_smoothed (env (62 # 10) 3) writing_leader first_ack (61 # 10)
              Hs Hp eq_refl eq_refl eq_refl Hm Ha) as (estimate & H1 & _).
  split; [exact Hm|]. exists estimate. exact H1.
Defined.

Lemma revoted_node_keeps_vote :
  voted_for (self revoted_node) = Some 2 /\
  voted_for (self (steps revoted_node quiet_run)) = Some 2.
Proof.
  assert (Hn : total_nodes (self revoted_node) <> 0) by (vm_compute; discriminate).
  assert (Hs : state (self revoted_node) = FOLLOWER) by (vm_compute; reflexivity).
  assert (Hv : voted_for (self revoted_node) = Some 2) by (vm_compute; reflexivity).
  assert (Hterm : forall k, current_term (self (steps revoted_node (firstn k quiet_run)))
                            = current_term (self revoted_node)).
  { intros [|[|[|k]]]; vm_compute; reflexivity. }
  split; [exact Hv|].
  exact (proj1 (proj2 (follower_vote_kept_steps quiet_run revoted_node 2 Hn Hs Hv Hterm))).
Defined.

End NodeCoverage.

(* ===================================================================== *)
(** * More properties of the codec, the transport and the application     *)
(* ===================================================================== *)

Module WireCoverage.
Import Message WireProofs.
Import NodeProofs NodeCoverage.

(** ** Frames *)

Lemma py_slice_app_prefix {A} (l rest : list A) (a b : Z) :
  0 <= a -> 0 <= b <= len l -> py_slice (l ++ rest) a b = py_slice l a b.
Proof.
  intros Ha Hb. unfold py_slice, slice_bound, len in *. rewrite length_app.
  destruct (Z.ltb_spec a 0); [lia|]. destruct (Z.ltb_spec b 0); [lia|].
  rewrite (Z.min_l b) by lia. rewrite (Z.min_l b (Z.of_nat (length l))) by lia.
  destruct (Z.le_ge_cases a (Z.of_nat (length l))).
  - rewrite (Z.min_l a) by lia. rewrite (Z.min_l a (Z.of_nat (length l))) by lia.
    rewrite skipn_app. rewrite firstn_app.
    replace (Z.to_nat (b - a) - length (skipn (Z.to_nat a) l))%nat with 0%nat
      by (rewrite length_skipn; lia).
    cbn [firstn]. rewrite app_nil_r. reflexivity.
  - replace (Z.to_nat (b - Z.min a (Z.of_nat (length l + length rest)))) with 0%nat by lia.
    replace (Z.to_nat (b - Z.min a (Z.of_nat (length l)))) with 0%nat by lia.
    reflexivity.
Qed.

(** X18: [decode] reads one frame: the four-byte length and that many bytes.
    Bytes after the frame do not change its result, and a buffer shorter than
    the frame it announces gives [None]. *)
Theorem decode_reads_one_frame
    (json_loads : list byte -> option pyval) (now : Q)
    (header body rest : list byte) :
  len header = 4 ->
  struct_unpack_I header = len body ->
  decode json_loads now ((header ++ body) ++ rest) = decode json_loads now (header ++ body) /\
  (forall k, 0 <= k < len (header ++ body) ->
     decode json_loads now (py_take (header ++ body) k) = Incomplete).
Proof.
  intros Hh Hn.
  assert (Hlen : len (header ++ body) = 4 + len body).
  { unfold len in *. rewrite length_app. lia. }
  split.
  - unfold decode.
    assert (Hall : len ((header ++ body) ++ rest) = 4 + len body + len rest).
    { unfold len in *. rewrite !length_app. lia. }
    pose proof (len_nonneg body). pose proof (len_nonneg rest).
    rewrite Hall, Hlen.
    destruct (Z.ltb_spec (4 + len body + len rest) 4); [lia|].
    destruct (Z.ltb_spec (4 + len body) 4); [lia|].
    rewrite (py_slice_app_prefix (header ++ body) rest 0 4) by lia.
    replace (py_slice (header ++ body) 0 4) with header
      by (rewrite <- Hh; symmetry; apply py_slice_prefix).
    rewrite Hn.
    destruct (Z.ltb_spec (4 + len body + len rest) (4 + len body)); [lia|].
    destruct (Z.ltb_spec (4 + len body) (4 + len body)); [lia|].
    rewrite (py_slice_app_prefix (header ++ body) rest 4 (4 + len body)) by lia.
    reflexivity.
  - intros k Hk. unfold decode.
    pose proof (len_nonneg body).
    assert (Hlk : len (py_take (header ++ body) k) = k).
    { apply len_py_take. lia. }
    rewrite Hlk. destruct (Z.ltb_spec k 4); [reflexivity|].
    assert (Hp : py_take (header ++ body) k = header ++ firstn (Z.to_nat k - 4) body).
    { rewrite py_take_firstn by lia. rewrite firstn_app. unfold len in Hh.
      rewrite firstn_all2 by lia. f_equal. f_equal. lia. }
    assert (Hhead : py_slice (py_take (header ++ body) k) 0 4 = header).
    { rewrite Hp.
      exact (eq_trans (f_equal (py_slice _ 0) (eq_sym Hh)) (py_slice_prefix header _)). }
    rewrite Hhead, Hn.
    destruct (Z.ltb_spec k (4 + len body)); [reflexivity | lia].
Qed.

(** ** A connection *)

Import Transport.

Lemma recv_exact_app (p rest : list byte) (n : Z) :
  0 < n -> len p = n -> _recv_exact (p ++ rest) n = Some (p, rest).
Proof.
  intros Hpos Hlen. unfold _recv_exact.
  destruct (Z.leb_spec n 0); [lia|].
  rewrite len_app. pose proof (len_nonneg rest).
  destruct (Z.ltb_spec (len p + len rest) n); [lia|].
  unfold len in Hlen.
  replace (Z.to_nat n) with (length p) by lia.
  rewrite take_app_length, drop_app_length. reflexivity.
Qed.

Lemma handle_client_queue
    (json_dumps : pyval -> option (list byte)) (json_loads : list byte -> option pyval)
    (now : Q) (msgs : list Msg.t) :
  Forall (carried json_dumps json_loads) msgs ->
  forall (stream : list byte) (turns : nat) (queue : list Message.t),
  wire json_dumps (List.map of_msg msgs) = Some stream ->
  (length msgs < turns)%nat ->
  _handle_client json_loads turns now stream queue = queue ++ List.map of_msg msgs.
Proof.
  induction 1 as [|m msgs Hm _ IH]; intros stream turns queue Hwire Hturns.
  - cbn in Hwire. injection Hwire as <-. destruct turns as [|turns]; [cbn in Hturns; lia|].
    cbn [List.map]. rewrite app_nil_r. reflexivity.
  - destruct turns as [|turns]; [cbn in Hturns; lia|].
    destruct Hm as (Hw & json_data & Hdumps & Hloads & Hpos & Hmax).
    cbn [List.map wire] in Hwire. unfold packet in Hwire. rewrite Hdumps in Hwire.
    destruct (struct_pack_I (len json_data)) as [header|] eqn:Hpack; [|discriminate].
    destruct (wire json_dumps (List.map of_msg msgs)) as [rest|] eqn:Hrest; [|discriminate].
    injection Hwire as <-.
    destruct (struct_roundtrip _ _ Hpack) as [Hh Hunpack].
    destruct (message_roundtrip now m Hw) as (j & Hj & Hfrom).
    cbn [_handle_client]. rewrite <- app_assoc.
    rewrite (recv_exact_app header (json_data ++ rest) 4) by (unfold len; lia).
    rewrite Hunpack.
    destruct (Z.ltb_spec (10 * 1024 * 1024) (len json_data)); [lia|].
    rewrite (recv_exact_app json_data rest (len json_data)) by lia.
    destruct (Z.eqb_spec (len json_data) 0); [lia|].
    rewrite Hloads, Hj, Hfrom.
    rewrite (IH rest turns _ eq_refl) by (cbn in Hturns; lia).
    cbn [List.map]. rewrite <- app_assoc. reflexivity.
Qed.

(** X19: the messages a peer sends over one connection are the messages
    [_handle_client] puts on the receive queue, in the order sent and each
    once: the packets of [send] are cut apart again at the right places. *)
Theorem stream_delivers_messages
    (json_dumps : pyval -> option (list byte)) (json_loads : list byte -> option pyval)
    (now : Q) (msgs : list Msg.t) (stream : list byte) (turns : nat) :
  Forall (carried json_dumps json_loads) msgs ->
  wire json_dumps (List.map of_msg msgs) = Some stream ->
  (length msgs < turns)%nat ->
  _handle_client json_loads turns now stream [] = List.map of_msg msgs.
Proof.
  intros Hall Hwire Hturns.
  apply (handle_client_queue json_dumps json_loads now msgs Hall stream turns [] Hwire Hturns).
Qed.

(** ** Node ids *)

Lemma insert_addr_perm x l : Permutation (insert_addr x l) (x :: l).
Proof.
  induction l as [|y l IH]; cbn [insert_addr]; [reflexivity|].
  destruct (String.ltb x y); [reflexivity|].
  rewrite IH. apply perm_swap.
Qed.

Lemma py_sorted_perm l : Permutation (py_sorted l) l.
Proof.
  unfold py_sorted.
  assert (H : forall acc, Permutation (fold_left (fun acc x => insert_addr x acc) l acc) (acc ++ l)).
  { induction l as [|x l IH]; intros acc; cbn [fold_left].
    - rewrite app_nil_r. reflexivity.
    - rewrite IH, insert_addr_perm. cbn [app]. apply Permutation_middle. }
  apply (H []).
Qed.

Lemma list_index_cons x y l :
  list_index x (y :: l) =
  if String.eqb x y then Some 0
  else match list_index x l with Some i => Some (i + 1) | None => None end.
Proof. reflexivity. Qed.

Lemma list_index_None x l : list_index x l = None <-> x ∉ l.
Proof.
  induction l as [|y l IH]; [split; [intros _; apply not_elem_of_nil | reflexivity]|].
  rewrite list_index_cons, not_elem_of_cons.
  destruct (String.eqb_spec x y) as [->|Hne].
  - split; [discriminate | tauto].
  - destruct (list_index x l).
    + split; [discriminate|]. intros [_ H]. apply IH in H. discriminate.
    + split; [|reflexivity]. intros _. split; [exact Hne | apply IH; reflexivity].
Qed.

Lemma list_index_nth x l i :
  list_index x l = Some i -> 0 <= i < len l /\ nth_error l (Z.to_nat i) = Some x.
Proof.
  revert i. induction l as [|y l IH]; intros i; [discriminate|].
  rewrite list_index_cons. destruct (String.eqb_spec x y) as [->|Hne].
  - intros [= <-]. unfold len. cbn. split; [lia | reflexivity].
  - destruct (list_index x l) as [j|]; [|discriminate]. intros [= <-].
    destruct (IH j eq_refl) as [Hj Hnth]. unfold len in *. cbn [length].
    split; [lia|]. replace (Z.to_nat (j + 1)) with (S (Z.to_nat j)) by lia. exact Hnth.
Qed.

Lemma addr_to_id_fold (l : list string) (n : Z) (acc : gmap string Z) (a : string) :
  NoDup l ->
  fold_left (fun m '(i, addr) => <[addr := i]> m) (enumerate_from n l) acc !! a
  = match list_index a l with Some k => Some (n + k) | None => acc !! a end.
Proof.
  revert n acc. induction l as [|x l IH]; intros n acc Hnd; [reflexivity|].
  apply NoDup_cons in Hnd as [Hx Hnd].
  cbn [enumerate_from fold_left]. rewrite IH by exact Hnd. rewrite list_index_cons.
  destruct (String.eqb_spec a x) as [->|Hne].
  - apply list_index_None in Hx. rewrite Hx, lookup_insert_eq. f_equal. lia.
  - destruct (list_index a l) as [k|]; [f_equal; lia|].
    apply lookup_insert_ne. congruence.
Qed.

Lemma id_to_addr_fold (l : list string) (n : Z) (acc : gmap Z string) (i : Z) :
  fold_left (fun m '(i, addr) => <[i := addr]> m) (enumerate_from n l) acc !! i
  = if (n <=? i) && (i <? n + len l) then nth_error l (Z.to_nat (i - n)) else acc !! i.
Proof.
  revert n acc. induction l as [|x l IH]; intros n acc.
  - cbn [enumerate_from fold_left]. unfold len. cbn [length].
    destruct (Z.leb_spec n i); [|reflexivity].
    rewrite (proj2 (Z.ltb_ge _ _)) by lia. reflexivity.
  - cbn [enumerate_from fold_left]. rewrite IH. unfold len. cbn [length].
    destruct (Z.eq_dec i n) as [->|Hne].
    + rewrite (proj2 (Z.leb_gt _ _)) by lia. cbn [andb].
      rewrite (proj2 (Z.leb_le _ _)) by lia. rewrite (proj2 (Z.ltb_lt _ _)) by lia.
      cbn [andb]. rewrite lookup_insert_eq.
      replace (Z.to_nat (n - n)) with 0%nat by lia. reflexivity.
    + destruct (Z.leb_spec (n + 1) i).
      * rewrite (proj2 (Z.leb_le n i)) by lia.
        destruct (Z.ltb_spec i (n + 1 + Z.of_nat (length l))).
        -- rewrite (proj2 (Z.ltb_lt _ _)) by lia. cbn [andb].
           replace (Z.to_nat (i - n)) with (S (Z.to_nat (i - (n + 1)))) by lia. reflexivity.
        -- rewrite (proj2 (Z.ltb_ge _ _)) by lia. cbn [andb]. apply lookup_insert_ne. lia.
      * rewrite (proj2 (Z.leb_gt n i)) by lia. cbn [andb]. apply lookup_insert_ne. lia.
Qed.

(** X20: with addresses that are all different, the id [EC2RaftServer]
    gives its node is the id the transport takes for itself; it lies in
    [0 .. n - 1] and [id_to_addr] takes it back to the server's own address.
    Every address has an id, and the two tables are inverse to each other. *)
Theorem node_id_matches_transport (self_addr : string) (peer_addresses : list string) :
  let all_addrs := self_addr :: peer_addresses in
  let sorted_addrs := py_sorted all_addrs in
  NoDup all_addrs ->
  (exists i,
     actual_node_id self_addr peer_addresses = Some i /\
     self_id self_addr all_addrs = Some i /\
     id_to_addr sorted_addrs !! i = Some self_addr /\
     0 <= i < len all_addrs) /\
  (forall addr i,
     addr_to_id sorted_addrs !! addr = Some i <-> id_to_addr sorted_addrs !! i = Some addr).
Proof.
  intros all_addrs sorted_addrs Hnd.
  assert (Hperm : Permutation sorted_addrs all_addrs) by apply py_sorted_perm.
  assert (HndS : NoDup sorted_addrs) by (rewrite Hperm; exact Hnd).
  assert (Hlen : len sorted_addrs = len all_addrs).
  { unfold len. f_equal. apply Permutation_length. exact Hperm. }
  assert (Hto : forall a, addr_to_id sorted_addrs !! a = list_index a sorted_addrs).
  { intros a. unfold addr_to_id. rewrite addr_to_id_fold by exact HndS.
    rewrite lookup_empty. destruct (list_index a sorted_addrs); [f_equal; lia | reflexivity]. }
  assert (Hfrom : forall i, id_to_addr sorted_addrs !! i
                            = if (0 <=? i) && (i <? len sorted_addrs)
                              then nth_error sorted_addrs (Z.to_nat i) else None).
  { intros i. unfold id_to_addr. rewrite id_to_addr_fold. rewrite lookup_empty.
    rewrite Z.sub_0_r. reflexivity. }
  assert (Hinv : forall addr i,
            list_index addr sorted_addrs = Some i <->
            0 <= i < len sorted_addrs /\ nth_error sorted_addrs (Z.to_nat i) = Some addr).
  { intros addr i. split; [apply list_index_nth|].
    intros [Hi Hnth]. destruct (list_index addr sorted_addrs) as [j|] eqn:Hj.
    - destruct (list_index_nth _ _ _ Hj) as [Hjr Hjn]. f_equal.
      apply NoDup_ListNoDup in HndS.
      assert (Z.to_nat j = Z.to_nat i); [|lia].
      apply (proj1 (NoDup_nth_error sorted_addrs) HndS).
      + unfold len in Hjr. lia.
      + congruence.
    - exfalso. apply list_index_None in Hj. apply Hj.
      apply list_elem_of_In. eapply nth_error_In. exact Hnth. }
  split.
  - destruct (list_index self_addr sorted_addrs) as [i|] eqn:Hi.
    + exists i. destruct (proj1 (Hinv _ _) Hi) as [Hr Hnth].
      split; [exact Hi|]. split; [unfold self_id; rewrite Hto; exact Hi|].
      split; [|lia]. rewrite Hfrom.
      destruct (Z.leb_spec 0 i); [|lia]. destruct (Z.ltb_spec i (len sorted_addrs)); [|lia].
      exact Hnth.
    + exfalso. apply list_index_None in Hi. apply Hi. rewrite Hperm. left.
  - intros addr i. rewrite Hto, Hfrom, Hinv.
    destruct (Z.leb_spec 0 i); destruct (Z.ltb_spec i (len sorted_addrs)); cbn [andb];
      split; try (intros [? ?]; lia); try discriminate; try tauto;
      try (intros H1; split; [lia | exact H1]).
Qed.

(** ** The counter *)

Import Server.

Lemma committed_app (cmds1 cmds2 : list pyval) (counter : pyval) :
  committed (cmds1 ++ cmds2) counter =
  match committed cmds1 counter with
  | Some counter' => committed cmds2 counter'
  | None => None
  end.
Proof.
  revert counter. induction cmds1 as [|c cmds1 IH]; intros counter; [reflexivity|].
  cbn [app committed]. destruct (_on_log_committed counter c); [apply IH | reflexivity].
Qed.

Lemma committed_increments (commands : list pyval) (values : list Z) (c : Z) :
  Forall2 adds commands values ->
  committed commands (PInt c) = Some (PInt (c + fold_right Z.add 0 values)).
Proof.
  intros H. revert c. induction H as [|cmd v cmds vs (d & -> & Hty & Hv) _ IH]; intros c.
  - cbn. f_equal. f_equal. lia.
  - cbn [committed _on_log_committed]. rewrite Hty, Hv. cbn [get_or py_iadd as_number].
    rewrite IH. cbn [fold_right]. f_equal. f_equal. lia.
Qed.

(** X21: the application counter after committed commands: increments
    with integer values add up, whatever other keys the commands carry, and
    a 'set' command makes everything committed before it irrelevant. *)
Theorem counter_follows_commands
    (before : list pyval) (counter : pyval) (set_command : pyval) (v : Z)
    (increments : list pyval) (values : list Z) :
  committed before counter <> None ->
  sets set_command (PInt v) ->
  Forall2 adds increments values ->
  committed (before ++ set_command :: increments) counter
  = Some (PInt (v + fold_right Z.add 0 values)).
Proof.
  intros Hb (d & -> & Hty & Hv) Hinc.
  rewrite committed_app. destruct (committed before counter) as [c|]; [|congruence].
  cbn [committed _on_log_committed]. rewrite Hty, Hv. cbn [get_or].
  apply committed_increments. exact Hinc.
Qed.

(** ** The properties at work *)

Import Scenario.

Lemma sample_frame_with_trailing_bytes :
  len sample_header = 4 /\
  decode JsonSubset.loads 0 ((sample_header ++ sample_json) ++ sample_json)
  = decode JsonSubset.loads 0 (sample_header ++ sample_json).
Proof.
  assert (Hh : len sample_header = 4) by reflexivity.
  assert (Hn : struct_unpack_I sample_header = len sample_json) by (vm_compute; reflexivity).
  split; [exact Hh|].
  exact (proj1 (decode_reads_one_frame JsonSubset.loads 0 sample_header sample_json
                  sample_json Hh Hn)).
Defined.

Lemma sample_stream_delivered :
  wire JsonSubset.dumps (List.map of_msg [sample_message; sample_message]) = Some sample_stream /\
  _handle_client JsonSubset.loads 3 0 sample_stream []
  = List.map of_msg [sample_message; sample_message].
Proof.
  assert (Hc : carried JsonSubset.dumps JsonSubset.loads sample_message).
  { split.
    - split.
      + intros es [= <-]. repeat constructor.
      + intros sl [= <-]. apply (bool_decide_unpack _). vm_compute. reflexivity.
    - exists sample_json. split; [vm_compute; reflexivity|].
      split; [vm_compute; reflexivity|]. split; vm_compute; [reflexivity | discriminate]. }
  assert (Hw : wire JsonSubset.dumps (List.map of_msg [sample_message; sample_message])
               = Some sample_stream) by (vm_compute; reflexivity).
  split; [exact Hw|].
  apply (stream_delivers_messages JsonSubset.dumps JsonSubset.loads 0
           [sample_message; sample_message] sample_stream 3).
  - constructor; [exact Hc|]. constructor; [exact Hc|]. constructor.
  - exact Hw.
  - cbn. lia.
Defined.

Lemma sample_cluster_ids :
  NoDup (sample_addr :: sample_peers) /\
  exists i, actual_node_id sample_addr sample_peers = Some i /\
            self_id sample_addr (sample_addr :: sample_peers) = Some i.
Proof.
  assert (Hnd : NoDup (sample_addr :: sample_peers))
    by (apply (bool_decide_unpack _); vm_compute; reflexivity).
  destruct (proj1 (node_id_matches_transport sample_addr sample_peers Hnd))
    as (i & H1 & H2 & _).
  split; [exact Hnd|]. exists i. split; [exact H1 | exact H2].
Defined.

Lemma sample_counter :
  sets sample_set (PInt 5) /\
  committed (sample_set :: sample_increments) (PInt 0) = Some (PInt 10).
Proof.
  assert (Hs : sets sample_set (PInt 5)).
  { eexists. split; [reflexivity|]. split; reflexivity. }
  assert (Hi : Forall2 adds sample_increments [2; 3]).
  { repeat constructor; (eexists; split; [reflexivity|]; split; reflexivity). }
  split; [exact Hs|].
  exact (counter_follows_commands [] (PInt 0) sample_set 5 sample_increments [2; 3]
           ltac:(discriminate) Hs Hi).
Defined.

End WireCoverage.
